(** * Hypergraph construction pipeline: a shallow embedding

    The development follows the Lambda functions of the pipeline: the
    file analyzer, the needs analysis agent, the V2 hypergraph builder
    and the graph extraction agent.

    Conventions.  Python [float] and [Decimal] arithmetic is read over
    the rationals [Q], without rounding; where the source compares or
    clamps values that may be NaN or infinite, floats carry them.
    Strings are sequences of code points below 128.  A [dict] whose order
    matters is an insertion-ordered association list, one that is only
    looked up a [gmap].  An exception is [None], or a constructor of its
    own where the source tells exceptions apart.  The clock, the object
    store and the library functions outside the repository (hash digests,
    [str], [float] on strings) are parameters. *)

From Stdlib Require Import QArith Qminmax Lqa ZArith Lia Bool Ascii String List Sorted.
From stdpp Require Import gmap strings list.
Import ListNotations.

Local Open Scope Q_scope.
Local Open Scope string_scope.
Local Open Scope list_scope.

(** ** Python built-ins used by the sources *)

Module Py.

(** [min(x, y)]: the first argument unless the second is smaller. *)
Definition min (x y : Q) : Q := if Qle_bool x y then x else y.

(** [max(x, y)]: the first argument unless the second is greater. *)
Definition max (x y : Q) : Q := if Qle_bool y x then x else y.

(** [sum(...)] over numbers. *)
Definition sum (l : list Q) : Q := fold_left Qplus l 0.

(** [len(...)] as a number. *)
Definition len {A} (l : list A) : Q := inject_Z (Z.of_nat (List.length l)).

(** [len(set(...))] over strings. *)
Definition len_set (l : list string) : Q :=
  inject_Z (Z.of_nat (size (list_to_set l : gset string))).

(** [max(...)] over a non-empty iterable of strings: the running maximum
    is replaced only by a strictly greater item. *)
Definition max_str (first : string) (rest : list string) : string :=
  fold_left (fun cur item => if String.ltb cur item then item else cur) rest first.

(** [x > y] on numbers. *)
Definition gt (x y : Q) : bool := negb (Qle_bool x y).

End Py.

(** ** Python strings *)

Module PyStr.

Definition is_upper (c : ascii) : bool :=
  let n := nat_of_ascii c in (65 <=? n)%nat && (n <=? 90)%nat.

Definition lower_char (c : ascii) : ascii :=
  if is_upper c then ascii_of_nat (nat_of_ascii c + 32) else c.

(** [s.lower()] *)
Fixpoint lower (s : string) : string :=
  match s with
  | EmptyString => EmptyString
  | String c s' => String (lower_char c) (lower s')
  end.

(** [s[:n]] *)
Definition slice_to (n : nat) (s : string) : string := substring 0 n s.

(** [c.isspace()], which is also the class [\s] of a [str] pattern:
    tab to carriage return, the four separators 28 to 31, and space. *)
Definition is_space (c : ascii) : bool :=
  let n := nat_of_ascii c in
  ((9 <=? n)%nat && (n <=? 13)%nat) || ((28 <=? n)%nat && (n <=? 32)%nat).

Definition is_alpha (c : ascii) : bool :=
  let n := nat_of_ascii c in
  ((65 <=? n)%nat && (n <=? 90)%nat) || ((97 <=? n)%nat && (n <=? 122)%nat).

Definition newline : ascii := ascii_of_nat 10.

Definition is_newline (c : ascii) : bool := Ascii.eqb c newline.

(** [len(s.split())]: the number of maximal runs of non-space characters.
    [in_word] tells whether the previous character was part of a word. *)
Fixpoint count_words (in_word : bool) (s : string) : nat :=
  match s with
  | EmptyString => 0
  | String c s' =>
      if is_space c then count_words false s'
      else ((if in_word then 0 else 1) + count_words true s')%nat
  end.

Definition word_count (s : string) : nat := count_words false s.

(** The number of maximal runs of characters of a class; [re.split] on
    [[class]+] returns one piece more than there are runs. *)
Fixpoint count_runs (cls : ascii -> bool) (in_run : bool) (s : string) : nat :=
  match s with
  | EmptyString => 0
  | String c s' =>
      if cls c then ((if in_run then 0 else 1) + count_runs cls true s')%nat
      else count_runs cls false s'
  end.

(** [sub in s] *)
Fixpoint contains (sub s : string) : bool :=
  String.prefix sub s ||
  match s with
  | EmptyString => false
  | String _ s' => contains sub s'
  end.

(** [s.count(sub)] for a non-empty [sub]: occurrences are counted from
    the left and do not overlap; [skip] characters belong to the last
    occurrence counted. *)
Fixpoint count_from (sub : string) (skip : nat) (s : string) : nat :=
  match s with
  | EmptyString => 0
  | String _ s' =>
      match skip with
      | S k => count_from sub k s'
      | O =>
          if String.prefix sub s
          then S (count_from sub (String.length sub - 1) s')
          else count_from sub 0 s'
      end
  end.

(** [s.count(sub)]; the empty string occurs between any two characters
    and at both ends. *)
Definition count (s sub : string) : nat :=
  match sub with
  | EmptyString => S (String.length s)
  | _ => count_from sub 0 s
  end.

(** [len(s.split(sep))] for a non-empty separator. *)
Definition split_count (s sep : string) : nat := S (count s sep).

(** [s.lstrip()], [s.rstrip()] and [s.strip()] *)
Fixpoint lstrip (s : string) : string :=
  match s with
  | EmptyString => EmptyString
  | String c s' => if is_space c then lstrip s' else s
  end.

Fixpoint rstrip (s : string) : string :=
  match s with
  | EmptyString => EmptyString
  | String c s' =>
      match rstrip s' with
      | EmptyString => if is_space c then EmptyString else String c EmptyString
      | r => String c r
      end
  end.

Definition strip (s : string) : string := lstrip (rstrip s).

(** The longest prefix of characters of a class, and what follows it. *)
Fixpoint span (cls : ascii -> bool) (s : string) : string * string :=
  match s with
  | EmptyString => (EmptyString, EmptyString)
  | String c s' =>
      if cls c
      then let (run, rest) := span cls s' in (String c run, rest)
      else (EmptyString, s)
  end.

End PyStr.

(** ** Insertion-ordered dictionaries

    A Python [dict] keeps its keys in insertion order and an assignment
    to an existing key keeps the key's position. *)

Module PyDict.
Section Dict.
Context {K V : Type} `{EqDecision K}.

Definition t := list (K * V).

Definition empty : t := [].

Fixpoint get (d : t) (k : K) : option V :=
  match d with
  | [] => None
  | (k', v) :: d' => if decide (k' = k) then Some v else get d' k
  end.

Definition get_default (d : t) (k : K) (dflt : V) : V :=
  match get d k with Some v => v | None => dflt end.

Definition contains (d : t) (k : K) : bool :=
  match get d k with Some _ => true | None => false end.

Fixpoint set (d : t) (k : K) (v : V) : t :=
  match d with
  | [] => [(k, v)]
  | (k', v') :: d' =>
      if decide (k' = k) then (k', v) :: d' else (k', v') :: set d' k v
  end.

Definition keys (d : t) : list K := map fst d.
Definition values (d : t) : list V := map snd d.
Definition items (d : t) : list (K * V) := d.

End Dict.
Arguments t : clear implicits.
End PyDict.

(** ** The V2 hypergraph builder: data model *)

Module BuilderV2.

Inductive NodeType :=
| PERSON | ORGANIZATION | CONCEPT | SKILL | NEED | BEHAVIORAL_PATTERN
| PERSONALITY_TRAIT | FINANCIAL_INSTRUMENT | BUSINESS_CONCEPT | TOPIC.

Inductive EdgeType :=
| DEMONSTRATES | RELATES_TO | INFLUENCES | REQUIRES | ENABLES | PART_OF
| SIMILAR_TO | WORKS_WITH | SPECIALIZES_IN | INTERVIEWS | DISCUSSES
| AFFILIATED_WITH | USES.

#[global] Instance NodeType_eq_dec : EqDecision NodeType.
Proof. solve_decision. Defined.

#[global] Instance EdgeType_eq_dec : EqDecision EdgeType.
Proof. solve_decision. Defined.

Module NodeTypeValue.
Definition value (t : NodeType) : string :=
  match t with
  | PERSON => "person"
  | ORGANIZATION => "organization"
  | CONCEPT => "concept"
  | SKILL => "skill"
  | NEED => "need"
  | BEHAVIORAL_PATTERN => "behavioral_pattern"
  | PERSONALITY_TRAIT => "personality_trait"
  | FINANCIAL_INSTRUMENT => "financial_instrument"
  | BUSINESS_CONCEPT => "business_concept"
  | TOPIC => "topic"
  end.
End NodeTypeValue.

Module EdgeTypeValue.
Definition value (t : EdgeType) : string :=
  match t with
  | DEMONSTRATES => "demonstrates"
  | RELATES_TO => "relates_to"
  | INFLUENCES => "influences"
  | REQUIRES => "requires"
  | ENABLES => "enables"
  | PART_OF => "part_of"
  | SIMILAR_TO => "similar_to"
  | WORKS_WITH => "works_with"
  | SPECIALIZES_IN => "specializes_in"
  | INTERVIEWS => "interviews"
  | DISCUSSES => "discusses"
  | AFFILIATED_WITH => "affiliated_with"
  | USES => "uses"
  end.
End EdgeTypeValue.

(** Free-form [Dict[str, Any]] payloads are carried along untouched. *)
Definition Props := list (string * string).

Module CleanEntity.
Record t := mk {
  text : string;
  entity_type : NodeType;
  confidence : Q;
  context : string;
  source : string;
  properties : Props;
  domain_relevance : Q
}.
End CleanEntity.

Module CleanRelationship.
Record t := mk {
  source_entity : string;
  target_entity : string;
  relationship_type : EdgeType;
  confidence : Q;
  evidence : list string;
  reasoning : string;
  source : string
}.
End CleanRelationship.

(** The [metadata] dictionaries the builder attaches to nodes and edges. *)
Record NodeMetadata := {
  node_extraction_source : string;
  node_context : string;
  node_domain_relevance : Q
}.

Record EdgeMetadata := {
  edge_extraction_source : string;
  relationship_strength : Q
}.

Module EnhancedHyperNode.
Record t := mk {
  id : string;
  content : string;
  node_type : NodeType;
  confidence : Q;
  timestamp : string;
  source : string;
  metadata : NodeMetadata;
  needs_classification : list (string * Q);
  domain_specific_properties : Props
}.
End EnhancedHyperNode.

Module EnhancedHyperEdge.
Record t := mk {
  id : string;
  source_node_id : string;
  target_node_id : string;
  edge_type : EdgeType;
  confidence : Q;
  timestamp : string;
  metadata : EdgeMetadata;
  evidence : list string;
  reasoning : string
}.
End EnhancedHyperEdge.

(** ** The V2 hypergraph builder: operations *)

Section Builder.

(** [hashlib.md5(data).hexdigest()], a library function outside the
    repository. *)
Variable md5_hexdigest : string -> string.

(** [EnhancedHypergraphBuilderV2._generate_node_id] *)
Definition _generate_node_id (content : string) (node_type : NodeType) : string :=
  let content_hash := PyStr.slice_to 8 (md5_hexdigest (PyStr.lower content)) in
  NodeTypeValue.value node_type +:+ "_" +:+ content_hash.

(** [EnhancedHypergraphBuilderV2._create_enhanced_hypernodes]; [timestamp]
    is the clock reading taken once at entry and [source] the [file_path]
    entry of the analysis data. *)
Definition _create_enhanced_hypernodes (timestamp source : string)
    (entities : list CleanEntity.t) : list EnhancedHyperNode.t :=
  map (fun entity =>
         EnhancedHyperNode.mk
           (_generate_node_id (CleanEntity.text entity) (CleanEntity.entity_type entity))
           (CleanEntity.text entity)
           (CleanEntity.entity_type entity)
           (CleanEntity.confidence entity)
           timestamp
           source
           {| node_extraction_source := CleanEntity.source entity;
              node_context := CleanEntity.context entity;
              node_domain_relevance := CleanEntity.domain_relevance entity |}
           []
           (CleanEntity.properties entity))
      entities.

End Builder.

(** The dictionary comprehension [{node.content.lower(): node.id for node
    in hypernodes}]: a later node overwrites an earlier one of the same
    lowercased content. *)
Definition node_lookup (hypernodes : list EnhancedHyperNode.t) : gmap string string :=
  fold_left (fun m node => <[PyStr.lower (EnhancedHyperNode.content node) :=
                               EnhancedHyperNode.id node]> m)
            hypernodes ∅.

(** Truth value of an [Optional[str]]: [None] and the empty string are
    false. *)
Definition truthy_id (o : option string) : bool :=
  match o with
  | Some s => negb (String.eqb s "")
  | None => false
  end.

Definition make_edge (timestamp : string) (rel : CleanRelationship.t)
    (source_id target_id : string) : EnhancedHyperEdge.t :=
  let edge_id := "edge_" +:+ source_id +:+ "_" +:+ target_id +:+ "_"
                 +:+ EdgeTypeValue.value (CleanRelationship.relationship_type rel) in
  EnhancedHyperEdge.mk edge_id source_id target_id
    (CleanRelationship.relationship_type rel)
    (CleanRelationship.confidence rel)
    timestamp
    {| edge_extraction_source := CleanRelationship.source rel;
       relationship_strength := CleanRelationship.confidence rel |}
    (CleanRelationship.evidence rel)
    (CleanRelationship.reasoning rel).

(** One iteration of the loop of [_create_enhanced_hyperedges]: the edge
    appended for [rel], if any. *)
Definition relationship_edges (lookup : gmap string string) (timestamp : string)
    (rel : CleanRelationship.t) : list EnhancedHyperEdge.t :=
  let source_id := lookup !! PyStr.lower (CleanRelationship.source_entity rel) in
  let target_id := lookup !! PyStr.lower (CleanRelationship.target_entity rel) in
  if truthy_id source_id && truthy_id target_id
  then match source_id, target_id with
       | Some s, Some t => [make_edge timestamp rel s t]
       | _, _ => []
       end
  else [].

(** [EnhancedHypergraphBuilderV2._create_enhanced_hyperedges] *)
Definition _create_enhanced_hyperedges (timestamp : string)
    (relationships : list CleanRelationship.t)
    (hypernodes : list EnhancedHyperNode.t) : list EnhancedHyperEdge.t :=
  flat_map (relationship_edges (node_lookup hypernodes) timestamp) relationships.

(** [EnhancedHypergraphBuilderV2._calculate_quality_score] *)
Definition _calculate_quality_score (nodes : list EnhancedHyperNode.t)
    (edges : list EnhancedHyperEdge.t) : Q :=
  match nodes with
  | [] => 0
  | _ =>
    let avg_node_confidence :=
      Py.sum (map EnhancedHyperNode.confidence nodes) / Py.len nodes in
    let avg_edge_confidence :=
      match edges with
      | [] => 0
      | _ => Py.sum (map EnhancedHyperEdge.confidence edges) / Py.len edges
      end in
    let entity_types :=
      Py.len_set (map (fun node => NodeTypeValue.value (EnhancedHyperNode.node_type node)) nodes) in
    let diversity_score := Py.min (entity_types / 6) 1 in
    let relationship_types :=
      match edges with
      | [] => 0
      | _ => Py.len_set (map (fun edge => EdgeTypeValue.value (EnhancedHyperEdge.edge_type edge)) edges)
      end in
    let rel_diversity_score := Py.min (relationship_types / 5) 1 in
    (3 # 10) * avg_node_confidence
    + (3 # 10) * avg_edge_confidence
    + (2 # 10) * diversity_score
    + (2 # 10) * rel_diversity_score
  end.

(** The connection counter of [_generate_graph_insights]: every edge adds
    one to its source and then one to its target. *)
Definition bump (node_connections : PyDict.t string Z) (node_id : string) : PyDict.t string Z :=
  PyDict.set node_connections node_id (PyDict.get_default node_connections node_id 0%Z + 1)%Z.

Definition count_connections (edges : list EnhancedHyperEdge.t) : PyDict.t string Z :=
  fold_left (fun acc edge =>
               bump (bump acc (EnhancedHyperEdge.source_node_id edge))
                    (EnhancedHyperEdge.target_node_id edge))
            edges PyDict.empty.

(** [sorted(items, key=lambda x: x[1], reverse=True)]: a stable sort, so
    items of equal count keep their order. *)
Fixpoint insert_desc (x : string * Z) (l : list (string * Z)) : list (string * Z) :=
  match l with
  | [] => [x]
  | y :: l' => if (snd x <? snd y)%Z then y :: insert_desc x l' else x :: l
  end.

Definition sorted_desc (l : list (string * Z)) : list (string * Z) :=
  fold_right insert_desc [] l.

Record GraphInsights := {
  central_entities : list string;
  graph_density : Q;
  most_common_relationship : string;
  entity_diversity : Z;
  quality_score : Q
}.

(** [EnhancedHypergraphBuilderV2._generate_graph_insights] *)
Definition _generate_graph_insights (nodes : list EnhancedHyperNode.t)
    (edges : list EnhancedHyperEdge.t) : GraphInsights :=
  let node_connections := count_connections edges in
  let most_connected := firstn 3 (sorted_desc (PyDict.items node_connections)) in
  let lookup : gmap string string :=
    fold_left (fun m node => <[EnhancedHyperNode.id node := EnhancedHyperNode.content node]> m)
              nodes ∅ in
  {| central_entities :=
       map (fun item => default "Unknown" (lookup !! fst item)) most_connected;
     graph_density :=
       if (1 <? Z.of_nat (List.length nodes))%Z
       then Py.len edges / (Py.len nodes * (Py.len nodes - 1))
       else 0;
     most_common_relationship :=
       match map (fun edge => EdgeTypeValue.value (EnhancedHyperEdge.edge_type edge)) edges with
       | [] => "none"
       | first :: rest => Py.max_str first rest
       end;
     entity_diversity :=
       Z.of_nat (size (list_to_set (map (fun node => NodeTypeValue.value (EnhancedHyperNode.node_type node)) nodes) : gset string));
     quality_score := _calculate_quality_score nodes edges |}.

End BuilderV2.

(** ** The file analyzer *)

Module FileAnalyzer.

Definition is_sentence_end (c : ascii) : bool :=
  Ascii.eqb c "." || Ascii.eqb c "!" || Ascii.eqb c "?".

(** The class [[A-Za-z\s]] of the speaker pattern. *)
Definition is_speaker_char (c : ascii) : bool := PyStr.is_alpha c || PyStr.is_space c.

(** One attempt of the pattern [^([A-Za-z\s]+):\s*] at the start of [s],
    a position where [^] holds: the group and the length of the match.
    The class excludes the colon, so the greedy run is followed by the
    colon or the attempt fails. *)
Definition speaker_match (s : string) : option (string * nat) :=
  let (name, rest) := PyStr.span is_speaker_char s in
  match name, rest with
  | String _ _, String c rest' =>
      if Ascii.eqb c ":"
      then let (blanks, _) := PyStr.span PyStr.is_space rest' in
           Some (name, (String.length name + 1 + String.length blanks)%nat)
      else None
  | _, _ => None
  end.

(** [re.findall(speaker_pattern, content, re.MULTILINE)]: matches are
    searched from the left, each after the end of the one before; [^]
    holds at the start and after every newline.  [at_line_start] tells
    whether [^] holds here, [skip] how many characters the last match
    still covers. *)
Fixpoint findall_speakers (at_line_start : bool) (skip : nat) (s : string)
    : list string :=
  match s with
  | EmptyString => []
  | String c s' =>
      let next := PyStr.is_newline c in
      match skip with
      | S k => findall_speakers next k s'
      | O =>
          if at_line_start
          then match speaker_match s with
               | Some (name, n) => name :: findall_speakers next (n - 1) s'
               | None => findall_speakers next 0 s'
               end
          else findall_speakers next 0 s'
      end
  end.

Definition word_count (content : string) : nat := PyStr.word_count content.

Definition sentence_count (content : string) : nat :=
  S (PyStr.count_runs is_sentence_end false content).

Definition paragraph_count (content : string) : nat :=
  PyStr.split_count content (String PyStr.newline (String PyStr.newline EmptyString)).

Definition speakers (content : string) : gset string :=
  list_to_set (findall_speakers true 0 content).

Definition speaker_count (content : string) : nat := size (speakers content).

Definition technical_keywords : list string :=
  ["technology"; "software"; "engineering"; "development"; "system"; "algorithm"].

(** [sum(1 for keyword in technical_keywords if keyword in content.lower())] *)
Definition technical_hits (content : string) : nat :=
  List.length (List.filter (fun keyword => PyStr.contains keyword (PyStr.lower content))
                      technical_keywords).

Definition of_nat (n : nat) : Q := inject_Z (Z.of_nat n).

(** [FileAnalyzer.analyze_content_complexity]; the sentence count is
    computed and then left unused, as in the source. *)
Definition analyze_content_complexity (content : string) : Q :=
  let word_count := of_nat (word_count content) in
  let sentence_count := of_nat (sentence_count content) in
  let paragraph_count := of_nat (paragraph_count content) in
  let speaker_count := of_nat (speaker_count content) in
  let word_complexity := Py.min (word_count / 2000) 1 * (3 # 10) in
  let structure_complexity := Py.min (speaker_count / 5) 1 * (3 # 10) in
  let length_complexity := Py.min (paragraph_count / 20) 1 * (2 # 10) in
  let technical_score :=
    of_nat (technical_hits content) / of_nat (List.length technical_keywords) in
  let technical_complexity := technical_score * (2 # 10) in
  let total_complexity :=
    word_complexity + structure_complexity + length_complexity + technical_complexity in
  Py.min total_complexity 1.

End FileAnalyzer.

(** ** The needs analysis agent *)

Module NeedsAnalysis.

Inductive HumanNeed :=
| CERTAINTY | VARIETY | SIGNIFICANCE | CONNECTION | GROWTH | CONTRIBUTION.

#[global] Instance HumanNeed_eq_dec : EqDecision HumanNeed.
Proof. solve_decision. Defined.

Definition value (need : HumanNeed) : string :=
  match need with
  | CERTAINTY => "certainty"
  | VARIETY => "variety"
  | SIGNIFICANCE => "significance"
  | CONNECTION => "connection"
  | GROWTH => "growth"
  | CONTRIBUTION => "contribution"
  end.

(** [for need in HumanNeed], in declaration order. *)
Definition all_HumanNeed : list HumanNeed :=
  [CERTAINTY; VARIETY; SIGNIFICANCE; CONNECTION; GROWTH; CONTRIBUTION].

(** A score is a [float] or a [decimal.Decimal]; Python refuses to
    multiply one by the other. *)
Inductive number :=
| Float (q : Q)
| Dec (q : Q).

(** [c * x] for a float literal [c]: a [TypeError] on a [Decimal]. *)
Definition float_mul (c : Q) (x : number) : option Q :=
  match x with
  | Float q => Some (c * q)
  | Dec _ => None
  end.

Record Indicators := {
  keywords : list string;
  phrases : list string;
  context_clues : list string
}.

(** [InterviewNeedsAnalyzer.needs_indicators] *)
Definition needs_indicators (need : HumanNeed) : Indicators :=
  match need with
  | CERTAINTY =>
      {| keywords := ["security"; "stable"; "predictable"; "safe"; "routine";
                      "control"; "plan"; "structure"];
         phrases := ["need to know"; "want certainty"; "feel secure"; "have control";
                     "planned approach"];
         context_clues := ["risk aversion"; "detailed planning"; "systematic approach"] |}
  | VARIETY =>
      {| keywords := ["adventure"; "new"; "different"; "change"; "explore"; "variety";
                      "diverse"; "exciting"];
         phrases := ["try new things"; "love variety"; "get bored easily"; "need change";
                     "different experiences"];
         context_clues := ["career changes"; "multiple interests"; "travel experiences"] |}
  | SIGNIFICANCE =>
      {| keywords := ["important"; "special"; "unique"; "recognition"; "achievement";
                      "success"; "impact"; "leader"];
         phrases := ["make a difference"; "be recognized"; "stand out";
                     "achieve something"; "be remembered"];
         context_clues := ["leadership roles"; "awards"; "achievements"; "public speaking"] |}
  | CONNECTION =>
      {| keywords := ["family"; "friends"; "team"; "community"; "relationship";
                      "together"; "belong"; "love"];
         phrases := ["work with others"; "part of team"; "close relationships";
                     "feel connected"; "belong to"];
         context_clues := ["team projects"; "mentoring"; "collaboration"; "family mentions"] |}
  | GROWTH =>
      {| keywords := ["learn"; "develop"; "grow"; "improve"; "progress"; "evolve";
                      "better"; "skills"];
         phrases := ["keep learning"; "personal growth"; "develop skills"; "get better";
                     "continuous improvement"];
         context_clues := ["education"; "training"; "skill development";
                           "career progression"] |}
  | CONTRIBUTION =>
      {| keywords := ["help"; "serve"; "give"; "contribute"; "impact"; "difference";
                      "society"; "world"];
         phrases := ["help others"; "give back"; "make impact"; "serve community";
                     "contribute to"];
         context_clues := ["volunteering"; "social causes"; "mentoring others";
                           "community service"] |}
  end.

Definition of_nat (n : nat) : Q := inject_Z (Z.of_nat n).

(** [sum(1 for x in xs if x in content_lower)] *)
Definition hits (xs : list string) (content_lower : string) : nat :=
  List.length (List.filter (fun x => PyStr.contains x content_lower) xs).

(** The score [analyze_needs_keywords] gives one need. *)
Definition keyword_need_score (content : string) (need : HumanNeed) : Q :=
  let content_lower := PyStr.lower content in
  let word_count := of_nat (PyStr.word_count content) in
  let indicators := needs_indicators need in
  let keyword_matches :=
    of_nat (list_sum (map (PyStr.count content_lower) (keywords indicators))) in
  let keyword_score :=
    Py.min (keyword_matches / Py.max (word_count / 100) 1) 1 * (4 # 10) in
  let phrase_matches := of_nat (hits (phrases indicators) content_lower) in
  let phrase_score :=
    Py.min (phrase_matches / Py.max (of_nat (List.length (phrases indicators))) 1) 1
    * (3 # 10) in
  let context_matches := of_nat (hits (context_clues indicators) content_lower) in
  let context_score :=
    Py.min (context_matches / Py.max (of_nat (List.length (context_clues indicators))) 1) 1
    * (3 # 10) in
  let score := keyword_score + phrase_score + context_score in
  Py.min score 1.

(** [InterviewNeedsAnalyzer.analyze_needs_keywords] *)
Definition analyze_needs_keywords (content : string) : PyDict.t HumanNeed number :=
  fold_left (fun needs_scores need =>
               PyDict.set needs_scores need (Float (keyword_need_score content need)))
            all_HumanNeed PyDict.empty.

(** [InterviewNeedsAnalyzer.combine_needs_scores]; [None] stands for the
    [TypeError] of a float multiplied by a [Decimal]. *)
Fixpoint combine_loop (keyword_scores llm_scores : PyDict.t HumanNeed number)
    (needs : list HumanNeed) (combined_scores : PyDict.t HumanNeed Q)
    : option (PyDict.t HumanNeed Q) :=
  match needs with
  | [] => Some combined_scores
  | need :: rest =>
      let keyword_score := PyDict.get_default keyword_scores need (Float 0) in
      let llm_score := PyDict.get_default llm_scores need (Float 0) in
      weighted_keyword ← float_mul (3 # 10) keyword_score;
      weighted_llm ← float_mul (7 # 10) llm_score;
      let combined_score := weighted_keyword + weighted_llm in
      combine_loop keyword_scores llm_scores rest
                   (PyDict.set combined_scores need combined_score)
  end.

Definition combine_needs_scores (keyword_scores llm_scores : PyDict.t HumanNeed number)
    : option (PyDict.t HumanNeed Q) :=
  combine_loop keyword_scores llm_scores all_HumanNeed PyDict.empty.

(** *** The path the Lambda handler takes: [analyze_human_needs] *)

Definition all_needs : list string :=
  ["certainty"; "variety"; "significance"; "connection"; "growth"; "contribution"].

(** [get_content_aware_fallback_score] *)
Definition get_content_aware_fallback_score (need content_type : string) : Q :=
  let base_score := 4 # 10 in
  if String.eqb content_type "financial_advice" then
    PyDict.get_default
      [("certainty", 8 # 10); ("growth", 6 # 10); ("significance", 5 # 10);
       ("contribution", 5 # 10); ("connection", 4 # 10); ("variety", 3 # 10)]
      need base_score
  else if String.eqb content_type "interview_transcript" then
    PyDict.get_default
      [("significance", 8 # 10); ("growth", 7 # 10); ("connection", 6 # 10);
       ("variety", 5 # 10); ("certainty", 4 # 10); ("contribution", 4 # 10)]
      need base_score
  else base_score.

(** [d[k] += x] on a dictionary that holds [k]. *)
Definition add_to (d : PyDict.t string Q) (k : string) (x : Q) : PyDict.t string Q :=
  PyDict.set d k (PyDict.get_default d k 0 + x).

(** [d.update(pairs)] *)
Definition update (d pairs : PyDict.t string Q) : PyDict.t string Q :=
  fold_left (fun acc kv => PyDict.set acc (fst kv) (snd kv)) pairs d.

(** [get_content_aware_scores] *)
Definition get_content_aware_scores (content_type : string) (themes : list string)
    : PyDict.t string Q :=
  let base_scores :=
    [("certainty", 4 # 10); ("variety", 4 # 10); ("significance", 4 # 10);
     ("connection", 4 # 10); ("growth", 4 # 10); ("contribution", 4 # 10)] in
  let base_scores :=
    if String.eqb content_type "financial_advice" then
      update base_scores
        [("certainty", 8 # 10); ("growth", 6 # 10); ("significance", 5 # 10)]
    else if String.eqb content_type "interview_transcript" then
      update base_scores
        [("significance", 8 # 10); ("growth", 7 # 10); ("connection", 6 # 10);
         ("variety", 5 # 10)]
    else base_scores in
  let base_scores :=
    fold_left (fun scores theme =>
      let theme_lower := PyStr.lower theme in
      if PyStr.contains "leadership" theme_lower then
        add_to (add_to scores "significance" (2 # 10)) "connection" (1 # 10)
      else if PyStr.contains "innovation" theme_lower
              || PyStr.contains "technology" theme_lower then
        add_to (add_to scores "growth" (2 # 10)) "variety" (1 # 10)
      else if PyStr.contains "risk" theme_lower
              || PyStr.contains "security" theme_lower then
        add_to scores "certainty" (2 # 10)
      else scores) themes base_scores in
  map (fun kv => (fst kv, Py.min (Py.max (snd kv) 0) 1)) base_scores.

(** What the model call and the parsing of its answer leave in
    [result['needs_scores']] before the completion loop of
    [enhanced_response_parser]: the scores read from the answer, or a
    failure (any exception on the way). *)
Inductive LlmOutcome :=
| LlmFailed
| LlmScores (needs_scores : PyDict.t string Q).

(** The completion loop of [enhanced_response_parser]: a need the answer
    lacks gets the content-aware fallback score. *)
Definition ensure_all_needs (content_type : string) (needs_scores : PyDict.t string Q)
    : PyDict.t string Q :=
  fold_left (fun scores need =>
               if PyDict.contains scores need then scores
               else PyDict.set scores need
                      (get_content_aware_fallback_score need content_type))
            all_needs needs_scores.

(** The [needs_scores] entry of the result of [analyze_human_needs].  The
    text goes into the prompt only, so it reaches the result through
    [outcome] alone. *)
Definition analyze_human_needs (text content_type : string) (themes : list string)
    (outcome : LlmOutcome) : PyDict.t string Q :=
  match outcome with
  | LlmScores needs_scores => ensure_all_needs content_type needs_scores
  | LlmFailed => get_content_aware_scores content_type themes
  end.

End NeedsAnalysis.

(** ** JSON payloads as Python values *)

Module PyVal.

(** A [float]: a number, an infinity or a NaN. *)
Inductive pyfloat :=
| Finite (q : Q)
| PosInf
| NegInf
| NaN.

(** What [json.loads] builds. *)
#[warnings="-register-all"] Inductive t :=
| PNone
| PBool (b : bool)
| PInt (z : Z)
| PFloat (f : pyfloat)
| PStr (s : string)
| PList (l : list t)
| PDict (d : list (string * t)).

(** [x < y] on floats; every comparison with a NaN is false. *)
Definition flt (x y : pyfloat) : bool :=
  match x, y with
  | NaN, _ | _, NaN => false
  | NegInf, NegInf => false
  | NegInf, _ => true
  | _, NegInf => false
  | PosInf, _ => false
  | Finite _, PosInf => true
  | Finite a, Finite b => negb (Qle_bool b a)
  end.

(** [min(x, y)] and [max(x, y)] on floats: the first argument unless the
    second is smaller, respectively greater. *)
Definition fmin (x y : pyfloat) : pyfloat := if flt y x then y else x.
Definition fmax (x y : pyfloat) : pyfloat := if flt x y then y else x.

(** [bool(v)] *)
Definition truthy (v : t) : bool :=
  match v with
  | PNone => false
  | PBool b => b
  | PInt z => negb (z =? 0)%Z
  | PFloat (Finite q) => negb (Qeq_bool q 0)
  | PFloat _ => true
  | PStr s => negb (String.eqb s "")
  | PList l => match l with [] => false | _ => true end
  | PDict d => match d with [] => false | _ => true end
  end.

(** [len(v)]; [None] stands for the [TypeError] of a value without a
    length. *)
Definition len (v : t) : option nat :=
  match v with
  | PStr s => Some (String.length s)
  | PList l => Some (List.length l)
  | PDict d => Some (List.length d)
  | _ => None
  end.

End PyVal.

(** ** The V2 builder: deduplication of entities *)

Module EntityDedup.
Import PyVal.

(** A [CleanEntity] as [_deduplicate_entities] receives it.  The
    confidence is the Python float of the dataclass: the LLM extraction
    stores the [confidence] of the model's JSON answer as it comes, and
    [json.loads] reads [NaN] and [Infinity]. *)
Module CleanEntity.
Record t := mk {
  text : string;
  entity_type : BuilderV2.NodeType;
  confidence : pyfloat;
  context : string;
  source : string;
  properties : BuilderV2.Props;
  domain_relevance : Q
}.
End CleanEntity.






End EntityDedup.

(** ** The graph extraction agent *)

Module GraphExtraction.
Import PyVal.

Definition Dict := PyDict.t string PyVal.t.

Module ExtractedNode.
Record t := mk {
  id : string;
  customer_id : string;
  label : string;
  node_type : string;
  confidence : pyfloat;
  attributes : Dict;
  source_file : string;
  created_at : string;
  metadata : Dict
}.
End ExtractedNode.

Module ExtractedEdge.
Record t := mk {
  id : string;
  customer_id : string;
  source_node_id : PyVal.t;
  target_node_id : PyVal.t;
  relationship_type : string;
  weight : pyfloat;
  attributes : Dict;
  source_file : string;
  created_at : string;
  metadata : Dict
}.
End ExtractedEdge.

(** [HypergraphParser.supported_node_types] and [supported_edge_types] *)
Definition supported_node_types : gset string :=
  list_to_set ["person"; "organization"; "concept"; "skill"; "need";
               "behavioral_pattern"; "personality_trait"; "financial_instrument";
               "business_concept"; "topic"].

Definition supported_edge_types : gset string :=
  list_to_set ["demonstrates"; "relates_to"; "influences"; "requires"; "enables";
               "part_of"; "similar_to"; "works_with"; "specializes_in"; "interviews";
               "discusses"; "affiliated_with"; "uses"].

Section Parser.

(** Library functions outside the repository: [hashlib.sha256(data)
    .hexdigest()], the text [str(v)] of a value that is not a string,
    [float(s)] on a string (a [ValueError] is [None]), and
    [dict.update] with an argument that is not a dictionary. *)
Variable sha256_hexdigest : string -> string.
Variable str_of_value : PyVal.t -> string.
Variable float_of_string : string -> option pyfloat.
Variable update_from_iterable : Dict -> PyVal.t -> option Dict.

(** The clock: the [n]-th reading of [datetime.now(timezone.utc)
    .isoformat()] during a call. *)
Variable clock : nat -> string.

(** [f"{v}"] *)
Definition format (v : PyVal.t) : string :=
  match v with
  | PStr s => s
  | _ => str_of_value v
  end.

(** [float(v)]; [None] stands for a [TypeError] or [ValueError].  Floats
    are read over the rationals, so an integer beyond the range of a
    float is converted like any other. *)
Definition to_float (v : PyVal.t) : option pyfloat :=
  match v with
  | PFloat f => Some f
  | PInt z => Some (Finite (inject_Z z))
  | PBool b => Some (Finite (if b then 1 else 0))
  | PStr s => float_of_string s
  | _ => None
  end.

(** [v.lower()] and [v.strip()]; [None] stands for the [AttributeError]
    of a value that is not a string. *)
Definition lower_of (v : PyVal.t) : option string :=
  match v with
  | PStr s => Some (PyStr.lower s)
  | _ => None
  end.

Definition strip_of (v : PyVal.t) : option string :=
  match v with
  | PStr s => Some (PyStr.strip s)
  | _ => None
  end.

(** [max(0.0, min(1.0, x))] *)
Definition clamp (x : pyfloat) : pyfloat :=
  fmax (Finite 0) (fmin (Finite 1) x).

(** [HypergraphParser._generate_node_id] *)
Definition _generate_node_id (hypernode : Dict) (customer_id : string) : string :=
  let content := PyDict.get_default hypernode "content" (PStr "") in
  let node_type := PyDict.get_default hypernode "node_type" (PStr "concept") in
  let hash_input := customer_id +:+ ":" +:+ format node_type +:+ ":" +:+ format content in
  let hash_value := PyStr.slice_to 16 (sha256_hexdigest hash_input) in
  "node_" +:+ hash_value.

(** [HypergraphParser._generate_edge_id] *)
Definition _generate_edge_id (hyperedge : Dict) (customer_id : string) : string :=
  let source_id := PyDict.get_default hyperedge "source_node_id" (PStr "") in
  let target_id := PyDict.get_default hyperedge "target_node_id" (PStr "") in
  let edge_type := PyDict.get_default hyperedge "edge_type" (PStr "relates_to") in
  let hash_input :=
    customer_id +:+ ":" +:+ format source_id +:+ ":" +:+ format target_id
    +:+ ":" +:+ format edge_type in
  let hash_value := PyStr.slice_to 16 (sha256_hexdigest hash_input) in
  "edge_" +:+ hash_value.

(** [max(d.items(), key=lambda x: float(x[1]))] on a non-empty
    dictionary: the first item of greatest key; [None] when some value has
    no float. *)
Fixpoint max_item (best : string * PyVal.t) (best_key : pyfloat)
    (items : list (string * PyVal.t)) : option (string * PyVal.t) :=
  match items with
  | [] => Some best
  | item :: rest =>
      key ← to_float (snd item);
      if flt best_key key then max_item item key rest else max_item best best_key rest
  end.

(** [HypergraphParser._build_node_attributes] *)
Definition _build_node_attributes (hypernode : Dict) : option Dict :=
  let attributes : Dict := PyDict.empty in
  let attributes :=
    match PyDict.get hypernode "timestamp" with
    | Some v => PyDict.set attributes "original_timestamp" v
    | None => attributes
    end in
  let attributes :=
    match PyDict.get hypernode "source" with
    | Some v => PyDict.set attributes "extraction_source" v
    | None => attributes
    end in
  let needs_classification :=
    PyDict.get_default hypernode "needs_classification" (PDict []) in
  attributes ←
    (if truthy needs_classification then
       let attributes := PyDict.set attributes "needs_scores" needs_classification in
       match needs_classification with
       | PDict (first :: rest) =>
           first_key ← to_float (snd first);
           dominant_need ← max_item first first_key rest;
           score ← to_float (snd dominant_need);
           Some (PyDict.set
                   (PyDict.set attributes "dominant_need" (PStr (fst dominant_need)))
                   "dominant_need_score" (PFloat score))
       | _ => None
       end
     else Some attributes);
  let domain_props :=
    PyDict.get_default hypernode "domain_specific_properties" (PDict []) in
  if truthy domain_props then
    match domain_props with
    | PDict props =>
        Some (fold_left (fun acc kv => PyDict.set acc (fst kv) (snd kv)) props attributes)
    | _ => update_from_iterable attributes domain_props
    end
  else Some attributes.

(** [HypergraphParser._build_edge_attributes] *)
Definition _build_edge_attributes (hyperedge : Dict) : option Dict :=
  let attributes : Dict := PyDict.empty in
  let attributes :=
    match PyDict.get hyperedge "timestamp" with
    | Some v => PyDict.set attributes "original_timestamp" v
    | None => attributes
    end in
  let evidence := PyDict.get_default hyperedge "evidence" (PList []) in
  attributes ←
    (if truthy evidence then
       n ← PyVal.len evidence;
       Some (PyDict.set (PyDict.set attributes "evidence" evidence)
                        "evidence_count" (PInt (Z.of_nat n)))
     else Some attributes);
  let reasoning := PyDict.get_default hyperedge "reasoning" (PStr "") in
  Some (if truthy reasoning then PyDict.set attributes "reasoning" reasoning
        else attributes).

(** [HypergraphParser._build_node_metadata] and [_build_edge_metadata],
    which read the clock once; [tick] counts the readings so far. *)
Definition _build_metadata (record : Dict) (tick : nat) : Dict :=
  let metadata : Dict := PyDict.empty in
  let original_metadata := PyDict.get_default record "metadata" (PDict []) in
  let metadata :=
    if truthy original_metadata
    then PyDict.set metadata "original_metadata" original_metadata
    else metadata in
  let metadata := PyDict.set metadata "extraction_method" (PStr "enhanced_hypergraph_v2") in
  PyDict.set metadata "extraction_timestamp" (PStr (clock tick)).

(** The body of the loop of [_extract_nodes] up to the first exception;
    [None] stands for an exception, which the loop logs and skips. *)
Definition try_extract_node (customer_id source_file current_time : string)
    (tick : nat) (hypernode : Dict) : option ExtractedNode.t :=
  let node_id := _generate_node_id hypernode customer_id in
  node_type ← lower_of (PyDict.get_default hypernode "node_type" (PStr "concept"));
  let node_type :=
    if bool_decide (node_type ∈ supported_node_types) then node_type else "concept" in
  confidence ← to_float (PyDict.get_default hypernode "confidence" (PFloat (Finite (1 # 2))));
  let confidence := clamp confidence in
  attributes ← _build_node_attributes hypernode;
  let metadata := _build_metadata hypernode tick in
  stripped ← strip_of (PyDict.get_default hypernode "content" (PStr ""));
  let label :=
    if negb (String.eqb stripped "") then stripped
    else "Node_" +:+ PyStr.slice_to 8 node_id in
  Some (ExtractedNode.mk node_id customer_id label node_type confidence attributes
          source_file current_time metadata).

(** A node reads the clock when its body gets as far as the metadata. *)
Definition node_reads_clock (hypernode : Dict) : bool :=
  match lower_of (PyDict.get_default hypernode "node_type" (PStr "concept")),
        to_float (PyDict.get_default hypernode "confidence" (PFloat (Finite (1 # 2)))),
        _build_node_attributes hypernode with
  | Some _, Some _, Some _ => true
  | _, _, _ => false
  end.

(** The loop of [_extract_nodes], from the [tick]-th clock reading on. *)
Fixpoint extract_nodes_from (customer_id source_file current_time : string)
    (tick : nat) (hypernodes : list Dict) : list ExtractedNode.t :=
  match hypernodes with
  | [] => []
  | hypernode :: rest =>
      let tick' := if node_reads_clock hypernode then S tick else tick in
      match try_extract_node customer_id source_file current_time tick hypernode with
      | Some node => node :: extract_nodes_from customer_id source_file current_time tick' rest
      | None => extract_nodes_from customer_id source_file current_time tick' rest
      end
  end.

(** [HypergraphParser._extract_nodes] *)
Definition _extract_nodes (hypernodes : list Dict) (customer_id source_file : string)
    : list ExtractedNode.t :=
  let current_time := clock 0 in
  extract_nodes_from customer_id source_file current_time 1 hypernodes.

(** The outcome of one iteration of the loop of [_extract_edges]. *)
Inductive EdgeOutcome :=
| EdgeExtracted (edge : ExtractedEdge.t)
| EdgeDropped
| EdgeFailed.

Definition try_extract_edge (customer_id source_file current_time : string)
    (tick : nat) (hyperedge : Dict) : EdgeOutcome :=
  let edge_id := _generate_edge_id hyperedge customer_id in
  let source_node_id := PyDict.get_default hyperedge "source_node_id" (PStr "") in
  let target_node_id := PyDict.get_default hyperedge "target_node_id" (PStr "") in
  if negb (truthy source_node_id) || negb (truthy target_node_id) then EdgeDropped
  else
    match
      edge_type ← lower_of (PyDict.get_default hyperedge "edge_type" (PStr "relates_to"));
      let edge_type :=
        if bool_decide (edge_type ∈ supported_edge_types) then edge_type
        else "relates_to" in
      weight ← to_float (PyDict.get_default hyperedge "confidence" (PFloat (Finite (1 # 2))));
      let weight := clamp weight in
      attributes ← _build_edge_attributes hyperedge;
      let metadata := _build_metadata hyperedge tick in
      Some (ExtractedEdge.mk edge_id customer_id source_node_id target_node_id edge_type
              weight attributes source_file current_time metadata)
    with
    | Some edge => EdgeExtracted edge
    | None => EdgeFailed
    end.

Definition edge_reads_clock (hyperedge : Dict) : bool :=
  truthy (PyDict.get_default hyperedge "source_node_id" (PStr ""))
  && truthy (PyDict.get_default hyperedge "target_node_id" (PStr ""))
  && match lower_of (PyDict.get_default hyperedge "edge_type" (PStr "relates_to")),
           to_float (PyDict.get_default hyperedge "confidence" (PFloat (Finite (1 # 2)))),
           _build_edge_attributes hyperedge with
     | Some _, Some _, Some _ => true
     | _, _, _ => false
     end.

Fixpoint extract_edges_from (customer_id source_file current_time : string)
    (tick : nat) (hyperedges : list Dict) : list ExtractedEdge.t :=
  match hyperedges with
  | [] => []
  | hyperedge :: rest =>
      let tick' := if edge_reads_clock hyperedge then S tick else tick in
      match try_extract_edge customer_id source_file current_time tick hyperedge with
      | EdgeExtracted edge =>
          edge :: extract_edges_from customer_id source_file current_time tick' rest
      | _ => extract_edges_from customer_id source_file current_time tick' rest
      end
  end.

(** [HypergraphParser._extract_edges] *)
Definition _extract_edges (hyperedges : list Dict) (customer_id source_file : string)
    : list ExtractedEdge.t :=
  let current_time := clock 0 in
  extract_edges_from customer_id source_file current_time 1 hyperedges.

End Parser.

(** *** Storage with retries *)

(** What one call of [s3_client.put_object] does: it returns, it raises
    a [ClientError] or [BotoCoreError], or it raises another exception. *)
Inductive PutOutcome :=
| PutOk
| PutBotoError (message : string)
| PutOtherError (message : string).

(** The effects of [_store_json_with_retry] on the world, in order. *)
Inductive Event :=
| PutObject (bucket key body : string)
| Sleep (seconds : Q).

Inductive Exn :=
| S3StorageError (key : string) (attempts : nat) (cause : string)
| OtherError (message : string).

Inductive Result :=
| Returned
| Raised (e : Exn).

Module S3GraphStorage.
Record t := mk {
  bucket_name : string;
  max_retries : nat;
  base_delay : Q
}.
End S3GraphStorage.

(** [S3GraphStorage.__init__]; [bucket_name] is the argument or the
    environment's default. *)
Definition S3GraphStorage_init (bucket_name : string) : S3GraphStorage.t :=
  S3GraphStorage.mk bucket_name 3 1.

(** [2 ** attempt] *)
Definition pow2 (attempt : nat) : Q := inject_Z (2 ^ Z.of_nat attempt).

(** The loop [for attempt in range(self.max_retries)] of
    [_store_json_with_retry] over the attempts still to make; [s3] gives
    the outcome of the [attempt]-th call of [put_object]. *)
Fixpoint retry_loop (self : S3GraphStorage.t) (s3 : nat -> PutOutcome)
    (s3_key json_data : string) (attempts : list nat) : Result * list Event :=
  match attempts with
  | [] => (Returned, [])
  | attempt :: rest =>
      let put := PutObject (S3GraphStorage.bucket_name self) s3_key json_data in
      match s3 attempt with
      | PutOk => (Returned, [put])
      | PutBotoError e =>
          if (attempt =? S3GraphStorage.max_retries self - 1)%nat
          then (Raised (S3StorageError s3_key (S3GraphStorage.max_retries self) e), [put])
          else
            let delay := S3GraphStorage.base_delay self * pow2 attempt in
            let (result, events) := retry_loop self s3 s3_key json_data rest in
            (result, put :: Sleep delay :: events)
      | PutOtherError e => (Raised (OtherError e), [put])
      end
  end.

(** [S3GraphStorage._store_json_with_retry]; [json_data] is the
    serialised payload. *)
Definition _store_json_with_retry (self : S3GraphStorage.t) (s3 : nat -> PutOutcome)
    (s3_key json_data : string) : Result * list Event :=
  retry_loop self s3 s3_key json_data (seq 0 (S3GraphStorage.max_retries self)).

(** The calls of [put_object] among the events. *)
Definition put_count (events : list Event) : nat :=
  List.length (List.filter (fun e => match e with PutObject _ _ _ => true | _ => false end) events).

End GraphExtraction.

(** ** The V2 builder's output as the extraction agent reads it *)

Module Serialize.
Import BuilderV2 PyVal GraphExtraction.

Definition number (q : Q) : PyVal.t := PFloat (Finite q).

(** A free-form payload as a JSON object. *)
Definition props_value (props : Props) : PyVal.t :=
  PDict (map (fun kv => (fst kv, PStr (snd kv))) props).

(** [EnhancedHypergraphBuilderV2._serialize_node] *)
Definition _serialize_node (node : EnhancedHyperNode.t) : Dict :=
  [("id", PStr (EnhancedHyperNode.id node));
   ("content", PStr (EnhancedHyperNode.content node));
   ("node_type", PStr (NodeTypeValue.value (EnhancedHyperNode.node_type node)));
   ("confidence", number (EnhancedHyperNode.confidence node));
   ("timestamp", PStr (EnhancedHyperNode.timestamp node));
   ("source", PStr (EnhancedHyperNode.source node));
   ("metadata",
    PDict [("extraction_source",
            PStr (node_extraction_source (EnhancedHyperNode.metadata node)));
           ("context", PStr (node_context (EnhancedHyperNode.metadata node)));
           ("domain_relevance",
            number (node_domain_relevance (EnhancedHyperNode.metadata node)))]);
   ("needs_classification",
    PDict (map (fun kv => (fst kv, number (snd kv)))
               (EnhancedHyperNode.needs_classification node)));
   ("domain_specific_properties",
    props_value (EnhancedHyperNode.domain_specific_properties node))].

(** [EnhancedHypergraphBuilderV2._serialize_edge] *)
Definition _serialize_edge (edge : EnhancedHyperEdge.t) : Dict :=
  [("id", PStr (EnhancedHyperEdge.id edge));
   ("source_node_id", PStr (EnhancedHyperEdge.source_node_id edge));
   ("target_node_id", PStr (EnhancedHyperEdge.target_node_id edge));
   ("edge_type", PStr (EdgeTypeValue.value (EnhancedHyperEdge.edge_type edge)));
   ("confidence", number (EnhancedHyperEdge.confidence edge));
   ("timestamp", PStr (EnhancedHyperEdge.timestamp edge));
   ("metadata",
    PDict [("extraction_source",
            PStr (edge_extraction_source (EnhancedHyperEdge.metadata edge)));
           ("relationship_strength",
            number (relationship_strength (EnhancedHyperEdge.metadata edge)))]);
   ("evidence", PList (map PStr (EnhancedHyperEdge.evidence edge)));
   ("reasoning", PStr (EnhancedHyperEdge.reasoning edge))].

End Serialize.

(** ** The V2 builder: relationships and metrics *)

Module BuilderV2Relationships.
Import BuilderV2.

(** [CleanRelationshipExtractor._deduplicate_relationships] *)
Definition relationship_key (rel : CleanRelationship.t) : string * string * EdgeType :=
  (PyStr.lower (CleanRelationship.source_entity rel),
   PyStr.lower (CleanRelationship.target_entity rel),
   CleanRelationship.relationship_type rel).

Definition dedup_relationship_step
    (relationship_map : PyDict.t (string * string * EdgeType) CleanRelationship.t)
    (rel : CleanRelationship.t)
    : PyDict.t (string * string * EdgeType) CleanRelationship.t :=
  let key := relationship_key rel in
  match PyDict.get relationship_map key with
  | None => PyDict.set relationship_map key rel
  | Some kept =>
      if Py.gt (CleanRelationship.confidence rel) (CleanRelationship.confidence kept)
      then PyDict.set relationship_map key rel
      else relationship_map
  end.

Definition _deduplicate_relationships (relationships : list CleanRelationship.t)
    : list CleanRelationship.t :=
  PyDict.values (fold_left dedup_relationship_step relationships PyDict.empty).

(** The pairs [_extract_semantic_relationships_with_llm] collects: every
    entity with every later entity of another type. *)
Fixpoint entity_pairs (entities : list CleanEntity.t)
    : list (CleanEntity.t * CleanEntity.t) :=
  match entities with
  | [] => []
  | entity1 :: rest =>
      map (fun entity2 => (entity1, entity2))
          (List.filter (fun entity2 =>
                          negb (bool_decide (CleanEntity.entity_type entity1
                                             = CleanEntity.entity_type entity2)))
                       rest)
      ++ entity_pairs rest
  end.

Section Semantic.

(** [_analyze_semantic_relationship]: the model's answer for a pair,
    [None] when it names no relationship or the call fails. *)
Variable _analyze_semantic_relationship :
  CleanEntity.t -> CleanEntity.t -> option CleanRelationship.t.

(** The pairs the model is asked about. *)
Definition semantic_queries (entities : list CleanEntity.t)
    : list (CleanEntity.t * CleanEntity.t) :=
  firstn 10 (entity_pairs entities).

(** [CleanRelationshipExtractor._extract_semantic_relationships_with_llm] *)
Definition _extract_semantic_relationships_with_llm (entities : list CleanEntity.t)
    : list CleanRelationship.t :=
  flat_map (fun pair =>
              match _analyze_semantic_relationship (fst pair) (snd pair) with
              | Some relationship =>
                  if Py.gt (CleanRelationship.confidence relationship) (6 # 10)
                  then [relationship] else []
              | None => []
              end)
           (semantic_queries entities).

End Semantic.

(** [CleanRelationshipExtractor._analyze_need_behavior_relationship] *)
Definition need_behavior_mappings : list (string * list string) :=
  [("certainty", ["strategic"; "planner"; "risk"; "manager"; "cautious"; "analytical"]);
   ("variety", ["innovative"; "creative"; "explorer"; "adventurous"]);
   ("significance", ["leader"; "achiever"; "competitive"; "ambitious"]);
   ("connection", ["collaborative"; "team"; "social"; "helper"]);
   ("growth", ["learner"; "developer"; "improver"; "student"]);
   ("contribution", ["helper"; "mentor"; "teacher"; "giver"])].

Definition _analyze_need_behavior_relationship (need behavior : CleanEntity.t) : Q :=
  let need_name := PyStr.lower (CleanEntity.text need) in
  let behavior_text := PyStr.lower (CleanEntity.text behavior) in
  if existsb (fun mapping =>
                PyStr.contains (fst mapping) need_name
                && existsb (fun keyword => PyStr.contains keyword behavior_text)
                           (snd mapping))
             need_behavior_mappings
  then 8 # 10
  else 3 # 10.

(** [CleanRelationshipExtractor._extract_need_behavior_relationships] *)
Definition _extract_need_behavior_relationships (entities : list CleanEntity.t)
    : list CleanRelationship.t :=
  let needs :=
    List.filter (fun e => bool_decide (CleanEntity.entity_type e = NEED)) entities in
  let behaviors :=
    List.filter (fun e => bool_decide (CleanEntity.entity_type e = BEHAVIORAL_PATTERN))
                entities in
  flat_map (fun need =>
    flat_map (fun behavior =>
      let relationship_strength := _analyze_need_behavior_relationship need behavior in
      if Py.gt relationship_strength (6 # 10)
      then [CleanRelationship.mk
              (CleanEntity.text need) (CleanEntity.text behavior) INFLUENCES
              relationship_strength
              [CleanEntity.text need +:+ " need drives " +:+ CleanEntity.text behavior
               +:+ " behavior"]
              ("Psychological need " +:+ CleanEntity.text need +:+ " manifests as "
               +:+ CleanEntity.text behavior +:+ " pattern")
              "needs_analysis"]
      else []) behaviors) needs.

Record GraphMetrics := {
  total_nodes : Z;
  total_edges : Z;
  node_type_distribution : PyDict.t string Z;
  edge_type_distribution : PyDict.t string Z;
  average_confidence : Q;
  relationship_diversity : Z
}.

(** [EnhancedHypergraphBuilderV2._calculate_graph_metrics] *)
Definition _calculate_graph_metrics (nodes : list EnhancedHyperNode.t)
    (edges : list EnhancedHyperEdge.t) : GraphMetrics :=
  let node_types :=
    fold_left (fun node_types node =>
                 bump node_types (NodeTypeValue.value (EnhancedHyperNode.node_type node)))
              nodes PyDict.empty in
  let edge_types :=
    fold_left (fun edge_types edge =>
                 bump edge_types (EdgeTypeValue.value (EnhancedHyperEdge.edge_type edge)))
              edges PyDict.empty in
  {| total_nodes := Z.of_nat (List.length nodes);
     total_edges := Z.of_nat (List.length edges);
     node_type_distribution := node_types;
     edge_type_distribution := edge_types;
     average_confidence :=
       match nodes with
       | [] => 0
       | _ => Py.sum (map EnhancedHyperNode.confidence nodes) / Py.len nodes
       end;
     relationship_diversity := Z.of_nat (List.length edge_types) |}.

End BuilderV2Relationships.

(** ** The graph extraction agent: storage keys, errors and inputs *)

Module GraphExtractor.
Import PyVal.

Definition Dict := GraphExtraction.Dict.

Definition is_digit (c : ascii) : bool :=
  let n := nat_of_ascii c in (48 <=? n)%nat && (n <=? 57)%nat.

(** The class [[a-zA-Z0-9\-_.]], which on code points below 128 is also
    the class [[\w\-_.]]. *)
Definition is_key_char (c : ascii) : bool :=
  PyStr.is_alpha c || is_digit c
  || Ascii.eqb c "-" || Ascii.eqb c "_" || Ascii.eqb c ".".

(** [re.sub(r'[^a-zA-Z0-9\-_.]', '_', s)] *)
Fixpoint replace_unsafe (s : string) : string :=
  match s with
  | EmptyString => EmptyString
  | String c s' => String (if is_key_char c then c else "_"%char) (replace_unsafe s')
  end.

(** [s.strip('_')] *)
Fixpoint lstrip_underscores (s : string) : string :=
  match s with
  | EmptyString => EmptyString
  | String c s' => if Ascii.eqb c "_" then lstrip_underscores s' else s
  end.

Fixpoint rstrip_underscores (s : string) : string :=
  match s with
  | EmptyString => EmptyString
  | String c s' =>
      match rstrip_underscores s' with
      | EmptyString => if Ascii.eqb c "_" then EmptyString else String c EmptyString
      | r => String c r
      end
  end.

Definition strip_underscores (s : string) : string :=
  lstrip_underscores (rstrip_underscores s).

(** [S3GraphStorage._sanitize_s3_key_component] *)
Definition _sanitize_s3_key_component (component : string) : string :=
  let sanitized := replace_unsafe component in
  let sanitized := PyStr.slice_to 50 (strip_underscores sanitized) in
  if String.eqb sanitized "" then "unknown" else sanitized.

(** [S3GraphStorage._build_s3_prefix] *)
Definition _build_s3_prefix (customer_id extraction_id : string) : string :=
  let safe_customer_id := _sanitize_s3_key_component customer_id in
  let safe_extraction_id := _sanitize_s3_key_component extraction_id in
  "customer-graphs/" +:+ safe_customer_id +:+ "/extractions/" +:+ safe_extraction_id.

(** The class [\w] of a [str] pattern, which is Unicode-aware: besides
    the ASCII letters, the digits and the underscore it holds the letters
    and numbers beyond ASCII.  A character of the model is a code point
    below 256, and those of them that [\w] accepts beyond ASCII are 170,
    178, 179, 181, 185, 186, 188 to 190, 192 to 214, 216 to 246 and 248
    to 255. *)
Definition is_word_char (c : ascii) : bool :=
  let n := nat_of_ascii c in
  PyStr.is_alpha c || is_digit c || Ascii.eqb c "_"
  || (n =? 170)%nat
  || ((178 <=? n)%nat && (n <=? 179)%nat)
  || (n =? 181)%nat
  || ((185 <=? n)%nat && (n <=? 186)%nat)
  || ((188 <=? n)%nat && (n <=? 190)%nat)
  || ((192 <=? n)%nat && (n <=? 214)%nat)
  || ((216 <=? n)%nat && (n <=? 246)%nat)
  || (248 <=? n)%nat.

(** The class [[\w\-_.]] *)
Definition is_dimension_char (c : ascii) : bool :=
  is_word_char c || Ascii.eqb c "-" || Ascii.eqb c "_" || Ascii.eqb c ".".

(** [re.sub(r'[^\w\-_.]', '_', s)] *)
Fixpoint replace_non_word (s : string) : string :=
  match s with
  | EmptyString => EmptyString
  | String c s' =>
      String (if is_dimension_char c then c else "_"%char) (replace_non_word s')
  end.

(** [CloudWatchMetrics._sanitize_dimension_value] on a string. *)
Definition _sanitize_dimension_value (value : string) : string :=
  let sanitized := PyStr.slice_to 50 value in
  let sanitized := replace_non_word sanitized in
  if String.eqb sanitized "" then "unknown" else sanitized.

(** [S3GraphStorage._count_node_types] and [_count_edge_types] *)
Definition _count_node_types (nodes : list GraphExtraction.ExtractedNode.t)
    : PyDict.t string Z :=
  fold_left (fun type_counts node =>
               let node_type := GraphExtraction.ExtractedNode.node_type node in
               PyDict.set type_counts node_type
                 (PyDict.get_default type_counts node_type 0 + 1)%Z)
            nodes PyDict.empty.

Definition _count_edge_types (edges : list GraphExtraction.ExtractedEdge.t)
    : PyDict.t string Z :=
  fold_left (fun type_counts edge =>
               let edge_type := GraphExtraction.ExtractedEdge.relationship_type edge in
               PyDict.set type_counts edge_type
                 (PyDict.get_default type_counts edge_type 0 + 1)%Z)
            edges PyDict.empty.

(** *** Errors *)

(** The exceptions the agent tells apart: its own two classes, botocore's
    [ClientError] and [BotoCoreError] with the code of the response (the
    empty string when there is none), and any other exception.  Each
    carries the text [str(error)]. *)
Inductive Error :=
| GraphExtractionError (message : string)
| S3StorageError (message : string)
| BotoError (error_code message : string)
| OtherError (message : string).

Definition str (error : Error) : string :=
  match error with
  | GraphExtractionError message => message
  | S3StorageError message => message
  | BotoError _ message => message
  | OtherError message => message
  end.

(** [x in [...]] on strings. *)
Definition among (x : string) (l : list string) : bool := existsb (String.eqb x) l.

(** [ErrorCategorizer.categorize_error] *)
Definition categorize_error (error : Error) : string :=
  let error_str := PyStr.lower (str error) in
  match error with
  | GraphExtractionError _ =>
      if PyStr.contains "validation" error_str || PyStr.contains "required" error_str
      then "VALIDATION_ERROR"
      else if PyStr.contains "parse" error_str || PyStr.contains "format" error_str
      then "PARSING_ERROR"
      else "INTERNAL_ERROR"
  | S3StorageError _ =>
      if PyStr.contains "access denied" error_str || PyStr.contains "forbidden" error_str
      then "S3_PERMISSION_ERROR"
      else if PyStr.contains "timeout" error_str || PyStr.contains "throttl" error_str
              || PyStr.contains "service unavailable" error_str
      then "S3_TRANSIENT_ERROR"
      else "S3_STORAGE_ERROR"
  | BotoError error_code _ =>
      if among error_code ["AccessDenied"; "Forbidden"]
      then "S3_PERMISSION_ERROR"
      else if among error_code ["ServiceUnavailable"; "Throttling"; "RequestTimeout"]
      then "S3_TRANSIENT_ERROR"
      else "S3_STORAGE_ERROR"
  | OtherError _ => "INTERNAL_ERROR"
  end.

Record ErrorInfo := {
  description : string;
  retry : bool;
  alert : bool
}.

(** [ErrorCategorizer.ERROR_CATEGORIES] *)
Definition ERROR_CATEGORIES : PyDict.t string ErrorInfo :=
  [("VALIDATION_ERROR",
    {| description := "Input validation failed"; retry := false; alert := false |});
   ("PARSING_ERROR",
    {| description := "Hypergraph data parsing failed"; retry := false; alert := true |});
   ("S3_TRANSIENT_ERROR",
    {| description := "Temporary S3 service issue"; retry := true; alert := false |});
   ("S3_PERMISSION_ERROR",
    {| description := "S3 access permission denied"; retry := false; alert := true |});
   ("S3_STORAGE_ERROR",
    {| description := "S3 storage operation failed"; retry := true; alert := true |});
   ("INTERNAL_ERROR",
    {| description := "Unexpected internal error"; retry := false; alert := true |})].

(** [ErrorCategorizer.get_error_info]; the default is the entry of
    [INTERNAL_ERROR]. *)
Definition get_error_info (category : string) : ErrorInfo :=
  PyDict.get_default ERROR_CATEGORIES category
    {| description := "Unexpected internal error"; retry := false; alert := true |}.

Section Sanitizer.

(** [SensitiveDataSanitizer.sanitize_message], four substitutions by
    regular expressions of the library. *)
Variable sanitize_message : string -> string.

(** The [except] clause of [GraphExtractor.extract_graph_data]: whatever
    was raised in its body is raised again as a [GraphExtractionError]. *)
Definition extract_graph_data_error (e : Error) : Error :=
  let error_category := categorize_error e in
  let sanitized_error := sanitize_message (str e) in
  GraphExtractionError
    ("Failed to extract graph data (" +:+ error_category +:+ "): " +:+ sanitized_error).

(** The body of an error response of [lambda_handler]; the second
    [except] clause leaves [error_info] out. *)
Record ErrorResponse := {
  statusCode : Z;
  error : string;
  error_category : string;
  error_info : option ErrorInfo
}.

(** The two [except] clauses of [lambda_handler]. *)
Definition lambda_handler_error (e : Error) : ErrorResponse :=
  match e with
  | GraphExtractionError _ =>
      let error_category := categorize_error e in
      let error_info := get_error_info error_category in
      let sanitized_error := sanitize_message (str e) in
      let status_code :=
        if among error_category ["VALIDATION_ERROR"; "PARSING_ERROR"]
        then 400%Z else 500%Z in
      {| statusCode := status_code;
         error := sanitized_error;
         error_category := error_category;
         error_info := Some error_info |}
  | _ =>
      let error_category := categorize_error e in
      let sanitized_error := sanitize_message (str e) in
      {| statusCode := 500;
         error := "Internal error: " +:+ sanitized_error;
         error_category := error_category;
         error_info := None |}
  end.

Definition sensitive_keys : list string :=
  ["password"; "secret"; "key"; "token"; "credential"; "auth"].

(** [any(sensitive_key in key.lower() for sensitive_key in sensitive_keys)] *)
Definition is_sensitive (key : string) : bool :=
  existsb (fun sensitive_key => PyStr.contains sensitive_key (PyStr.lower key))
          sensitive_keys.

(** [SensitiveDataSanitizer.sanitize_dict] *)
Fixpoint sanitize_dict (data : PyVal.t) : PyVal.t :=
  match data with
  | PDict items =>
      PDict (fold_left
               (fun sanitized item =>
                  match item with
                  | (key, value) =>
                      PyDict.set sanitized key
                        (if is_sensitive key then PStr "[REDACTED]"
                         else match value with
                              | PDict _ => sanitize_dict value
                              | PStr s => PStr (sanitize_message s)
                              | _ => value
                              end)
                  end)
               items PyDict.empty)
  | _ => data
  end.

End Sanitizer.

(** *** Inputs *)

(** ['k' in data] *)
Definition has (data : Dict) (k : string) : bool := PyDict.contains data k.

(** Both keys of one of the two formats. *)
Definition has_graph (data : Dict) : bool :=
  (has data "hypernodes" && has data "hyperedges")
  || (has data "nodes" && has data "edges").

Definition has_hypergraph (data : Dict) : bool :=
  has data "hypernodes" && has data "hyperedges".

Section Inputs.

(** [json.loads] on a string; [None] stands for a [JSONDecodeError]. *)
Variable json_loads : string -> option PyVal.t.

(** [if isinstance(body, str): try: body = json.loads(body)]; [None]
    stands for the [JSONDecodeError], on which the caller returns. *)
Definition parse_body (body : PyVal.t) : option PyVal.t :=
  match body with
  | PStr s => json_loads s
  | _ => Some body
  end.

(** The block [if isinstance(body, dict): ...] of the strategies 2 to 4:
    the nested result or the body, when one holds the keys [accept] asks
    for; [None] when the block returns nothing. *)
Definition find_in_body (accept : Dict -> bool) (body : PyVal.t) : option Dict :=
  match body with
  | PDict body =>
      match
        match PyDict.get body "result" with
        | Some (PDict nested_result) =>
            if accept nested_result then Some nested_result else None
        | _ => None
        end
      with
      | Some nested_result => Some nested_result
      | None => if accept body then Some body else None
      end
  | _ => None
  end.

(** Strategy 2 of [_try_parse_hypergraph_data]: [Some] is what it
    returns, [None] that control passes on to strategy 3. *)
Definition strategy_payload (data : Dict) : option Dict :=
  match PyDict.get data "Payload" with
  | Some (PDict payload) =>
      if has payload "statusCode" && has payload "body" then
        match parse_body (PyDict.get_default payload "body" PNone) with
        | None => Some PyDict.empty
        | Some body => find_in_body has_graph body
        end
      else None
  | _ => None
  end.

(** [GraphExtractor._try_parse_hypergraph_data]; the empty dictionary is
    its answer when it finds nothing. *)
Definition _try_parse_hypergraph_data (data : PyVal.t) : Dict :=
  match data with
  | PDict data =>
      if has_graph data then data
      else
        match strategy_payload data with
        | Some found => found
        | None =>
            if has data "statusCode" && has data "body" then
              match parse_body (PyDict.get_default data "body" PNone) with
              | None => PyDict.empty
              | Some body =>
                  match find_in_body has_graph body with
                  | Some found => found
                  | None => PyDict.empty
                  end
              end
            else if has data "body" then
              match parse_body (PyDict.get_default data "body" PNone) with
              | None => PyDict.empty
              | Some body =>
                  match find_in_body has_hypergraph body with
                  | Some found => found
                  | None => PyDict.empty
                  end
              end
            else
              match PyDict.get data "result" with
              | Some (PDict nested_result) =>
                  if has_hypergraph nested_result then nested_result else PyDict.empty
              | _ => PyDict.empty
              end
        end
  | _ => PyDict.empty
  end.

(** [GraphExtractor._extract_hypergraph_data]; the logging is left out. *)
Definition _extract_hypergraph_data (event : Dict) : Dict :=
  let result := PyDict.get_default event "result" (PDict []) in
  let hypergraph_data := _try_parse_hypergraph_data result in
  if truthy (PDict hypergraph_data) then hypergraph_data
  else
    match
      match result with
      | PStr s =>
          match json_loads s with
          | Some result =>
              let hypergraph_data := _try_parse_hypergraph_data result in
              if truthy (PDict hypergraph_data) then Some hypergraph_data else None
          | None => None
          end
      | _ => None
      end
    with
    | Some hypergraph_data => hypergraph_data
    | None =>
        if has event "hypernodes" && has event "hyperedges" then event
        else PyDict.empty
    end.

End Inputs.

(** [customer_id == 'unknown_customer'] *)
Definition is_unknown_customer (customer_id : PyVal.t) : bool :=
  match customer_id with
  | PStr s => String.eqb s "unknown_customer"
  | _ => false
  end.

(** [GraphExtractor._validate_inputs]: the message of the
    [GraphExtractionError] it raises, [None] when it returns. *)
Definition _validate_inputs (customer_id : PyVal.t) (hypergraph_data : Dict)
    : option string :=
  if negb (truthy customer_id) || is_unknown_customer customer_id
  then Some "Valid customer_id is required"
  else if negb (truthy (PDict hypergraph_data))
  then Some "Hypergraph data is required"
  else
    let has_hypernodes := has hypergraph_data "hypernodes" || has hypergraph_data "hyperedges" in
    let has_nodes := has hypergraph_data "nodes" || has hypergraph_data "edges" in
    if negb has_hypernodes && negb has_nodes
    then Some "Hypergraph data must contain 'hypernodes'/'hyperedges' or 'nodes'/'edges'"
    else None.

(** [v.get(k, dflt)]; [None] stands for the [AttributeError] of a value
    that is not a dictionary. *)
Definition get_of (v : PyVal.t) (k : string) (dflt : PyVal.t) : option PyVal.t :=
  match v with
  | PDict d => Some (PyDict.get_default d k dflt)
  | _ => None
  end.

(** [s.replace('/', '')] *)
Fixpoint remove_slashes (s : string) : string :=
  match s with
  | EmptyString => EmptyString
  | String c s' => if Ascii.eqb c "/" then remove_slashes s' else String c (remove_slashes s')
  end.

(** [event.get('agent_spec', {}).get('processing_config', {})] *)
Definition processing_config (event : Dict) : option PyVal.t :=
  get_of (PyDict.get_default event "agent_spec" (PDict [])) "processing_config" (PDict []).

(** [GraphExtractor._extract_customer_id]: a chain of [or], each operand
    evaluated only when those before it are false; [None] stands for an
    [AttributeError]. *)
Definition _extract_customer_id (event : Dict) : option PyVal.t :=
  let top := PyDict.get_default event "customer_id" PNone in
  if truthy top then Some top
  else
    config ← processing_config event;
    configured ← get_of config "customer_id" PNone;
    if truthy configured then Some configured
    else
      config ← processing_config event;
      folder ← get_of config "customer_folder" (PStr "");
      match folder with
      | PStr folder =>
          let name := remove_slashes folder in
          if truthy (PStr name) then Some (PStr name)
          else Some (PStr "unknown_customer")
      | _ => None
      end.

End GraphExtractor.

(** ** The needs analysis agent: scores read from the model's answer *)

Module NeedsLlm.
Import PyVal NeedsAnalysis.

(** How a step inside the [try] block of [analyze_needs_with_llm] ends: it
    is done, it raises an exception the [except] clause catches
    ([JSONDecodeError], [KeyError], [ValueError]), or it raises another
    one ([TypeError]), which leaves the function. *)
Inductive Try (A : Type) :=
| Done (a : A)
| Caught
| Escaped.
Arguments Done {A} a.
Arguments Caught {A}.
Arguments Escaped {A}.

(** The state of the loop over the needs when it stops. *)
Inductive LoopEnd :=
| LoopDone (needs_scores : PyDict.t HumanNeed number)
| LoopCaught (needs_scores : PyDict.t HumanNeed number)
| LoopEscaped.

Section Llm.

(** [json.loads] on a string, [None] for a [JSONDecodeError]; [float] on
    a string, [None] for a [ValueError]. *)
Variable json_loads : string -> option PyVal.t.
Variable float_of_string : string -> option pyfloat.

(** [float(score)] *)
Definition float_of (score : PyVal.t) : Try pyfloat :=
  match score with
  | PFloat f => Done f
  | PInt z => Done (Finite (inject_Z z))
  | PBool b => Done (Finite (if b then 1 else 0))
  | PStr s =>
      match float_of_string s with
      | Some f => Done f
      | None => Caught
      end
  | _ => Escaped
  end.

(** [name in parsed_content] *)
Definition value_in (name : string) (parsed_content : PyVal.t) : Try bool :=
  match parsed_content with
  | PDict d => Done (PyDict.contains d name)
  | PList l =>
      Done (existsb (fun item => match item with
                                 | PStr s => String.eqb s name
                                 | _ => false
                                 end) l)
  | PStr s => Done (PyStr.contains name s)
  | _ => Escaped
  end.

(** [max(0.0, min(x, 1.0))] as a number: the result is never a NaN or an
    infinity. *)
Definition clamped (x : pyfloat) : Q :=
  match fmax (Finite 0) (fmin x (Finite 1)) with
  | Finite q => q
  | _ => 0
  end.

(** The loop [for need in HumanNeed] of the [try] block. *)
Fixpoint score_loop (parsed_content : PyVal.t) (needs : list HumanNeed)
    (needs_scores : PyDict.t HumanNeed number) : LoopEnd :=
  match needs with
  | [] => LoopDone needs_scores
  | need :: rest =>
      match value_in (value need) parsed_content with
      | Done true =>
          match parsed_content with
          | PDict d =>
              let entry := PyDict.get_default d (value need) PNone in
              let score :=
                match entry with
                | PDict fields => PyDict.get_default fields "score" (PFloat (Finite 0))
                | _ => entry
                end in
              match float_of score with
              | Done x =>
                  score_loop parsed_content rest
                    (PyDict.set needs_scores need (Dec (clamped x)))
              | Caught => LoopCaught needs_scores
              | Escaped => LoopEscaped
              end
          | _ => LoopEscaped
          end
      | Done false =>
          score_loop parsed_content rest (PyDict.set needs_scores need (Dec (3 # 10)))
      | Caught => LoopCaught needs_scores
      | Escaped => LoopEscaped
      end
  end.

Definition fallback_scores : list Q :=
  [3 # 10; 4 # 10; 5 # 10; 6 # 10; 7 # 10; 2 # 10].

(** The [except] clause: [needs_scores[need] = fallback_scores[i % 6]]
    for the [i]-th need. *)
Definition fallback (needs_scores : PyDict.t HumanNeed number)
    : PyDict.t HumanNeed number :=
  fold_left (fun scores item => PyDict.set scores (fst item) (Dec (snd item)))
            (combine all_HumanNeed fallback_scores) needs_scores.

(** [InterviewNeedsAnalyzer.analyze_needs_with_llm] from the answer of the
    model on: [generation] is [llm_analysis.get('generation', '{}')];
    [None] stands for an exception that leaves the function. *)
Definition analyze_needs_with_llm (generation : PyVal.t)
    : option (PyDict.t HumanNeed number) :=
  match generation with
  | PStr content_response =>
      match json_loads content_response with
      | Some parsed_content =>
          match score_loop parsed_content all_HumanNeed PyDict.empty with
          | LoopDone needs_scores => Some needs_scores
          | LoopCaught needs_scores => Some (fallback needs_scores)
          | LoopEscaped => None
          end
      | None => Some (fallback PyDict.empty)
      end
  | _ => None
  end.

(** Steps 1 to 3 of [analyze_needs_from_interview]: the final scores, or
    [None] for an exception. *)
Definition final_scores (content : string) (generation : PyVal.t)
    : option (PyDict.t HumanNeed Q) :=
  let keyword_scores := analyze_needs_keywords content in
  llm_scores ← analyze_needs_with_llm generation;
  combine_needs_scores keyword_scores llm_scores.

End Llm.
End NeedsLlm.

(** ** The file analyzer: metadata, agents and requirements *)

Module FileAnalysis.
Import PyVal FileAnalyzer.

Definition Dict := PyDict.t string PyVal.t.

(** [s[n:]] *)
Fixpoint drop (n : nat) (s : string) : string :=
  match n, s with
  | O, _ => s
  | S n', String _ s' => drop n' s'
  | S _, EmptyString => EmptyString
  end.

(** The index of the first occurrence of [sub] in [s], counted from [i]
    at the start of [s]. *)
Fixpoint find_at (sub s : string) (i : nat) : option nat :=
  if String.prefix sub s then Some i
  else match s with
       | EmptyString => None
       | String _ s' => find_at sub s' (S i)
       end.

(** [s.find(sub, start)] for a [start] within [s]; [None] stands for -1. *)
Definition find_from (sub : string) (start : nat) (s : string) : option nat :=
  find_at sub (drop start s) start.

(** [d.setdefault(k, v)] *)
Definition setdefault (d : Dict) (k : string) (v : PyVal.t) : Dict :=
  if PyDict.contains d k then d else PyDict.set d k v.

Record Requirements := {
  processing_depth : string;
  estimated_time : Q;
  priority : string
}.

(** The entries of the result of [analyze_file] that are computed from
    the content. *)
Record Analysis := {
  content_type : PyVal.t;
  complexity_score : Q;
  required_agents : list string;
  metadata : Dict;
  word_count : nat;
  character_count : nat;
  language : PyVal.t;
  requirements : Requirements
}.

(** [FileAnalyzer.determine_required_agents] *)
Definition determine_required_agents (content : string) (metadata : Dict) : list string :=
  let agents := ["interview_processing"] in
  let agents :=
    if (50 <? PyStr.word_count content)%nat then agents ++ ["nlp_processing"]
    else agents in
  let agents :=
    match PyDict.get_default metadata "content_type" PNone with
    | PStr s => if String.eqb s "interview_transcript"
                then agents ++ ["needs_analysis"] else agents
    | _ => agents
    end in
  agents ++ ["hypergraph_builder"].

Section Metadata.

(** [json.loads] on a string; [None] stands for any exception. *)
Variable json_loads : string -> option PyVal.t.

(** The value [metadata] holds before the defaults are set. *)
Definition header_metadata (content : string) : PyVal.t :=
  if String.prefix "---" content then
    match find_from "---" 3 content with
    | Some end_marker =>
        if (0 <? end_marker)%nat then
          let metadata_text := PyStr.strip (substring 3 (end_marker - 3) content) in
          match json_loads metadata_text with
          | Some metadata => metadata
          | None => PDict []
          end
        else PDict []
    | None => PDict []
    end
  else PDict [].

(** [FileAnalyzer.extract_metadata_from_content]; [None] stands for the
    [AttributeError] of [setdefault] on a value that is not a
    dictionary. *)
Definition extract_metadata_from_content (content : string) : option Dict :=
  match header_metadata content with
  | PDict metadata =>
      let metadata := setdefault metadata "content_type" (PStr "interview_transcript") in
      let metadata := setdefault metadata "language" (PStr "english") in
      let metadata := setdefault metadata "domain" (PStr "general") in
      Some metadata
  | _ => None
  end.

(** [FileAnalyzer.analyze_file] once the content is read; [None] stands
    for an exception, which the handler answers with status 500. *)
Definition analyze_content (content : string) : option Analysis :=
  metadata ← extract_metadata_from_content content;
  let complexity := analyze_content_complexity content in
  let required_agents := determine_required_agents content metadata in
  Some {| content_type :=
            PyDict.get_default metadata "content_type" (PStr "interview_transcript");
          complexity_score := complexity;
          required_agents := required_agents;
          metadata := metadata;
          word_count := PyStr.word_count content;
          character_count := String.length content;
          language := PyDict.get_default metadata "language" (PStr "english");
          requirements :=
            {| processing_depth := if Py.gt complexity (7 # 10) then "detailed" else "standard";
               estimated_time := complexity * 60;
               priority := if Py.gt complexity (8 # 10) then "high" else "normal" |} |}.

End Metadata.
End FileAnalysis.

(** ** The V2 builder: format detection and the Lambda handler *)

Module BuilderV2Handler.
Import PyVal.

Definition Dict := PyDict.t string PyVal.t.

(** [any(item in text for item in items)] *)
Definition any_in (items : list string) (text : string) : bool :=
  existsb (fun item => PyStr.contains item text) items.

Definition interview_indicators : list string :=
  ["interview"; "transcript"; "dialog"; "conversation"].

Definition dialog_patterns : list string :=
  ["interviewer:"; "interviewee:"; "q:"; "a:"; "host:"; "guest:"].

Module CleanEntityExtractor.

(** [CleanEntityExtractor._is_interview_format]; [None] stands for the
    [AttributeError] of [lower] on a raw text that is not a string. *)
Definition _is_interview_format (file_analysis : Dict) (file_path : string)
    : option bool :=
  let file_path_lower := PyStr.lower file_path in
  if any_in interview_indicators file_path_lower then Some true
  else
    let raw_text := PyDict.get_default file_analysis "raw_text" (PStr "") in
    if truthy raw_text then
      match raw_text with
      | PStr raw_text =>
          let text_lower := PyStr.lower raw_text in
          if any_in dialog_patterns text_lower then Some true else Some false
      | _ => None
      end
    else Some false.

End CleanEntityExtractor.

Module CleanRelationshipExtractor.

(** [CleanRelationshipExtractor._is_interview_format] *)
Definition _is_interview_format (file_analysis : Dict) (file_path : string) : bool :=
  any_in interview_indicators (PyStr.lower file_path).

End CleanRelationshipExtractor.

Section Handler.

(** The result of [build_enhanced_hypergraph], as far as the handler is
    concerned: whatever it returns on the analysis data, [None] when it or
    the serialisation of its result raises. *)
Variable Result : Type.
Variable build_enhanced_hypergraph : Dict -> option Result.

Record Response := {
  statusCode : Z;
  success : bool;
  result : option Result
}.

Definition failure : Response :=
  {| statusCode := 500; success := false; result := None |}.

(** The analysis data the handler builds from a processing configuration. *)
Definition analysis_data_of (processing_config : Dict) : Dict :=
  [("processing_config", PDict processing_config);
   ("customer_name", PyDict.get_default processing_config "customer_name" PNone);
   ("customer_folder", PyDict.get_default processing_config "customer_folder" PNone);
   ("file_path", PyDict.get_default processing_config "file_path" PNone)].

(** [lambda_handler] of the V2 builder.  Without an [agent_spec] the
    name [processing_config] is never bound, so reading the file path
    raises a [NameError]; the debug output calls [keys] on the agent
    specification and on a processing configuration it holds, and
    [lower] on the file path. *)
Definition lambda_handler (event : Dict) : Response :=
  match PyDict.get event "agent_spec" with
  | Some (PDict agent_spec) =>
      match PyDict.get_default agent_spec "processing_config" (PDict []) with
      | PDict processing_config =>
          let analysis_data := analysis_data_of processing_config in
          match PyDict.get_default processing_config "file_path" (PStr "") with
          | PStr file_path =>
              match build_enhanced_hypergraph analysis_data with
              | Some built => {| statusCode := 200; success := true; result := Some built |}
              | None => failure
              end
          | _ => failure
          end
      | _ => failure
      end
  | Some _ => failure
  | None => failure
  end.

End Handler.
End BuilderV2Handler.

(** ** The file analyzer: the Lambda handler *)

Module FileAnalyzerHandler.
Import PyVal FileAnalysis.

(** A call that returns or raises an exception with a message. *)
Inductive Outcome (A : Type) :=
| Returned (a : A)
| Raised (message : string).
Arguments Returned {A} a.
Arguments Raised {A} message.

(** The result of [analyze_file]: the error dictionary of a file that
    could not be read, or the analysis. *)
Inductive FileResult :=
| Unread (error file_path decoded_path : string)
| Analysed (file_path decoded_path file_type : string) (analysis : Analysis).

Record Response := {
  statusCode : Z;
  success : bool;
  analysis : option FileResult
}.

Definition failure : Response :=
  {| statusCode := 500; success := false; analysis := None |}.

(** [s.split('.')[-1]]: what follows the last dot, the whole string when
    there is none. *)
Fixpoint after_last_dot (s : string) : string :=
  match s with
  | EmptyString => EmptyString
  | String c s' =>
      if PyStr.contains "." s' then after_last_dot s'
      else if Ascii.eqb c "." then s' else s
  end.

Section Handler.

(** [urllib.parse.unquote_plus] and [json.loads] of the library; the
    object store: [get_object] by key, and reading and decoding the body
    it returns. *)
Variable unquote_plus : string -> string.
Variable json_loads : string -> option PyVal.t.
Variable Body : Type.
Variable get_object : string -> Outcome Body.
Variable read_decode : Body -> Outcome string.

(** The [try] block of [analyze_file]: the decoded path first, the
    original path when [get_object] fails on it. *)
Definition read_content (file_path decoded_file_path : string) : Outcome string :=
  match
    match get_object decoded_file_path with
    | Returned response => Returned response
    | Raised _ => get_object file_path
    end
  with
  | Returned response => read_decode response
  | Raised message => Raised message
  end.

(** [FileAnalyzer.analyze_file]; [None] stands for an exception. *)
Definition analyze_file (file_path : string) : option FileResult :=
  let decoded_file_path := unquote_plus file_path in
  let file_extension :=
    if PyStr.contains "." decoded_file_path
    then PyStr.lower (after_last_dot decoded_file_path)
    else "unknown" in
  match read_content file_path decoded_file_path with
  | Raised message =>
      Some (Unread ("Failed to read file: " +:+ message) file_path decoded_file_path)
  | Returned content =>
      analysis ← analyze_content json_loads content;
      Some (Analysed file_path decoded_file_path file_extension analysis)
  end.

(** [lambda_handler] of the file analyzer; a [file_path] that is not a
    string makes [unquote_plus] raise. *)
Definition lambda_handler (event : Dict) : Response :=
  match PyDict.get event "file_path" with
  | Some file_path =>
      match PyDict.get event "customer_folder" with
      | Some customer_folder =>
          match file_path with
          | PStr file_path =>
              match analyze_file file_path with
              | Some result =>
                  {| statusCode := 200; success := true; analysis := Some result |}
              | None => failure
              end
          | _ => failure
          end
      | None => failure
      end
  | None => failure
  end.

End Handler.
End FileAnalyzerHandler.

(** ** The V2 builder: entities from the needs analysis *)

Module BuilderV2Entities.
Import PyVal BuilderV2.

Definition Dict := PyDict.t string PyVal.t.

(** [re.sub(r'\s+', ' ', s)]: every run of white space becomes one
    blank; [in_run] tells whether the previous character was white
    space. *)
Fixpoint collapse_spaces (in_run : bool) (s : string) : string :=
  match s with
  | EmptyString => EmptyString
  | String c s' =>
      if PyStr.is_space c
      then if in_run then collapse_spaces true s'
           else String " " (collapse_spaces true s')
      else String c (collapse_spaces false s')
  end.

Definition is_lower (c : ascii) : bool :=
  let n := nat_of_ascii c in (97 <=? n)%nat && (n <=? 122)%nat.

(** [c.upper()] *)
Definition upper_char (c : ascii) : ascii :=
  if is_lower c then ascii_of_nat (nat_of_ascii c - 32) else c.

Definition prefixes_to_remove : list string :=
  ["Mentioned "; "Discussed "; "Has "; "Shows "].

(** [if cleaned.startswith(prefix): cleaned = cleaned[len(prefix):]] *)
Definition remove_prefix (cleaned prefix : string) : string :=
  if String.prefix prefix cleaned
  then FileAnalysis.drop (String.length prefix) cleaned
  else cleaned.

(** [CleanEntityExtractor._clean_entity_text] *)
Definition _clean_entity_text (text : PyVal.t) : string :=
  match text with
  | PStr text =>
      let cleaned := collapse_spaces false (PyStr.strip text) in
      let cleaned := fold_left remove_prefix prefixes_to_remove cleaned in
      let cleaned :=
        match cleaned with
        | String c rest => String (upper_char c) rest
        | EmptyString => cleaned
        end in
      if (2 <? String.length cleaned)%nat then cleaned else ""
  | _ => ""
  end.

(** [items[:n]] as the loop walks it: the first items of a list, the
    first characters of a string; [None] stands for the [TypeError] of a
    value that cannot be sliced. *)
Definition first_items (n : nat) (items : PyVal.t) : option (list PyVal.t) :=
  match items with
  | PList l => Some (firstn n l)
  | PStr s =>
      Some (map (fun c => PStr (String c EmptyString)) (firstn n (list_ascii_of_string s)))
  | _ => None
  end.

(** The loop shared by the extraction of behavioural patterns,
    personality traits and life themes. *)
Definition cleaned_entities (n : nat) (items : PyVal.t) (entity : string -> CleanEntity.t)
    : option (list CleanEntity.t) :=
  items ← first_items n items;
  Some (flat_map
          (fun item =>
             match item with
             | PStr s =>
                 if (0 <? String.length (PyStr.strip s))%nat then
                   let clean := _clean_entity_text item in
                   if negb (String.eqb clean "") then [entity clean] else []
                 else []
             | _ => []
             end)
          items).

(** [CleanEntityExtractor._extract_behavioral_pattern_entities] *)
Definition _extract_behavioral_pattern_entities (needs_analysis : Dict)
    : option (list CleanEntity.t) :=
  cleaned_entities 5 (PyDict.get_default needs_analysis "behavioral_patterns" (PList []))
    (fun clean_pattern =>
       CleanEntity.mk clean_pattern BEHAVIORAL_PATTERN (8 # 10)
         "Observed behavioral pattern" "needs_analysis"
         [("category", "behavior"); ("source", "needs_analysis")] (9 # 10)).

(** [CleanEntityExtractor._extract_personality_trait_entities] *)
Definition _extract_personality_trait_entities (needs_analysis : Dict)
    : option (list CleanEntity.t) :=
  cleaned_entities 5 (PyDict.get_default needs_analysis "personality_traits" (PList []))
    (fun clean_trait =>
       CleanEntity.mk clean_trait PERSONALITY_TRAIT (8 # 10)
         "Identified personality trait" "needs_analysis"
         [("category", "personality"); ("source", "needs_analysis")] (9 # 10)).

(** [CleanEntityExtractor._extract_life_theme_entities] *)
Definition _extract_life_theme_entities (needs_analysis : Dict)
    : option (list CleanEntity.t) :=
  cleaned_entities 3 (PyDict.get_default needs_analysis "life_themes" (PList []))
    (fun clean_theme =>
       CleanEntity.mk clean_theme CONCEPT (7 # 10)
         "Major life theme" "needs_analysis"
         [("category", "life_theme"); ("source", "needs_analysis")] (8 # 10)).

End BuilderV2Entities.

(** ** Sample data *)

Module Samples.
Import BuilderV2 NeedsAnalysis PyVal GraphExtraction.

(** A node and an edge that carry only what the metrics read. *)
Definition sample_node (id content : string) (node_type : NodeType) (confidence : Q)
    : EnhancedHyperNode.t :=
  EnhancedHyperNode.mk id content node_type confidence "2024-01-01T00:00:00"
    "interview.txt"
    {| node_extraction_source := "file_analysis"; node_context := "";
       node_domain_relevance := 8 # 10 |}
    [] [].

Definition sample_edge (source target : string) (edge_type : EdgeType) (confidence : Q)
    : EnhancedHyperEdge.t :=
  EnhancedHyperEdge.mk
    ("edge_" +:+ source +:+ "_" +:+ target +:+ "_" +:+ EdgeTypeValue.value edge_type)
    source target edge_type confidence "2024-01-01T00:00:00"
    {| edge_extraction_source := "pattern"; relationship_strength := confidence |}
    [] "".

(** Score maps for the examples: a keyword map and two answers of the
    model, one as floats and one as [Decimal]s. *)
Definition sample_keyword_scores : PyDict.t HumanNeed number :=
  analyze_needs_keywords "We plan for security".

Definition sample_llm_floats : PyDict.t HumanNeed number :=
  [(CERTAINTY, Float (1 # 2)); (GROWTH, Float (8 # 10))].

Definition sample_llm_decimals : PyDict.t HumanNeed number :=
  map (fun need => (need, Dec (3 # 10))) all_HumanNeed.

Definition sample_llm_answer : PyDict.t string Q :=
  [("certainty", 1 # 2); ("growth", 8 # 10)].

(** Stand-ins for the library functions, to run the extraction on: a
    digest that is not MD5 or SHA-256 but, like them, a function of its
    input alone. *)
Definition sample_hexdigest (data : string) : string :=
  "5f4dcc3b5aa765d61d8327deb882cf99" +:+ data.

Definition sample_str_of_value (v : PyVal.t) : string :=
  match v with
  | PNone => "None"
  | PBool true => "True"
  | PBool false => "False"
  | _ => "..."
  end.

Definition sample_float_of_string (s : string) : option pyfloat :=
  if String.eqb s "nan" then Some NaN
  else if String.eqb s "0.9" then Some (Finite (9 # 10))
  else None.

Definition sample_update_from_iterable (d : Dict) (v : PyVal.t) : option Dict := None.

(** A small graph: three nodes, four edges. *)
Definition sample_nodes : list EnhancedHyperNode.t :=
  [sample_node "person_0" "Alice" PERSON (9 # 10);
   sample_node "skill_0" "Negotiation" SKILL (1 # 2);
   sample_node "skill_1" "Planning" SKILL 1].

Definition sample_edges : list EnhancedHyperEdge.t :=
  [sample_edge "person_0" "skill_0" DEMONSTRATES (8 # 10);
   sample_edge "person_0" "skill_1" DEMONSTRATES (6 # 10);
   sample_edge "skill_0" "skill_1" RELATES_TO (7 # 10);
   sample_edge "skill_1" "skill_0" RELATES_TO (7 # 10)].

Definition sample_entity (text : string) (entity_type : NodeType) (confidence : Q)
    : CleanEntity.t :=
  CleanEntity.mk text entity_type confidence "" "file_analysis" [] (8 # 10).

Definition sample_entities : list CleanEntity.t :=
  [sample_entity "Alice" PERSON (1 # 2);
   sample_entity "Planning" SKILL (7 # 10);
   sample_entity "ALICE" PERSON (9 # 10);
   sample_entity "alice" SKILL (6 # 10);
   sample_entity "alice" PERSON (9 # 10)].




Definition sample_relationship (source target : string) (relationship_type : EdgeType)
    : CleanRelationship.t :=
  CleanRelationship.mk source target relationship_type (8 # 10) [] "" "pattern".

Definition sample_relationships : list CleanRelationship.t :=
  [sample_relationship "alice" "PLANNING" DEMONSTRATES;
   sample_relationship "Alice" "Chess" DEMONSTRATES;
   sample_relationship "Negotiation" "Planning" RELATES_TO].

Definition sample_clock (n : nat) : string :=
  match n with
  | O => "2024-01-01T10:00:00+00:00"
  | _ => "2024-01-01T10:00:01+00:00"
  end.

Definition sample_hypernodes : list Dict :=
  [[("content", PStr " Alice "); ("node_type", PStr "Person");
    ("confidence", PFloat (Finite (17 # 10)))];
   [("content", PStr "Chess"); ("node_type", PStr "hobby"); ("confidence", PStr "nan")];
   [("content", PStr "Planning"); ("node_type", PInt 3)]].

Definition sample_hyperedges : list Dict :=
  [[("source_node_id", PStr "person_0"); ("target_node_id", PStr "skill_0");
    ("edge_type", PStr "USES"); ("confidence", PInt 5)];
   [("source_node_id", PStr ""); ("target_node_id", PStr "skill_0")];
   [("source_node_id", PStr "person_0"); ("target_node_id", PStr "skill_1");
    ("edge_type", PStr "likes")]].

End Samples.

(* ================================================================== *)
(** * Properties *)
(* ================================================================== *)

Import Samples.

(** ** The string model on small inputs *)

Module StringExamples.

Definition two_lines (first second : string) : string :=
  first +:+ String PyStr.newline second.

Example word_count_blanks : PyStr.word_count "  a  b c " = 3%nat.
Proof. reflexivity. Qed.

Example count_does_not_overlap : PyStr.count "aaaa" "aa" = 2%nat.
Proof. reflexivity. Qed.

Example count_of_empty : PyStr.count "abc" "" = 4%nat.
Proof. reflexivity. Qed.

Example strip_both_ends : PyStr.strip "  a b  " = "a b".
Proof. reflexivity. Qed.

Example sentence_count_of_empty : FileAnalyzer.sentence_count "" = 1%nat.
Proof. reflexivity. Qed.

Example sentence_count_runs : FileAnalyzer.sentence_count "a.b..c!?" = 4%nat.
Proof. reflexivity. Qed.

(** A speaker is found at the start of a line only. *)
Example speakers_line_start :
  FileAnalyzer.findall_speakers true 0 (two_lines "Anna: hi. Bob: yes" "Carl: no")
  = ["Anna"; "Carl"].
Proof. reflexivity. Qed.

(** The class of the pattern holds the newline, so a line without a
    colon is taken into the name found on the next line. *)
Example speakers_across_lines :
  FileAnalyzer.findall_speakers true 0 (two_lines "Hello world" "John: hi")
  = [two_lines "Hello world" "John"].
Proof. reflexivity. Qed.

Example complexity_of_one_word :
  FileAnalyzer.analyze_content_complexity "software" == 2609 # 60000.
Proof. vm_compute. reflexivity. Qed.

End StringExamples.

(** ** Facts about the Python built-ins *)

Module PyFacts.

Lemma gt_true (x y : Q) : Py.gt x y = true <-> y < x.
Proof.
  unfold Py.gt. rewrite negb_true_iff.
  split; intros H.
  - apply Qnot_le_lt. intros Hle. apply Qle_bool_iff in Hle. congruence.
  - destruct (Qle_bool x y) eqn:E; [|reflexivity].
    apply Qle_bool_iff in E. exfalso. apply (Qlt_not_le _ _ H E).
Qed.

Lemma gt_false (x y : Q) : Py.gt x y = false <-> x <= y.
Proof.
  unfold Py.gt. rewrite negb_false_iff. apply Qle_bool_iff.
Qed.

Lemma min_le_r (x y : Q) : Py.min x y <= y.
Proof.
  unfold Py.min. destruct (Qle_bool x y) eqn:E.
  - now apply Qle_bool_iff.
  - apply Qle_refl.
Qed.

Lemma min_glb (x y z : Q) : z <= x -> z <= y -> z <= Py.min x y.
Proof. unfold Py.min. now destruct (Qle_bool x y). Qed.

Lemma min_spec (x y : Q) :
  (x <= y /\ Py.min x y = x) \/ (y < x /\ Py.min x y = y).
Proof.
  unfold Py.min. destruct (Qle_bool x y) eqn:E.
  - left. split; [now apply Qle_bool_iff | reflexivity].
  - right. split; [|reflexivity].
    apply Qnot_le_lt. intros H. apply Qle_bool_iff in H. congruence.
Qed.

End PyFacts.

(** ** Facts about insertion-ordered dictionaries *)

Module PyDictFacts.
Section Facts.
Context {K V : Type} `{EqDecision K}.
Implicit Types (d : PyDict.t K V) (k : K) (v : V).

Lemma get_set_eq d k v : PyDict.get (PyDict.set d k v) k = Some v.
Proof.
  induction d as [|[k' v'] d IH]; simpl.
  - now rewrite decide_True.
  - destruct (decide (k' = k)) as [->|Hne]; simpl.
    + now rewrite decide_True.
    + now rewrite decide_False.
Qed.

Lemma get_set_ne d k k' v :
  k <> k' -> PyDict.get (PyDict.set d k v) k' = PyDict.get d k'.
Proof.
  intros Hne. induction d as [|[k0 v0] d IH]; simpl.
  - now rewrite decide_False.
  - destruct (decide (k0 = k)) as [->|Hk]; simpl.
    + now rewrite !decide_False.
    + destruct (decide (k0 = k')); [reflexivity | exact IH].
Qed.

Lemma get_Some_In d k v : PyDict.get d k = Some v -> In (k, v) d.
Proof.
  induction d as [|[k' v'] d IH]; simpl; [discriminate|].
  destruct (decide (k' = k)) as [->|Hne].
  - intros [= ->]. now left.
  - intros H0. right. now apply IH.
Qed.

Lemma get_None_keys d k : PyDict.get d k = None <-> ~ In k (PyDict.keys d).
Proof.
  induction d as [|[k' v'] d IH]; simpl.
  - tauto.
  - destruct (decide (k' = k)) as [->|Hne].
    + split; [discriminate | intros H0; exfalso; apply H0; now left].
    + rewrite IH. tauto.
Qed.

Lemma In_keys d k v : In (k, v) d -> In k (PyDict.keys d).
Proof. intros H0. unfold PyDict.keys. now apply (in_map fst) in H0. Qed.

Lemma In_get d k v :
  List.NoDup (PyDict.keys d) -> In (k, v) d -> PyDict.get d k = Some v.
Proof.
  induction d as [|[k' v'] d IH]; simpl; [tauto|].
  intros Hnd [Heq|Hin].
  - injection Heq as -> ->. now rewrite decide_True.
  - inversion Hnd as [|? ? Hnot Hnd']; subst.
    destruct (decide (k' = k)) as [->|Hne].
    + exfalso. apply Hnot. now apply (In_keys d k v).
    + now apply IH.
Qed.

Lemma keys_set_present d k v :
  In k (PyDict.keys d) -> PyDict.keys (PyDict.set d k v) = PyDict.keys d.
Proof.
  induction d as [|[k' v'] d IH]; simpl; [tauto|].
  intros Hin. destruct (decide (k' = k)) as [->|Hne]; simpl; [reflexivity|].
  f_equal. apply IH. destruct Hin; [congruence | assumption].
Qed.

Lemma set_absent d k v :
  ~ In k (PyDict.keys d) -> PyDict.set d k v = d ++ [(k, v)].
Proof.
  induction d as [|[k' v'] d IH]; simpl; [reflexivity|].
  intros Hnot. destruct (decide (k' = k)) as [->|Hne].
  - exfalso. apply Hnot. now left.
  - f_equal. apply IH. tauto.
Qed.

Lemma NoDup_keys_set d k v :
  List.NoDup (PyDict.keys d) -> List.NoDup (PyDict.keys (PyDict.set d k v)).
Proof.
  intros Hnd. destruct (in_dec (fun a b => decide (a = b)) k (PyDict.keys d)) as [Hin|Hnot].
  - now rewrite keys_set_present.
  - rewrite set_absent by assumption.
    unfold PyDict.keys. rewrite map_app. simpl.
    apply NoDup_ListNoDup. apply NoDup_app. repeat split.
    + now apply NoDup_ListNoDup.
    + intros x Hx Hx'. apply list_elem_of_In in Hx, Hx'.
      destruct Hx' as [<-|[]]. now apply Hnot.
    + apply NoDup_singleton.
Qed.

Lemma In_set_inv d k v k' v' :
  List.NoDup (PyDict.keys d) ->
  In (k', v') (PyDict.set d k v) ->
  (k' = k /\ v' = v) \/ (k' <> k /\ In (k', v') d).
Proof.
  induction d as [|[k0 v0] d IH]; simpl.
  - intros _ [[= <- <-]|[]]. now left.
  - intros Hnd. inversion Hnd as [|? ? Hnot Hnd']; subst.
    destruct (decide (k0 = k)) as [->|Hne]; simpl.
    + intros [[= <- <-]|Hin]; [now left|].
      right. split; [|now right].
      intros ->. apply Hnot. now apply (In_keys d k v').
    + intros [[= <- <-]|Hin].
      * right. split; [assumption | now left].
      * destruct (IH Hnd' Hin) as [?|[? ?]]; [now left|].
        right. split; [assumption | now right].
Qed.

Lemma keys_set_incl d k v k' :
  In k' (PyDict.keys d) -> In k' (PyDict.keys (PyDict.set d k v)).
Proof.
  intros Hin. destruct (in_dec (fun a b => decide (a = b)) k (PyDict.keys d)) as [Hk|Hk].
  - now rewrite keys_set_present.
  - rewrite set_absent by assumption. unfold PyDict.keys. rewrite map_app.
    apply in_or_app. now left.
Qed.

Lemma key_in_set d k v : In k (PyDict.keys (PyDict.set d k v)).
Proof.
  apply (In_keys _ k v). apply get_Some_In. apply get_set_eq.
Qed.

End Facts.
End PyDictFacts.

(** ** Deduplication of entities *)

Module DedupFacts.
Import PyVal EntityDedup.












End DedupFacts.

Import BuilderV2.




(** ** The code-point order on strings *)

Module StrOrder.

Lemma ascii_compare_refl (a : ascii) : Ascii.compare a a = Eq.
Proof. unfold Ascii.compare. apply N.compare_refl. Qed.

Lemma ascii_compare_lt_trans (a b c : ascii) :
  Ascii.compare a b = Lt -> Ascii.compare b c = Lt -> Ascii.compare a c = Lt.
Proof.
  unfold Ascii.compare. rewrite !N.compare_lt_iff. apply N.lt_trans.
Qed.

Lemma compare_lt_trans (s1 s2 s3 : string) :
  String.compare s1 s2 = Lt -> String.compare s2 s3 = Lt -> String.compare s1 s3 = Lt.
Proof.
  revert s2 s3. induction s1 as [|a s1 IH]; intros [|b s2] [|c s3]; simpl;
    try discriminate; try reflexivity.
  destruct (Ascii.compare a b) eqn:Hab; try discriminate;
    destruct (Ascii.compare b c) eqn:Hbc; try discriminate; intros H12 H23.
  - apply Ascii.compare_eq_iff in Hab, Hbc. subst.
    rewrite ascii_compare_refl. now apply IH with s2.
  - apply Ascii.compare_eq_iff in Hab. subst. now rewrite Hbc.
  - apply Ascii.compare_eq_iff in Hbc. subst. now rewrite Hab.
  - now rewrite (ascii_compare_lt_trans a b c).
Qed.

Lemma compare_refl (s : string) : String.compare s s = Eq.
Proof.
  induction s as [|a s IH]; simpl; [reflexivity|].
  now rewrite ascii_compare_refl.
Qed.

Lemma leb_refl (s : string) : String.leb s s = true.
Proof. unfold String.leb. now rewrite compare_refl. Qed.

Lemma leb_cases (s1 s2 : string) :
  String.leb s1 s2 = true <-> s1 = s2 \/ String.compare s1 s2 = Lt.
Proof.
  unfold String.leb. split.
  - destruct (String.compare s1 s2) eqn:E; try discriminate; intros _.
    + left. now apply String.compare_eq_iff.
    + now right.
  - intros [-> | ->]; [apply leb_refl | reflexivity].
Qed.

Lemma leb_trans (s1 s2 s3 : string) :
  String.leb s1 s2 = true -> String.leb s2 s3 = true -> String.leb s1 s3 = true.
Proof.
  rewrite !leb_cases. intros [-> | H12] [-> | H23]; auto.
  right. now apply compare_lt_trans with s2.
Qed.

Lemma ltb_leb (s1 s2 : string) : String.ltb s1 s2 = true -> String.leb s1 s2 = true.
Proof.
  unfold String.ltb, String.leb. now destruct (String.compare s1 s2).
Qed.

Lemma not_ltb_leb (s1 s2 : string) : String.ltb s1 s2 = false -> String.leb s2 s1 = true.
Proof.
  unfold String.ltb, String.leb. rewrite (String.compare_antisym s2 s1).
  now destruct (String.compare s1 s2).
Qed.

(** [s] is the greatest element of [l]. *)
Definition greatest (s : string) (l : list string) : Prop :=
  In s l /\ forall x, In x l -> String.leb x s = true.

Lemma greatest_unique (s1 s2 : string) (l1 l2 : list string) :
  (forall x, In x l1 <-> In x l2) -> greatest s1 l1 -> greatest s2 l2 -> s1 = s2.
Proof.
  intros Hsame [Hin1 Hmax1] [Hin2 Hmax2].
  apply String.leb_antisym.
  - apply Hmax2. now apply Hsame.
  - apply Hmax1. now apply Hsame.
Qed.

Lemma max_str_greatest (first : string) (rest : list string) :
  greatest (Py.max_str first rest) (first :: rest).
Proof.
  unfold Py.max_str, greatest. revert first.
  induction rest as [|item rest IH]; intros first; cbn [fold_left].
  - split; [now left|]. intros x Hx. destruct Hx as [<-|[]]. apply leb_refl.
  - destruct (String.ltb first item) eqn:E.
    + destruct (IH item) as [Hin Hmax]. split.
      * right. exact Hin.
      * intros x Hx. destruct Hx as [<-|Hx]; [|now apply Hmax].
        apply leb_trans with item; [now apply ltb_leb | apply Hmax; now left].
    + destruct (IH first) as [Hin Hmax]. split.
      * destruct Hin as [<-|Hin]; [now left | right; now right].
      * intros x Hx. destruct Hx as [<-|[<-|Hx]].
        -- apply Hmax. now left.
        -- apply leb_trans with first; [now apply not_ltb_leb | apply Hmax; now left].
        -- apply Hmax. now right.
Qed.

End StrOrder.

(** ** Graph insights *)

(** The edge-type strings of an edge list, in order. *)
Definition edge_type_values (edges : list EnhancedHyperEdge.t) : list string :=
  map (fun edge => EdgeTypeValue.value (EnhancedHyperEdge.edge_type edge)) edges.

(** C5. With more than one node the graph density is the number of edges
    over [n * (n - 1)], [n] the number of nodes; with at most one node it
    is zero. *)
Theorem graph_density_spec (nodes : list EnhancedHyperNode.t)
    (edges : list EnhancedHyperEdge.t) :
  ((1 < List.length nodes)%nat ->
     graph_density (_generate_graph_insights nodes edges) =
     inject_Z (Z.of_nat (List.length edges))
     / (inject_Z (Z.of_nat (List.length nodes))
        * (inject_Z (Z.of_nat (List.length nodes)) - 1)))
  /\ ((List.length nodes <= 1)%nat ->
     graph_density (_generate_graph_insights nodes edges) = 0).
Proof.
  unfold _generate_graph_insights, Py.len; simpl.
  split; intros Hn.
  - destruct (1 <? Z.of_nat (List.length nodes))%Z eqn:E; [reflexivity|].
    apply Z.ltb_ge in E. lia.
  - destruct (1 <? Z.of_nat (List.length nodes))%Z eqn:E; [|reflexivity].
    apply Z.ltb_lt in E. lia.
Qed.

(** C5 at three nodes and four edges, and at a single node. *)
Lemma graph_density_witness :
  graph_density (_generate_graph_insights sample_nodes sample_edges) == 2 # 3
  /\ graph_density
       (_generate_graph_insights [sample_node "person_0" "Alice" PERSON 1] sample_edges)
     = 0.
Proof.
  split.
  - destruct (graph_density_spec sample_nodes sample_edges) as [Hmany _].
    rewrite Hmany; [reflexivity | simpl; lia].
  - destruct (graph_density_spec [sample_node "person_0" "Alice" PERSON 1] sample_edges)
      as [_ Hone].
    apply Hone. simpl. lia.
Defined.

(** C10. For a non-empty edge list, [most_common_relationship] is the
    greatest edge-type string of the edges in the code-point order, so it
    is the same for any two edge lists with the same set of edge types,
    whatever the multiplicities; for an empty edge list it is ["none"]. *)
Theorem most_common_relationship_spec (nodes : list EnhancedHyperNode.t)
    (edges : list EnhancedHyperEdge.t) :
  (edges = [] ->
     most_common_relationship (_generate_graph_insights nodes edges) = "none")
  /\ (edges <> [] ->
     StrOrder.greatest
       (most_common_relationship (_generate_graph_insights nodes edges))
       (edge_type_values edges))
  /\ (forall nodes' edges', edges <> [] ->
     (forall s, In s (edge_type_values edges) <-> In s (edge_type_values edges')) ->
     most_common_relationship (_generate_graph_insights nodes' edges') =
     most_common_relationship (_generate_graph_insights nodes edges)).
Proof.
  assert (Hg : forall ns es, es <> [] ->
    StrOrder.greatest (most_common_relationship (_generate_graph_insights ns es))
                      (edge_type_values es)).
  { intros ns [|e es] Hne; [congruence|].
    unfold _generate_graph_insights, edge_type_values; simpl.
    apply StrOrder.max_str_greatest. }
  split; [intros ->; reflexivity|].
  split; [apply Hg|].
  intros nodes' edges' Hne Hsame.
  assert (Hne' : edges' <> []).
  { destruct edges as [|e es]; [congruence|].
    intros ->. apply (Hsame (EdgeTypeValue.value (EnhancedHyperEdge.edge_type e))).
    now left. }
  apply (StrOrder.greatest_unique _ _ (edge_type_values edges') (edge_type_values edges)).
  - intros x. symmetry. apply Hsame.
  - now apply Hg.
  - now apply Hg.
Qed.

(** C10 at four edges, two of each of two types: the answer is the
    type that sorts last, and doubling the other type does not change it. *)
Lemma most_common_relationship_witness :
  most_common_relationship (_generate_graph_insights sample_nodes sample_edges)
  = "relates_to"
  /\ most_common_relationship
       (_generate_graph_insights sample_nodes
          (sample_edge "person_0" "skill_0" DEMONSTRATES 1
           :: sample_edge "person_0" "skill_1" DEMONSTRATES 1 :: sample_edges))
     = most_common_relationship (_generate_graph_insights sample_nodes sample_edges).
Proof.
  destruct (most_common_relationship_spec sample_nodes sample_edges)
    as (_ & Hgreatest & Hsame).
  split.
  - destruct (Hgreatest ltac:(discriminate)) as [_ Hmax].
    apply String.leb_antisym.
    + reflexivity.
    + apply Hmax. vm_compute. tauto.
  - apply Hsame; [discriminate|].
    intros s. vm_compute. tauto.
Defined.

(** ** Hyperedges reference existing nodes *)

Module EdgeFacts.

Definition lookup_step (m : gmap string string) (node : EnhancedHyperNode.t) :=
  <[PyStr.lower (EnhancedHyperNode.content node) := EnhancedHyperNode.id node]> m.

Lemma node_lookup_fold hypernodes : node_lookup hypernodes = fold_left lookup_step hypernodes ∅.
Proof. reflexivity. Qed.

Lemma fold_lookup_Some hypernodes (m : gmap string string) k i :
  fold_left lookup_step hypernodes m !! k = Some i ->
  m !! k = Some i \/
  exists node, In node hypernodes
    /\ PyStr.lower (EnhancedHyperNode.content node) = k
    /\ EnhancedHyperNode.id node = i.
Proof.
  revert m. induction hypernodes as [|node hypernodes IH]; intros m; simpl.
  - now left.
  - intros H0. apply IH in H0. destruct H0 as [H0|(n & Hin & Hk & Hi)].
    + unfold lookup_step in H0.
      destruct (decide (PyStr.lower (EnhancedHyperNode.content node) = k)) as [Heq|Hne].
      * rewrite Heq, lookup_insert_eq in H0. injection H0 as <-.
        right. exists node. split; [now left | now split].
      * rewrite lookup_insert_ne in H0 by assumption. now left.
    + right. exists n. split; [now right | now split].
Qed.

Lemma fold_lookup_unmatched hypernodes (m : gmap string string) k :
  (forall node, In node hypernodes -> PyStr.lower (EnhancedHyperNode.content node) <> k) ->
  fold_left lookup_step hypernodes m !! k = m !! k.
Proof.
  revert m. induction hypernodes as [|node hypernodes IH]; intros m Hno; simpl.
  - reflexivity.
  - rewrite IH by (intros n Hn; apply Hno; now right).
    unfold lookup_step. apply lookup_insert_ne. apply Hno. now left.
Qed.

Lemma node_lookup_Some hypernodes k i :
  node_lookup hypernodes !! k = Some i ->
  exists node, In node hypernodes
    /\ PyStr.lower (EnhancedHyperNode.content node) = k
    /\ EnhancedHyperNode.id node = i.
Proof.
  rewrite node_lookup_fold. intros H0. apply fold_lookup_Some in H0.
  destruct H0 as [H0|H0]; [|exact H0].
  rewrite lookup_empty in H0. discriminate.
Qed.

Lemma node_lookup_unmatched hypernodes k :
  (forall node, In node hypernodes -> PyStr.lower (EnhancedHyperNode.content node) <> k) ->
  node_lookup hypernodes !! k = None.
Proof.
  intros Hno. rewrite node_lookup_fold, fold_lookup_unmatched by assumption.
  apply lookup_empty.
Qed.

(** No node of [hypernodes] has the content [text], letter case apart. *)
Definition unmatched (text : string) (hypernodes : list EnhancedHyperNode.t) : Prop :=
  forall node, In node hypernodes ->
    PyStr.lower (EnhancedHyperNode.content node) <> PyStr.lower text.

Lemma relationship_edges_unmatched hypernodes timestamp rel :
  unmatched (CleanRelationship.source_entity rel) hypernodes
  \/ unmatched (CleanRelationship.target_entity rel) hypernodes ->
  relationship_edges (node_lookup hypernodes) timestamp rel = [].
Proof.
  unfold relationship_edges.
  intros [Hno|Hno]; rewrite (node_lookup_unmatched _ _ Hno); simpl.
  - reflexivity.
  - now rewrite andb_false_r.
Qed.

End EdgeFacts.

(** C9. Every hyperedge built by [_create_enhanced_hyperedges] joins
    exactly two nodes of the hypernode list: its source and target ids are
    the ids of nodes whose content equals, letter case apart, the source
    and target text of the relationship it was built from; a relationship
    whose source or target text matches no node's content contributes no
    edge. *)
Theorem create_enhanced_hyperedges_spec (timestamp : string)
    (relationships : list CleanRelationship.t)
    (hypernodes : list EnhancedHyperNode.t) :
  (forall edge, In edge (_create_enhanced_hyperedges timestamp relationships hypernodes) ->
     exists rel source_node target_node,
       In rel relationships /\ In source_node hypernodes /\ In target_node hypernodes
       /\ EnhancedHyperEdge.source_node_id edge = EnhancedHyperNode.id source_node
       /\ EnhancedHyperEdge.target_node_id edge = EnhancedHyperNode.id target_node
       /\ PyStr.lower (EnhancedHyperNode.content source_node)
          = PyStr.lower (CleanRelationship.source_entity rel)
       /\ PyStr.lower (EnhancedHyperNode.content target_node)
          = PyStr.lower (CleanRelationship.target_entity rel)
       /\ EnhancedHyperEdge.edge_type edge = CleanRelationship.relationship_type rel)
  /\ (forall before rel after,
     relationships = before ++ rel :: after ->
     EdgeFacts.unmatched (CleanRelationship.source_entity rel) hypernodes
     \/ EdgeFacts.unmatched (CleanRelationship.target_entity rel) hypernodes ->
     _create_enhanced_hyperedges timestamp relationships hypernodes
     = _create_enhanced_hyperedges timestamp (before ++ after) hypernodes).
Proof.
  unfold _create_enhanced_hyperedges. split.
  - intros edge Hin. apply in_flat_map in Hin. destruct Hin as (rel & Hrel & Hedge).
    unfold relationship_edges in Hedge.
    destruct (node_lookup hypernodes !! PyStr.lower (CleanRelationship.source_entity rel))
      as [s|] eqn:Hs; [|simpl in Hedge; tauto].
    destruct (node_lookup hypernodes !! PyStr.lower (CleanRelationship.target_entity rel))
      as [t|] eqn:Ht; [|rewrite andb_false_r in Hedge; simpl in Hedge; tauto].
    destruct (truthy_id (Some s) && truthy_id (Some t)); [|simpl in Hedge; tauto].
    destruct Hedge as [<-|[]].
    apply EdgeFacts.node_lookup_Some in Hs, Ht.
    destruct Hs as (n1 & Hn1 & Hc1 & Hi1), Ht as (n2 & Hn2 & Hc2 & Hi2).
    exists rel, n1, n2. simpl. repeat split; auto.
  - intros before rel after -> Hno.
    rewrite !flat_map_app. simpl.
    now rewrite (EdgeFacts.relationship_edges_unmatched _ _ _ Hno).
Qed.

(** C9 at three relationships over the sample nodes: the one that names
    an entity without a node is left out, the other two join nodes of the
    list. *)
Lemma create_enhanced_hyperedges_witness :
  map (fun edge => (EnhancedHyperEdge.source_node_id edge,
                    EnhancedHyperEdge.target_node_id edge))
      (_create_enhanced_hyperedges "2024-01-01T00:00:00" sample_relationships sample_nodes)
  = [("person_0", "skill_1"); ("skill_0", "skill_1")]
  /\ _create_enhanced_hyperedges "2024-01-01T00:00:00" sample_relationships sample_nodes
     = _create_enhanced_hyperedges "2024-01-01T00:00:00"
         [sample_relationship "alice" "PLANNING" DEMONSTRATES;
          sample_relationship "Negotiation" "Planning" RELATES_TO]
         sample_nodes.
Proof.
  destruct (create_enhanced_hyperedges_spec "2024-01-01T00:00:00" sample_relationships
              sample_nodes) as [_ Hdrop].
  split; [vm_compute; reflexivity|].
  apply (Hdrop [sample_relationship "alice" "PLANNING" DEMONSTRATES]
               (sample_relationship "Alice" "Chess" DEMONSTRATES)
               [sample_relationship "Negotiation" "Planning" RELATES_TO] eq_refl).
  right. intros node Hin. simpl in Hin.
  destruct Hin as [<-|[<-|[<-|[]]]]; discriminate.
Defined.

(** ** The quality score *)

Module QualitySpec.

(** The quantities of the claim, stated on their own: totals by
    structural recursion, distinct strings by removing duplicates. *)
Fixpoint total (l : list Q) : Q :=
  match l with
  | [] => 0
  | x :: l' => x + total l'
  end.

Definition count {A} (l : list A) : Q := inject_Z (Z.of_nat (List.length l)).

Definition mean (l : list Q) : Q := total l / count l.

Definition mean_or_zero (l : list Q) : Q :=
  match l with
  | [] => 0
  | _ => mean l
  end.

Definition distinct (l : list string) : Q :=
  inject_Z (Z.of_nat (List.length (nodup string_dec l))).

Definition node_confidences (nodes : list EnhancedHyperNode.t) : list Q :=
  map EnhancedHyperNode.confidence nodes.

Definition edge_confidences (edges : list EnhancedHyperEdge.t) : list Q :=
  map EnhancedHyperEdge.confidence edges.

Definition node_type_values (nodes : list EnhancedHyperNode.t) : list string :=
  map (fun node => NodeTypeValue.value (EnhancedHyperNode.node_type node)) nodes.

Definition in_unit (x : Q) : Prop := 0 <= x /\ x <= 1.

Lemma fold_left_total (l : list Q) (a : Q) : fold_left Qplus l a == a + total l.
Proof.
  revert a. induction l as [|x l IH]; intros a; simpl.
  - lra.
  - rewrite IH. lra.
Qed.

Lemma sum_total (l : list Q) : Py.sum l == total l.
Proof. unfold Py.sum. rewrite fold_left_total. lra. Qed.

Lemma min_Qmin (x y : Q) : Py.min x y == Qmin x y.
Proof.
  destruct (PyFacts.min_spec x y) as [[Hle ->]|[Hlt ->]].
  - symmetry. now apply Q.min_l.
  - symmetry. apply Q.min_r. now apply Qlt_le_weak.
Qed.

Lemma size_list_to_set (l : list string) :
  size (list_to_set l : gset string) = List.length (nodup string_dec l).
Proof.
  induction l as [|x l IH].
  - reflexivity.
  - cbn [nodup list_to_set].
    destruct (in_dec string_dec x l) as [Hin|Hnot].
    + rewrite <- IH. f_equal.
      apply list_elem_of_In in Hin.
      assert (Hx : x ∈ (list_to_set l : gset string)) by now apply elem_of_list_to_set.
      apply subseteq_union_1_L. now apply singleton_subseteq_l.
    + cbn [List.length]. rewrite <- IH.
      rewrite size_union.
      * now rewrite size_singleton.
      * assert (Hx : x ∉ (list_to_set l : gset string)).
        { rewrite elem_of_list_to_set, list_elem_of_In. exact Hnot. }
        now apply disjoint_singleton_l.
Qed.

Lemma len_set_distinct (l : list string) : Py.len_set l = distinct l.
Proof. unfold Py.len_set, distinct. now rewrite size_list_to_set. Qed.

Lemma count_nonneg {A} (l : list A) : 0 <= count l.
Proof.
  unfold count. change 0 with (inject_Z 0). rewrite <- Zle_Qle. lia.
Qed.

Lemma count_pos {A} (l : list A) : l <> [] -> 0 < count l.
Proof.
  intros Hne. unfold count. change 0 with (inject_Z 0). rewrite <- Zlt_Qlt.
  destruct l; [congruence | simpl; lia].
Qed.

Lemma distinct_nonneg (l : list string) : 0 <= distinct l.
Proof. apply (count_nonneg (nodup string_dec l)). Qed.

Lemma total_bounds (l : list Q) :
  (forall x, In x l -> in_unit x) -> 0 <= total l /\ total l <= count l.
Proof.
  unfold count. induction l as [|x l IH]; intros Hall.
  - simpl. split; apply Qle_refl.
  - destruct IH as [IH0 IH1]; [intros y Hy; apply Hall; now right|].
    destruct (Hall x (or_introl eq_refl)) as [Hx0 Hx1].
    cbn [total List.length]. rewrite Nat2Z.inj_succ. unfold Z.succ.
    rewrite inject_Z_plus. change (inject_Z 1) with 1. split; lra.
Qed.

Lemma mean_in_unit (l : list Q) :
  l <> [] -> (forall x, In x l -> in_unit x) -> in_unit (mean l).
Proof.
  intros Hne Hall. destruct (total_bounds l Hall) as [H0 H1].
  pose proof (count_pos l Hne) as Hpos.
  unfold mean. split.
  - apply Qle_shift_div_l; [assumption|]. lra.
  - apply Qle_shift_div_r; [assumption|]. lra.
Qed.

Lemma mean_or_zero_in_unit (l : list Q) :
  (forall x, In x l -> in_unit x) -> in_unit (mean_or_zero l).
Proof.
  intros Hall. destruct l as [|x l].
  - unfold in_unit; simpl. lra.
  - apply mean_in_unit; [discriminate | assumption].
Qed.

Lemma capped_in_unit (x d : Q) : 0 <= x -> 0 < d -> in_unit (Qmin (x / d) 1).
Proof.
  intros Hx Hd. split.
  - apply Q.min_glb; [|lra]. apply Qle_shift_div_l; [assumption|]. lra.
  - apply Q.le_min_r.
Qed.

(** The weighted average of the claim. *)
Definition weighted_average (nodes : list EnhancedHyperNode.t)
    (edges : list EnhancedHyperEdge.t) : Q :=
  (3 # 10) * mean (node_confidences nodes)
  + (3 # 10) * mean_or_zero (edge_confidences edges)
  + (2 # 10) * Qmin (distinct (node_type_values nodes) / 6) 1
  + (2 # 10) * Qmin (distinct (edge_type_values edges) / 5) 1.

Lemma len_count {A B} (f : A -> B) (l : list A) : Py.len l = count (map f l).
Proof. unfold Py.len, count. now rewrite List.length_map. Qed.

Lemma quality_score_weighted (nodes : list EnhancedHyperNode.t)
    (edges : list EnhancedHyperEdge.t) :
  nodes <> [] -> _calculate_quality_score nodes edges == weighted_average nodes edges.
Proof.
  intros Hne. destruct nodes as [|node nodes]; [congruence|].
  destruct edges as [|edge edges];
    unfold _calculate_quality_score, weighted_average, mean_or_zero, mean;
    cbv beta iota zeta;
    rewrite !min_Qmin, !len_set_distinct, !sum_total;
    rewrite (len_count EnhancedHyperNode.confidence);
    rewrite ?(len_count EnhancedHyperEdge.confidence);
    reflexivity.
Qed.

End QualitySpec.

(** C4, as stated, fails: nothing bounds a node's confidence, and a single
    node of confidence 4 has a quality score above 1. *)
Lemma quality_score_exceeds_one :
  ~ (forall nodes edges,
       0 <= _calculate_quality_score nodes edges
       /\ _calculate_quality_score nodes edges <= 1).
Proof.
  intros H.
  destruct (H [sample_node "person_0" "Alice" PERSON 4] []) as [_ Hle].
  vm_compute in Hle. now apply Hle.
Qed.

(** C4, amended. For a non-empty node list [_calculate_quality_score] is
    the weighted average 0.3 * (mean node confidence) + 0.3 * (mean edge
    confidence, 0 without edges) + 0.2 * min(distinct node types / 6, 1)
    + 0.2 * min(distinct edge types / 5, 1); for an empty node list it is
    0; when every node and edge confidence lies in [0, 1] the score lies
    in [0, 1]. *)
Theorem calculate_quality_score_spec (nodes : list EnhancedHyperNode.t)
    (edges : list EnhancedHyperEdge.t) :
  (nodes = [] -> _calculate_quality_score nodes edges = 0)
  /\ (nodes <> [] ->
      _calculate_quality_score nodes edges == QualitySpec.weighted_average nodes edges)
  /\ ((forall node, In node nodes ->
         0 <= EnhancedHyperNode.confidence node /\ EnhancedHyperNode.confidence node <= 1) ->
      (forall edge, In edge edges ->
         0 <= EnhancedHyperEdge.confidence edge /\ EnhancedHyperEdge.confidence edge <= 1) ->
      0 <= _calculate_quality_score nodes edges
      /\ _calculate_quality_score nodes edges <= 1).
Proof.
  split; [intros ->; reflexivity|].
  split; [apply QualitySpec.quality_score_weighted|].
  intros Hnodes Hedges.
  destruct nodes as [|node nodes]; [simpl; lra|].
  rewrite QualitySpec.quality_score_weighted by discriminate.
  unfold QualitySpec.weighted_average.
  assert (Hn : QualitySpec.in_unit
                 (QualitySpec.mean (QualitySpec.node_confidences (node :: nodes)))).
  { apply QualitySpec.mean_in_unit; [discriminate|].
    intros x Hx. unfold QualitySpec.node_confidences in Hx.
    apply in_map_iff in Hx. destruct Hx as (n & <- & Hin). now apply Hnodes. }
  assert (He : QualitySpec.in_unit
                 (QualitySpec.mean_or_zero (QualitySpec.edge_confidences edges))).
  { apply QualitySpec.mean_or_zero_in_unit.
    intros x Hx. unfold QualitySpec.edge_confidences in Hx.
    apply in_map_iff in Hx. destruct Hx as (e & <- & Hin). now apply Hedges. }
  pose proof (QualitySpec.capped_in_unit
                (QualitySpec.distinct (QualitySpec.node_type_values (node :: nodes))) 6
                (QualitySpec.distinct_nonneg _) eq_refl) as Hd.
  pose proof (QualitySpec.capped_in_unit
                (QualitySpec.distinct (edge_type_values edges)) 5
                (QualitySpec.distinct_nonneg _) eq_refl) as Hr.
  unfold QualitySpec.in_unit in *.
  destruct Hn, He, Hd, Hr. split; lra.
Qed.

(** The amended C4 at the sample graph. *)
Lemma calculate_quality_score_witness :
  _calculate_quality_score sample_nodes sample_edges
  == QualitySpec.weighted_average sample_nodes sample_edges
  /\ 0 <= _calculate_quality_score sample_nodes sample_edges
  /\ _calculate_quality_score sample_nodes sample_edges <= 1.
Proof.
  destruct (calculate_quality_score_spec sample_nodes sample_edges)
    as (_ & Havg & Hunit).
  split; [apply Havg; discriminate|].
  apply Hunit.
  - intros node Hin. simpl in Hin.
    destruct Hin as [<-|[<-|[<-|[]]]]; simpl; split; discriminate.
  - intros edge Hin. simpl in Hin.
    destruct Hin as [<-|[<-|[<-|[<-|[]]]]]; simpl; split; discriminate.
Defined.

(** ** Needs scores *)

Module NeedsFacts.
Import NeedsAnalysis.

(** The number a score map gives a need, a missing entry read as 0.0. *)
Definition score_of (scores : PyDict.t HumanNeed number) (need : HumanNeed) : Q :=
  match PyDict.get_default scores need (Float 0) with
  | Float q => q
  | Dec q => q
  end.

(** Every entry the loop reads is a [float]. *)
Definition float_valued (scores : PyDict.t HumanNeed number) : Prop :=
  forall need, exists q, PyDict.get_default scores need (Float 0) = Float q.

(** The 30/70 blend of the claim. *)
Definition blend (keyword_scores llm_scores : PyDict.t HumanNeed number)
    (need : HumanNeed) : Q :=
  (3 # 10) * score_of keyword_scores need + (7 # 10) * score_of llm_scores need.

Lemma in_all_HumanNeed (need : HumanNeed) : In need all_HumanNeed.
Proof. destruct need; simpl; tauto. Qed.

Lemma combine_loop_spec keyword_scores llm_scores needs combined_scores :
  float_valued keyword_scores -> float_valued llm_scores ->
  exists result,
    combine_loop keyword_scores llm_scores needs combined_scores = Some result
    /\ forall need,
         (In need needs ->
            PyDict.get result need = Some (blend keyword_scores llm_scores need))
         /\ (~ In need needs ->
            PyDict.get result need = PyDict.get combined_scores need).
Proof.
  intros Hk Hl. revert combined_scores.
  induction needs as [|need0 rest IH]; intros combined_scores; simpl.
  - exists combined_scores. split; [reflexivity|]. intros need. tauto.
  - destruct (Hk need0) as [k Hk0], (Hl need0) as [l Hl0].
    rewrite Hk0, Hl0. simpl.
    destruct (IH (PyDict.set combined_scores need0 ((3 # 10) * k + (7 # 10) * l)))
      as (result & Hres & Hget).
    exists result. split; [exact Hres|].
    intros need. destruct (Hget need) as [Hin Hout]. split.
    + intros [<-|Hrest]; [|now apply Hin].
      destruct (in_dec (fun a b => decide (a = b)) need0 rest) as [Hr|Hr];
        [now apply Hin|].
      rewrite (Hout Hr), PyDictFacts.get_set_eq.
      unfold blend, score_of. now rewrite Hk0, Hl0.
    + intros Hnot. rewrite Hout by tauto.
      apply PyDictFacts.get_set_ne. intros ->. apply Hnot. now left.
Qed.

Lemma combine_loop_decimal keyword_scores llm_scores needs combined_scores need q :
  In need needs ->
  PyDict.get_default llm_scores need (Float 0) = Dec q ->
  combine_loop keyword_scores llm_scores needs combined_scores = None.
Proof.
  revert combined_scores. induction needs as [|need0 rest IH]; intros combined_scores.
  - intros [].
  - intros [->|Hin] Hdec; simpl.
    + rewrite Hdec.
      now destruct (float_mul (3 # 10) (PyDict.get_default keyword_scores need (Float 0))).
    + destruct (float_mul (3 # 10) (PyDict.get_default keyword_scores need0 (Float 0)));
        [|reflexivity]; simpl.
      destruct (float_mul (7 # 10) (PyDict.get_default llm_scores need0 (Float 0)));
        [|reflexivity]; simpl.
      now apply IH.
Qed.

Definition ensure_step (content_type : string) (scores : PyDict.t string Q)
    (need : string) : PyDict.t string Q :=
  if PyDict.contains scores need then scores
  else PyDict.set scores need (get_content_aware_fallback_score need content_type).

Lemma ensure_fold content_type names (scores : PyDict.t string Q) need :
  PyDict.get (fold_left (ensure_step content_type) names scores) need =
  match PyDict.get scores need with
  | Some q => Some q
  | None =>
      if in_dec string_dec need names
      then Some (get_content_aware_fallback_score need content_type)
      else None
  end.
Proof.
  revert scores. induction names as [|name names IH]; intros scores; simpl.
  - now destruct (PyDict.get scores need).
  - rewrite IH. unfold ensure_step, PyDict.contains.
    destruct (PyDict.get scores name) as [q|] eqn:Hname.
    + destruct (PyDict.get scores need) as [q'|] eqn:Hneed; [reflexivity|].
      destruct (string_dec name need) as [->|Hne]; [congruence|].
      destruct (in_dec string_dec need names); reflexivity.
    + destruct (string_dec name need) as [->|Hne].
      * now rewrite PyDictFacts.get_set_eq, Hname.
      * rewrite PyDictFacts.get_set_ne by assumption.
        destruct (PyDict.get scores need); [reflexivity|].
        destruct (in_dec string_dec need names); reflexivity.
Qed.

End NeedsFacts.

Import NeedsAnalysis.

(** C2, as stated, fails in its last part: the handler's
    [analyze_human_needs] returns the score read from the model's answer,
    not its blend with the keyword score of the text. *)
Lemma agent_score_is_not_the_blend :
  ~ (forall text content_type themes llm_answer need,
       PyDict.contains llm_answer (value need) = true ->
       PyDict.get_default
         (analyze_human_needs text content_type themes (LlmScores llm_answer))
         (value need) 0
       == (3 # 10) * keyword_need_score text need
          + (7 # 10) * PyDict.get_default llm_answer (value need) 0).
Proof.
  intros H.
  specialize (H "We plan for security" "interview_transcript" [] sample_llm_answer
                CERTAINTY eq_refl).
  vm_compute in H. discriminate H.
Qed.

(** C2, amended. On score maps whose entries are floats,
    [combine_needs_scores] returns for each of the six needs 0.3 times the
    keyword score plus 0.7 times the model's score, a missing entry read
    as 0.0.  The handler does not call it: the needs score
    [analyze_human_needs] produces for a need is the score read from the
    model's answer, or the content-aware fallback score when the answer
    lacks the need, and the content-aware scores when the call fails;
    the text has no other influence. *)
Theorem combine_needs_scores_spec
    (keyword_scores llm_scores : PyDict.t HumanNeed number) :
  (NeedsFacts.float_valued keyword_scores -> NeedsFacts.float_valued llm_scores ->
   exists combined_scores,
     combine_needs_scores keyword_scores llm_scores = Some combined_scores
     /\ forall need,
          PyDict.get combined_scores need
          = Some (NeedsFacts.blend keyword_scores llm_scores need))
  /\ (forall text content_type themes llm_answer need,
        In need all_needs ->
        PyDict.get
          (analyze_human_needs text content_type themes (LlmScores llm_answer)) need
        = Some (PyDict.get_default llm_answer need
                  (get_content_aware_fallback_score need content_type)))
  /\ (forall text text' content_type themes outcome,
        analyze_human_needs text content_type themes outcome
        = analyze_human_needs text' content_type themes outcome)
  /\ (forall text content_type themes,
        analyze_human_needs text content_type themes LlmFailed
        = get_content_aware_scores content_type themes).
Proof.
  split; [|split; [|split]].
  - intros Hk Hl. unfold combine_needs_scores.
    destruct (NeedsFacts.combine_loop_spec keyword_scores llm_scores all_HumanNeed
                PyDict.empty Hk Hl) as (result & Hres & Hget).
    exists result. split; [exact Hres|].
    intros need. apply Hget. apply NeedsFacts.in_all_HumanNeed.
  - intros text content_type themes llm_answer need Hin.
    unfold analyze_human_needs, ensure_all_needs.
    change (fun scores need0 =>
              if PyDict.contains scores need0 then scores
              else PyDict.set scores need0
                     (get_content_aware_fallback_score need0 content_type))
      with (NeedsFacts.ensure_step content_type).
    rewrite NeedsFacts.ensure_fold. unfold PyDict.get_default.
    destruct (PyDict.get llm_answer need); [reflexivity|].
    destruct (in_dec string_dec need all_needs); [reflexivity | contradiction].
  - reflexivity.
  - reflexivity.
Qed.

(** The amended C2 at a keyword map computed from a text and an answer
    that scores two of the needs. *)
Lemma combine_needs_scores_witness :
  (exists combined_scores,
     combine_needs_scores sample_keyword_scores sample_llm_floats = Some combined_scores
     /\ PyDict.get combined_scores CERTAINTY
        = Some (NeedsFacts.blend sample_keyword_scores sample_llm_floats CERTAINTY))
  /\ PyDict.get
       (analyze_human_needs "We plan for security" "interview_transcript" []
          (LlmScores sample_llm_answer)) "variety"
     = Some (5 # 10).
Proof.
  destruct (combine_needs_scores_spec sample_keyword_scores sample_llm_floats)
    as (Hblend & Hagent & _).
  split.
  - destruct Hblend as (combined & Hres & Hget).
    + intros need. destruct need; eexists; reflexivity.
    + intros need. destruct need; eexists; reflexivity.
    + exists combined. split; [exact Hres | apply Hget].
  - rewrite Hagent; [reflexivity|]. simpl. tauto.
Defined.

(** The one caller of [combine_needs_scores] passes the model's scores as
    [Decimal]s, so there the call ends in a [TypeError]. *)
Lemma combine_needs_scores_decimal :
  combine_needs_scores sample_keyword_scores sample_llm_decimals = None.
Proof.
  unfold combine_needs_scores.
  apply (NeedsFacts.combine_loop_decimal _ _ _ _ CERTAINTY (3 # 10)).
  - now left.
  - reflexivity.
Qed.

(** ** Content complexity *)

Module ComplexityFacts.
Import FileAnalyzer.

Lemma of_nat_nonneg (n : nat) : 0 <= of_nat n.
Proof. unfold of_nat. change 0 with (inject_Z 0). rewrite <- Zle_Qle. lia. Qed.

Lemma div_nonneg (x d : Q) : 0 <= x -> 0 < d -> 0 <= x / d.
Proof. intros Hx Hd. apply Qle_shift_div_l; [assumption|]. lra. Qed.

Lemma capped_nonneg (x d : Q) : 0 <= x -> 0 < d -> 0 <= Py.min (x / d) 1.
Proof.
  intros Hx Hd. apply PyFacts.min_glb; [now apply div_nonneg | lra].
Qed.

Lemma capped_le_one (x : Q) : Py.min x 1 <= 1.
Proof. apply PyFacts.min_le_r. Qed.

End ComplexityFacts.

Import FileAnalyzer.

(** C6, as stated, fails in its second half: two contents with the same
    word, sentence and speaker counts get different complexities, because
    the score reads the paragraph count and the technical keywords and
    never the sentence count. *)
Lemma complexity_not_determined_by_sentence_counts :
  ~ (forall content content',
       word_count content = word_count content' ->
       sentence_count content = sentence_count content' ->
       speaker_count content = speaker_count content' ->
       analyze_content_complexity content == analyze_content_complexity content').
Proof.
  intros H.
  specialize (H "software" "hardware" eq_refl eq_refl eq_refl).
  vm_compute in H. discriminate H.
Qed.

(** C6, amended. For every content [analyze_content_complexity] returns
    a value in [0, 1], and the value is determined by the content's word
    count, speaker count, paragraph count and number of technical
    keywords present. *)
Theorem analyze_content_complexity_spec (content : string) :
  (0 <= analyze_content_complexity content /\ analyze_content_complexity content <= 1)
  /\ (forall content',
        word_count content = word_count content' ->
        speaker_count content = speaker_count content' ->
        paragraph_count content = paragraph_count content' ->
        technical_hits content = technical_hits content' ->
        analyze_content_complexity content = analyze_content_complexity content').
Proof.
  split.
  - unfold analyze_content_complexity. cbv zeta. split.
    + apply PyFacts.min_glb; [|lra].
      pose proof (ComplexityFacts.capped_nonneg (of_nat (word_count content)) 2000
                    (ComplexityFacts.of_nat_nonneg _) eq_refl).
      pose proof (ComplexityFacts.capped_nonneg (of_nat (speaker_count content)) 5
                    (ComplexityFacts.of_nat_nonneg _) eq_refl).
      pose proof (ComplexityFacts.capped_nonneg (of_nat (paragraph_count content)) 20
                    (ComplexityFacts.of_nat_nonneg _) eq_refl).
      pose proof (ComplexityFacts.div_nonneg (of_nat (technical_hits content))
                    (of_nat (List.length technical_keywords))
                    (ComplexityFacts.of_nat_nonneg _) eq_refl).
      lra.
    + apply ComplexityFacts.capped_le_one.
  - intros content' Hw Hs Hp Ht. unfold analyze_content_complexity.
    now rewrite Hw, Hs, Hp, Ht.
Qed.

(** The amended C6 at two transcripts that differ in their wording only. *)
Lemma analyze_content_complexity_witness :
  analyze_content_complexity "Anna: our software works. Bob: yes!"
  = analyze_content_complexity "Ann: the software ran? Bo: no."
  /\ analyze_content_complexity "Anna: our software works. Bob: yes!" <= 1.
Proof.
  destruct (analyze_content_complexity_spec "Anna: our software works. Bob: yes!")
    as [[_ Hle] Hsame].
  split; [|exact Hle].
  apply Hsame; vm_compute; reflexivity.
Defined.

(** ** Storage with retries *)

Import PyVal GraphExtraction.

Module RetryFacts.

(** The delay after the [k]-th failed attempt, [k] counted from 1. *)
Definition backoff (self : S3GraphStorage.t) (k : nat) : Q :=
  S3GraphStorage.base_delay self * inject_Z (2 ^ (Z.of_nat k - 1)).

Lemma put_count_retry_loop self s3 s3_key json_data attempts :
  (put_count (snd (retry_loop self s3 s3_key json_data attempts))
   <= List.length attempts)%nat.
Proof.
  unfold put_count.
  induction attempts as [|attempt rest IH]; simpl; [lia|].
  destruct (s3 attempt) as [|e|e]; simpl; try lia.
  destruct (attempt =? S3GraphStorage.max_retries self - 1)%nat; simpl; [lia|].
  destruct (retry_loop self s3 s3_key json_data rest) as [result events].
  simpl in *. lia.
Qed.

End RetryFacts.

(** C7, as stated, fails: only a [ClientError] or [BotoCoreError] counts
    as a failed attempt.  When the third call raises another exception
    after two such failures, all three attempts have failed and the
    exception raised is not [S3StorageError]. *)
Lemma retry_other_exception_propagates :
  ~ (forall (s3 : nat -> PutOutcome),
       s3 0%nat <> PutOk -> s3 1%nat <> PutOk -> s3 2%nat <> PutOk ->
       exists cause,
         fst (_store_json_with_retry (S3GraphStorage_init "customer-graphs-dev") s3
                "customer-graphs/acme/extractions/x1/nodes.json" "[]")
         = Raised (S3StorageError "customer-graphs/acme/extractions/x1/nodes.json" 3 cause)).
Proof.
  intros H.
  destruct (H (fun attempt => match attempt with
                              | 2%nat => PutOtherError "connection reset"
                              | _ => PutBotoError "SlowDown"
                              end)) as [cause Hc]; [discriminate ..|].
  vm_compute in Hc. discriminate Hc.
Qed.

(** C7, amended. With [max_retries = 3], [_store_json_with_retry] calls
    [put_object] at most three times; it returns right after the first
    call that succeeds; after the [k]-th call that raises a [ClientError]
    or [BotoCoreError] ([k] = 1, 2) it sleeps [base_delay * 2^(k-1)]
    seconds and tries again; when all three calls raise such an error it
    raises [S3StorageError]; any other exception leaves at once, without
    a retry. *)
Theorem store_json_with_retry_spec (self : S3GraphStorage.t) (s3 : nat -> PutOutcome)
    (s3_key json_data : string) :
  S3GraphStorage.max_retries self = 3%nat ->
  let put := PutObject (S3GraphStorage.bucket_name self) s3_key json_data in
  let run := _store_json_with_retry self s3 s3_key json_data in
  (put_count (snd run) <= 3)%nat
  /\ (s3 0%nat = PutOk -> run = (Returned, [put]))
  /\ (forall e0, s3 0%nat = PutBotoError e0 -> s3 1%nat = PutOk ->
        run = (Returned, [put; Sleep (RetryFacts.backoff self 1); put]))
  /\ (forall e0 e1, s3 0%nat = PutBotoError e0 -> s3 1%nat = PutBotoError e1 ->
        s3 2%nat = PutOk ->
        run = (Returned, [put; Sleep (RetryFacts.backoff self 1); put;
                          Sleep (RetryFacts.backoff self 2); put]))
  /\ (forall e0 e1 e2, s3 0%nat = PutBotoError e0 -> s3 1%nat = PutBotoError e1 ->
        s3 2%nat = PutBotoError e2 ->
        run = (Raised (S3StorageError s3_key 3 e2),
               [put; Sleep (RetryFacts.backoff self 1); put;
                Sleep (RetryFacts.backoff self 2); put]))
  /\ (forall e0, s3 0%nat = PutOtherError e0 -> run = (Raised (OtherError e0), [put]))
  /\ (forall e0 e1, s3 0%nat = PutBotoError e0 -> s3 1%nat = PutOtherError e1 ->
        run = (Raised (OtherError e1), [put; Sleep (RetryFacts.backoff self 1); put]))
  /\ (forall e0 e1 e2, s3 0%nat = PutBotoError e0 -> s3 1%nat = PutBotoError e1 ->
        s3 2%nat = PutOtherError e2 ->
        run = (Raised (OtherError e2),
               [put; Sleep (RetryFacts.backoff self 1); put;
                Sleep (RetryFacts.backoff self 2); put])).
Proof.
  destruct self as [bucket retries delay]. simpl. intros ->.
  split.
  { unfold _store_json_with_retry.
    pose proof (RetryFacts.put_count_retry_loop (S3GraphStorage.mk bucket 3 delay)
                  s3 s3_key json_data (seq 0 3)) as Hc.
    exact Hc. }
  unfold _store_json_with_retry, RetryFacts.backoff. simpl.
  repeat split.
  - intros ->. reflexivity.
  - intros e0 -> ->. reflexivity.
  - intros e0 e1 -> -> ->. reflexivity.
  - intros e0 e1 e2 -> -> ->. reflexivity.
  - intros e0 ->. reflexivity.
  - intros e0 e1 -> ->. reflexivity.
  - intros e0 e1 e2 -> -> ->. reflexivity.
Qed.

(** The amended C7 on the storage as [__init__] builds it, when S3 is
    throttled twice and then accepts the object: three calls, with waits
    of one and two seconds between them. *)
Lemma store_json_with_retry_witness :
  _store_json_with_retry (S3GraphStorage_init "customer-graphs-dev")
    (fun attempt => match attempt with
                    | 2%nat => PutOk
                    | _ => PutBotoError "SlowDown"
                    end)
    "customer-graphs/acme/extractions/x1/nodes.json" "[]"
  = (Returned,
     [PutObject "customer-graphs-dev" "customer-graphs/acme/extractions/x1/nodes.json" "[]";
      Sleep 1;
      PutObject "customer-graphs-dev" "customer-graphs/acme/extractions/x1/nodes.json" "[]";
      Sleep 2;
      PutObject "customer-graphs-dev" "customer-graphs/acme/extractions/x1/nodes.json" "[]"]).
Proof.
  destruct (store_json_with_retry_spec (S3GraphStorage_init "customer-graphs-dev")
              (fun attempt => match attempt with
                              | 2%nat => PutOk
                              | _ => PutBotoError "SlowDown"
                              end)
              "customer-graphs/acme/extractions/x1/nodes.json" "[]" eq_refl)
    as (_ & _ & _ & H3 & _).
  exact (H3 "SlowDown" "SlowDown" eq_refl eq_refl eq_refl).
Defined.

(** ** Extracted nodes and edges *)

Module ClampFacts.

(** A float in the unit interval. *)
Definition in_unit (x : pyfloat) : Prop :=
  exists q, x = Finite q /\ 0 <= q /\ q <= 1.

Lemma clamp_in_unit (x : pyfloat) : in_unit (clamp x).
Proof.
  unfold in_unit, clamp, fmax, fmin.
  destruct x as [q| | |]; simpl.
  - destruct (Qle_bool 1 q) eqn:E1; simpl.
    + exists 1. split; [reflexivity | lra].
    + assert (E1' : ~ 1 <= q) by (intros H; apply Qle_bool_iff in H; congruence).
      destruct (Qle_bool q 0) eqn:E0; simpl.
      * exists 0. split; [reflexivity | lra].
      * assert (E0' : ~ q <= 0) by (intros H; apply Qle_bool_iff in H; congruence).
        exists q. split; [reflexivity | lra].
  - exists 1. split; [reflexivity | lra].
  - exists 0. split; [reflexivity | lra].
  - exists 1. split; [reflexivity | lra].
Qed.

(** On a number the clamp is the nearest point of the unit interval. *)
Lemma clamp_finite (q : Q) :
  exists q', clamp (Finite q) = Finite q' /\ q' == Qmax 0 (Qmin 1 q).
Proof.
  unfold clamp, fmax, fmin. simpl.
  destruct (Qle_bool 1 q) eqn:E1; simpl.
  - apply Qle_bool_iff in E1. exists 1. split; [reflexivity|].
    rewrite (Q.min_l 1 q) by assumption. rewrite Q.max_r; [reflexivity | lra].
  - assert (E1' : ~ 1 <= q) by (intros H; apply Qle_bool_iff in H; congruence).
    destruct (Qle_bool q 0) eqn:E0; simpl.
    + apply Qle_bool_iff in E0. exists 0. split; [reflexivity|].
      rewrite (Q.min_r 1 q) by lra. rewrite Q.max_l; [reflexivity | assumption].
    + assert (E0' : ~ q <= 0) by (intros H; apply Qle_bool_iff in H; congruence).
      exists q. split; [reflexivity|].
      rewrite (Q.min_r 1 q) by lra. rewrite Q.max_r; [reflexivity | lra].
Qed.

Lemma truthy_not_empty (v : PyVal.t) :
  truthy v = true -> v <> PStr "" /\ v <> PNone.
Proof. intros H; split; intros ->; discriminate. Qed.

End ClampFacts.

Section ParserFacts.

Variable sha256_hexdigest : string -> string.
Variable str_of_value : PyVal.t -> string.
Variable float_of_string : string -> option pyfloat.
Variable update_from_iterable : Dict -> PyVal.t -> option Dict.

Let try_node := try_extract_node sha256_hexdigest str_of_value float_of_string
                  update_from_iterable.
Let try_edge := try_extract_edge sha256_hexdigest str_of_value float_of_string.
Let nodes_from := extract_nodes_from sha256_hexdigest str_of_value float_of_string
                    update_from_iterable.
Let edges_from := extract_edges_from sha256_hexdigest str_of_value float_of_string.

(** The type a record asks for: its lowercased type entry, or the default. *)
Definition requested_type (record : Dict) (field dflt : string) : option string :=
  lower_of (PyDict.get_default record field (PStr dflt)).

Definition normalised (supported : gset string) (dflt requested : string) : string :=
  if bool_decide (requested ∈ supported) then requested else dflt.

Lemma normalised_supported (supported : gset string) (dflt requested : string) :
  dflt ∈ supported -> normalised supported dflt requested ∈ supported.
Proof.
  intros Hd. unfold normalised. case_bool_decide; assumption.
Qed.

Lemma concept_supported : "concept" ∈ supported_node_types.
Proof.
  unfold supported_node_types. rewrite elem_of_list_to_set, list_elem_of_In.
  simpl. tauto.
Qed.

Lemma relates_to_supported : "relates_to" ∈ supported_edge_types.
Proof.
  unfold supported_edge_types. rewrite elem_of_list_to_set, list_elem_of_In.
  simpl. tauto.
Qed.

Lemma try_extract_node_inv clock customer_id source_file current_time tick hypernode node :
  try_node clock customer_id source_file current_time tick hypernode = Some node ->
  exists requested,
    requested_type hypernode "node_type" "concept" = Some requested
    /\ ExtractedNode.node_type node = normalised supported_node_types "concept" requested
    /\ (exists raw,
          to_float float_of_string
            (PyDict.get_default hypernode "confidence" (PFloat (Finite (1 # 2)))) = Some raw
          /\ ExtractedNode.confidence node = clamp raw)
    /\ ExtractedNode.id node
       = _generate_node_id sha256_hexdigest str_of_value hypernode customer_id.
Proof.
  unfold try_node, try_extract_node, requested_type.
  destruct (lower_of (PyDict.get_default hypernode "node_type" (PStr "concept")))
    as [requested|]; [|discriminate]; simpl.
  destruct (to_float float_of_string
              (PyDict.get_default hypernode "confidence" (PFloat (Finite (1 # 2)))))
    as [confidence|]; [|discriminate]; simpl.
  destruct (_build_node_attributes float_of_string update_from_iterable hypernode)
    as [attributes|]; [|discriminate]; simpl.
  destruct (strip_of (PyDict.get_default hypernode "content" (PStr "")))
    as [stripped|]; [|discriminate]; simpl.
  intros [= <-]. exists requested. simpl.
  repeat split; try reflexivity. now exists confidence.
Qed.

Lemma try_extract_edge_inv clock customer_id source_file current_time tick hyperedge edge :
  try_edge clock customer_id source_file current_time tick hyperedge = EdgeExtracted edge ->
  exists requested,
    requested_type hyperedge "edge_type" "relates_to" = Some requested
    /\ ExtractedEdge.relationship_type edge
       = normalised supported_edge_types "relates_to" requested
    /\ (exists raw,
          to_float float_of_string
            (PyDict.get_default hyperedge "confidence" (PFloat (Finite (1 # 2)))) = Some raw
          /\ ExtractedEdge.weight edge = clamp raw)
    /\ ExtractedEdge.source_node_id edge
       = PyDict.get_default hyperedge "source_node_id" (PStr "")
    /\ ExtractedEdge.target_node_id edge
       = PyDict.get_default hyperedge "target_node_id" (PStr "")
    /\ truthy (ExtractedEdge.source_node_id edge) = true
    /\ truthy (ExtractedEdge.target_node_id edge) = true
    /\ ExtractedEdge.id edge
       = _generate_edge_id sha256_hexdigest str_of_value hyperedge customer_id.
Proof.
  unfold try_edge, try_extract_edge, requested_type.
  destruct (truthy (PyDict.get_default hyperedge "source_node_id" (PStr ""))) eqn:Hs;
    [|discriminate].
  destruct (truthy (PyDict.get_default hyperedge "target_node_id" (PStr ""))) eqn:Ht;
    [|discriminate].
  simpl.
  destruct (lower_of (PyDict.get_default hyperedge "edge_type" (PStr "relates_to")))
    as [requested|]; [|discriminate]; simpl.
  destruct (to_float float_of_string
              (PyDict.get_default hyperedge "confidence" (PFloat (Finite (1 # 2)))))
    as [weight|]; [|discriminate]; simpl.
  destruct (_build_edge_attributes hyperedge) as [attributes|]; [|discriminate]; simpl.
  intros [= <-]. exists requested. simpl.
  repeat split; try reflexivity; try assumption. now exists weight.
Qed.

Lemma try_extract_edge_dropped clock customer_id source_file current_time tick hyperedge :
  truthy (PyDict.get_default hyperedge "source_node_id" (PStr "")) = false
  \/ truthy (PyDict.get_default hyperedge "target_node_id" (PStr "")) = false ->
  try_edge clock customer_id source_file current_time tick hyperedge = EdgeDropped
  /\ edge_reads_clock float_of_string hyperedge = false.
Proof.
  unfold try_edge, try_extract_edge, edge_reads_clock.
  intros [-> | ->]; simpl.
  - split; reflexivity.
  - rewrite orb_true_r, andb_false_r. split; reflexivity.
Qed.

Lemma extract_nodes_from_inv clock customer_id source_file current_time hypernodes :
  forall tick node,
    In node (nodes_from clock customer_id source_file current_time tick hypernodes) ->
    exists tick' hypernode,
      In hypernode hypernodes
      /\ try_node clock customer_id source_file current_time tick' hypernode = Some node.
Proof.
  unfold nodes_from, try_node.
  induction hypernodes as [|hypernode rest IH]; intros tick node; simpl; [tauto|].
  destruct (try_extract_node sha256_hexdigest str_of_value float_of_string
              update_from_iterable clock customer_id source_file current_time tick
              hypernode) as [node0|] eqn:Htry.
  - intros [<-|Hin].
    + exists tick, hypernode. split; [now left | exact Htry].
    + destruct (IH _ _ Hin) as (tick' & h & Hh & Hn).
      exists tick', h. split; [now right | exact Hn].
  - intros Hin. destruct (IH _ _ Hin) as (tick' & h & Hh & Hn).
    exists tick', h. split; [now right | exact Hn].
Qed.

Lemma extract_edges_from_inv clock customer_id source_file current_time hyperedges :
  forall tick edge,
    In edge (edges_from clock customer_id source_file current_time tick hyperedges) ->
    exists tick' hyperedge,
      In hyperedge hyperedges
      /\ try_edge clock customer_id source_file current_time tick' hyperedge
         = EdgeExtracted edge.
Proof.
  unfold edges_from, try_edge.
  induction hyperedges as [|hyperedge rest IH]; intros tick edge; simpl; [tauto|].
  destruct (try_extract_edge sha256_hexdigest str_of_value float_of_string
              clock customer_id source_file current_time tick hyperedge)
    as [edge0| |] eqn:Htry.
  - intros [<-|Hin].
    + exists tick, hyperedge. split; [now left | exact Htry].
    + destruct (IH _ _ Hin) as (tick' & h & Hh & Hn).
      exists tick', h. split; [now right | exact Hn].
  - intros Hin. destruct (IH _ _ Hin) as (tick' & h & Hh & Hn).
    exists tick', h. split; [now right | exact Hn].
  - intros Hin. destruct (IH _ _ Hin) as (tick' & h & Hh & Hn).
    exists tick', h. split; [now right | exact Hn].
Qed.

(** The clock readings made by the loop of [_extract_edges] over a
    prefix of the hyperedges. *)
Definition edge_ticks (tick : nat) (hyperedges : list Dict) : nat :=
  fold_left (fun t hyperedge =>
               if edge_reads_clock float_of_string hyperedge then S t else t)
            hyperedges tick.

Lemma extract_edges_from_app clock customer_id source_file current_time before after :
  forall tick,
    edges_from clock customer_id source_file current_time tick (before ++ after)
    = edges_from clock customer_id source_file current_time tick before
      ++ edges_from clock customer_id source_file current_time
           (edge_ticks tick before) after.
Proof.
  unfold edges_from.
  induction before as [|hyperedge before IH]; intros tick; simpl; [reflexivity|].
  rewrite IH.
  now destruct (try_extract_edge sha256_hexdigest str_of_value float_of_string
                  clock customer_id source_file current_time tick hyperedge).
Qed.

Lemma extract_edges_from_dropped clock customer_id source_file current_time tick
    before hyperedge after :
  truthy (PyDict.get_default hyperedge "source_node_id" (PStr "")) = false
  \/ truthy (PyDict.get_default hyperedge "target_node_id" (PStr "")) = false ->
  edges_from clock customer_id source_file current_time tick (before ++ hyperedge :: after)
  = edges_from clock customer_id source_file current_time tick (before ++ after).
Proof.
  intros Hmissing. rewrite !extract_edges_from_app. f_equal.
  destruct (try_extract_edge_dropped clock customer_id source_file current_time
              (edge_ticks tick before) hyperedge Hmissing) as [Hdrop Hclock].
  unfold edges_from, try_edge in *. simpl. now rewrite Hdrop, Hclock.
Qed.

(** C8. Every node [_extract_nodes] returns has one of the 10 supported
    node types, the requested type when that is supported and ['concept']
    otherwise, and as confidence the clamp of the record's confidence,
    which lies in [0, 1]; every edge [_extract_edges] returns has one of
    the 13 supported edge types, the requested type when supported and
    ['relates_to'] otherwise, as weight the clamp of the record's
    confidence, and source and target ids that are neither missing nor
    empty; a hyperedge whose source or target id is missing or empty adds
    no edge.  The clamp of a number is the nearest point of [0, 1]. *)
Theorem extract_nodes_edges_spec (clock : nat -> string)
    (customer_id source_file : string) (hypernodes hyperedges : list Dict) :
  size supported_node_types = 10%nat
  /\ size supported_edge_types = 13%nat
  /\ (forall q, exists q', clamp (Finite q) = Finite q' /\ q' == Qmax 0 (Qmin 1 q))
  /\ (forall node,
        In node (_extract_nodes sha256_hexdigest str_of_value float_of_string
                   update_from_iterable clock hypernodes customer_id source_file) ->
        ExtractedNode.node_type node ∈ supported_node_types
        /\ ClampFacts.in_unit (ExtractedNode.confidence node)
        /\ exists hypernode requested raw,
             In hypernode hypernodes
             /\ requested_type hypernode "node_type" "concept" = Some requested
             /\ ExtractedNode.node_type node
                = (if bool_decide (requested ∈ supported_node_types)
                   then requested else "concept")
             /\ to_float float_of_string
                  (PyDict.get_default hypernode "confidence" (PFloat (Finite (1 # 2))))
                = Some raw
             /\ ExtractedNode.confidence node = clamp raw)
  /\ (forall edge,
        In edge (_extract_edges sha256_hexdigest str_of_value float_of_string
                   clock hyperedges customer_id source_file) ->
        ExtractedEdge.relationship_type edge ∈ supported_edge_types
        /\ ClampFacts.in_unit (ExtractedEdge.weight edge)
        /\ truthy (ExtractedEdge.source_node_id edge) = true
        /\ truthy (ExtractedEdge.target_node_id edge) = true
        /\ ExtractedEdge.source_node_id edge <> PStr ""
        /\ ExtractedEdge.source_node_id edge <> PNone
        /\ ExtractedEdge.target_node_id edge <> PStr ""
        /\ ExtractedEdge.target_node_id edge <> PNone
        /\ exists hyperedge requested raw,
             In hyperedge hyperedges
             /\ requested_type hyperedge "edge_type" "relates_to" = Some requested
             /\ ExtractedEdge.relationship_type edge
                = (if bool_decide (requested ∈ supported_edge_types)
                   then requested else "relates_to")
             /\ to_float float_of_string
                  (PyDict.get_default hyperedge "confidence" (PFloat (Finite (1 # 2))))
                = Some raw
             /\ ExtractedEdge.weight edge = clamp raw
             /\ ExtractedEdge.source_node_id edge
                = PyDict.get_default hyperedge "source_node_id" (PStr "")
             /\ ExtractedEdge.target_node_id edge
                = PyDict.get_default hyperedge "target_node_id" (PStr ""))
  /\ (forall before hyperedge after,
        hyperedges = before ++ hyperedge :: after ->
        truthy (PyDict.get_default hyperedge "source_node_id" (PStr "")) = false
        \/ truthy (PyDict.get_default hyperedge "target_node_id" (PStr "")) = false ->
        _extract_edges sha256_hexdigest str_of_value float_of_string
          clock hyperedges customer_id source_file
        = _extract_edges sha256_hexdigest str_of_value float_of_string
            clock (before ++ after) customer_id source_file).
Proof.
  split; [vm_compute; reflexivity|].
  split; [vm_compute; reflexivity|].
  split; [exact ClampFacts.clamp_finite|].
  split; [|split].
  - intros node Hin. unfold _extract_nodes in Hin.
    apply extract_nodes_from_inv in Hin. destruct Hin as (tick & h & Hh & Htry).
    apply try_extract_node_inv in Htry.
    destruct Htry as (requested & Hreq & Hty & (raw & Hraw & Hconf) & _).
    split; [rewrite Hty; apply normalised_supported, concept_supported|].
    split; [rewrite Hconf; apply ClampFacts.clamp_in_unit|].
    exists h, requested, raw. repeat split; assumption.
  - intros edge Hin. unfold _extract_edges in Hin.
    apply extract_edges_from_inv in Hin. destruct Hin as (tick & h & Hh & Htry).
    apply try_extract_edge_inv in Htry.
    destruct Htry as (requested & Hreq & Hty & (raw & Hraw & Hw) & Hsrc & Htgt & Hs & Ht & _).
    destruct (ClampFacts.truthy_not_empty _ Hs) as [Hs1 Hs2].
    destruct (ClampFacts.truthy_not_empty _ Ht) as [Ht1 Ht2].
    split; [rewrite Hty; apply normalised_supported, relates_to_supported|].
    split; [rewrite Hw; apply ClampFacts.clamp_in_unit|].
    repeat (split; [assumption|]).
    exists h, requested, raw. repeat split; assumption.
  - intros before hyperedge after -> Hmissing. unfold _extract_edges.
    apply extract_edges_from_dropped. exact Hmissing.
Qed.

End ParserFacts.

(** C8 at three hypernodes and three hyperedges: a type in capitals is
    lowercased, an unknown type replaced, a confidence of 1.7 or NaN
    clamped to 1, a record with a type that is no string skipped, and the
    hyperedge without a source id dropped. *)
Lemma extract_nodes_edges_witness :
  map (fun node => (ExtractedNode.node_type node, ExtractedNode.confidence node))
      (_extract_nodes sample_hexdigest sample_str_of_value sample_float_of_string
         sample_update_from_iterable sample_clock sample_hypernodes "acme" "interview.txt")
  = [("person", Finite 1); ("concept", Finite 1)]
  /\ map (fun edge => (ExtractedEdge.relationship_type edge, ExtractedEdge.weight edge,
                       ExtractedEdge.source_node_id edge))
         (_extract_edges sample_hexdigest sample_str_of_value sample_float_of_string
            sample_clock sample_hyperedges "acme" "interview.txt")
     = [("uses", Finite 1, PStr "person_0"); ("relates_to", Finite (1 # 2), PStr "person_0")]
  /\ Forall (fun node => ExtractedNode.node_type node ∈ supported_node_types)
       (_extract_nodes sample_hexdigest sample_str_of_value sample_float_of_string
          sample_update_from_iterable sample_clock sample_hypernodes "acme" "interview.txt").
Proof.
  split; [vm_compute; reflexivity|].
  split; [vm_compute; reflexivity|].
  apply List.Forall_forall. intros node Hin.
  destruct (extract_nodes_edges_spec sample_hexdigest sample_str_of_value
              sample_float_of_string sample_update_from_iterable sample_clock
              "acme" "interview.txt" sample_hypernodes sample_hyperedges)
    as (_ & _ & _ & Hnodes & _).
  apply (Hnodes node Hin).
Defined.

(** ** Identifiers *)

Section IdFacts.

Variable md5_hexdigest : string -> string.
Variable sha256_hexdigest : string -> string.
Variable str_of_value : PyVal.t -> string.
Variable float_of_string : string -> option pyfloat.
Variable update_from_iterable : Dict -> PyVal.t -> option Dict.

Let node_id_of := GraphExtraction._generate_node_id sha256_hexdigest str_of_value.
Let edge_id_of := GraphExtraction._generate_edge_id sha256_hexdigest str_of_value.
Let extract_nodes := _extract_nodes sha256_hexdigest str_of_value float_of_string
                       update_from_iterable.
Let extract_edges := _extract_edges sha256_hexdigest str_of_value float_of_string.

(** The id of the node one hypernode yields, if it yields one; neither
    the clock nor the source file takes part. *)
Lemma try_extract_node_id clock customer_id source_file current_time tick hypernode :
  ExtractedNode.id <$>
    try_extract_node sha256_hexdigest str_of_value float_of_string update_from_iterable
      clock customer_id source_file current_time tick hypernode
  = (if node_reads_clock float_of_string update_from_iterable hypernode
     then match strip_of (PyDict.get_default hypernode "content" (PStr "")) with
          | Some _ => Some (node_id_of hypernode customer_id)
          | None => None
          end
     else None).
Proof.
  unfold try_extract_node, node_reads_clock, node_id_of.
  destruct (lower_of (PyDict.get_default hypernode "node_type" (PStr "concept")));
    [|reflexivity]; simpl.
  destruct (to_float float_of_string
              (PyDict.get_default hypernode "confidence" (PFloat (Finite (1 # 2)))));
    [|reflexivity]; simpl.
  destruct (_build_node_attributes float_of_string update_from_iterable hypernode);
    [|reflexivity]; simpl.
  now destruct (strip_of (PyDict.get_default hypernode "content" (PStr ""))).
Qed.

Lemma extract_nodes_from_ids clock clock' customer_id source_file source_file'
    current_time current_time' hypernodes :
  forall tick tick',
    map ExtractedNode.id
      (extract_nodes_from sha256_hexdigest str_of_value float_of_string
         update_from_iterable clock customer_id source_file current_time tick hypernodes)
    = map ExtractedNode.id
        (extract_nodes_from sha256_hexdigest str_of_value float_of_string
           update_from_iterable clock' customer_id source_file' current_time' tick'
           hypernodes).
Proof.
  induction hypernodes as [|hypernode rest IH]; intros tick tick'; simpl; [reflexivity|].
  pose proof (try_extract_node_id clock customer_id source_file current_time tick
                hypernode) as H1.
  pose proof (try_extract_node_id clock' customer_id source_file' current_time' tick'
                hypernode) as H2.
  rewrite <- H2 in H1. clear H2.
  destruct (try_extract_node sha256_hexdigest str_of_value float_of_string
              update_from_iterable clock customer_id source_file current_time tick
              hypernode) as [n1|];
    destruct (try_extract_node sha256_hexdigest str_of_value float_of_string
                update_from_iterable clock' customer_id source_file' current_time' tick'
                hypernode) as [n2|];
    simpl in H1; try discriminate.
  - injection H1 as H1. simpl. rewrite H1. f_equal. apply IH.
  - apply IH.
Qed.

Definition edge_outcome_id (outcome : EdgeOutcome) : option string :=
  match outcome with
  | EdgeExtracted edge => Some (ExtractedEdge.id edge)
  | _ => None
  end.

Lemma try_extract_edge_id clock customer_id source_file current_time tick hyperedge :
  edge_outcome_id
    (try_extract_edge sha256_hexdigest str_of_value float_of_string
       clock customer_id source_file current_time tick hyperedge)
  = (if edge_reads_clock float_of_string hyperedge
     then Some (edge_id_of hyperedge customer_id)
     else None).
Proof.
  unfold try_extract_edge, edge_reads_clock, edge_id_of.
  destruct (truthy (PyDict.get_default hyperedge "source_node_id" (PStr "")));
    [|reflexivity].
  destruct (truthy (PyDict.get_default hyperedge "target_node_id" (PStr "")));
    [|reflexivity].
  simpl.
  destruct (lower_of (PyDict.get_default hyperedge "edge_type" (PStr "relates_to")));
    [|reflexivity]; simpl.
  destruct (to_float float_of_string
              (PyDict.get_default hyperedge "confidence" (PFloat (Finite (1 # 2)))));
    [|reflexivity]; simpl.
  now destruct (_build_edge_attributes hyperedge).
Qed.

Lemma extract_edges_from_ids clock clock' customer_id source_file source_file'
    current_time current_time' hyperedges :
  forall tick tick',
    map ExtractedEdge.id
      (extract_edges_from sha256_hexdigest str_of_value float_of_string
         clock customer_id source_file current_time tick hyperedges)
    = map ExtractedEdge.id
        (extract_edges_from sha256_hexdigest str_of_value float_of_string
           clock' customer_id source_file' current_time' tick' hyperedges).
Proof.
  induction hyperedges as [|hyperedge rest IH]; intros tick tick'; simpl; [reflexivity|].
  pose proof (try_extract_edge_id clock customer_id source_file current_time tick
                hyperedge) as H1.
  pose proof (try_extract_edge_id clock' customer_id source_file' current_time' tick'
                hyperedge) as H2.
  rewrite <- H2 in H1. clear H2.
  destruct (try_extract_edge sha256_hexdigest str_of_value float_of_string
              clock customer_id source_file current_time tick hyperedge) as [e1| |];
    destruct (try_extract_edge sha256_hexdigest str_of_value float_of_string
                clock' customer_id source_file' current_time' tick' hyperedge) as [e2| |];
    simpl in H1; try discriminate; try apply IH.
  injection H1 as H1. simpl. rewrite H1. f_equal. apply IH.
Qed.

Lemma hyperedge_ids_timestamp timestamp timestamp' lookup relationships :
  map EnhancedHyperEdge.id (flat_map (relationship_edges lookup timestamp) relationships)
  = map EnhancedHyperEdge.id (flat_map (relationship_edges lookup timestamp') relationships).
Proof.
  induction relationships as [|rel rest IH]; simpl; [reflexivity|].
  rewrite !map_app, IH. f_equal.
  unfold relationship_edges.
  destruct (truthy_id (lookup !! PyStr.lower (CleanRelationship.source_entity rel))
            && truthy_id (lookup !! PyStr.lower (CleanRelationship.target_entity rel)));
    [|reflexivity].
  destruct (lookup !! PyStr.lower (CleanRelationship.source_entity rel)); [|reflexivity].
  destruct (lookup !! PyStr.lower (CleanRelationship.target_entity rel)); reflexivity.
Qed.

(** C1. Ids are functions of the semantic content alone.  The V2
    builder's [_generate_node_id] is the node type value, an underscore
    and the first 8 characters of the MD5 hex digest of the lowercased
    content; the extraction agent's [_generate_node_id] depends on the
    customer id and the record's content and node type only, its
    [_generate_edge_id] on the customer id and the record's endpoint ids
    and edge type only; two runs over the same input, at different times
    and under different source names, yield the same ids in the same
    order. *)
Theorem ids_are_deterministic :
  (forall content node_type,
     BuilderV2._generate_node_id md5_hexdigest content node_type
     = NodeTypeValue.value node_type +:+ "_"
       +:+ substring 0 8 (md5_hexdigest (PyStr.lower content)))
  /\ (forall content content' node_type,
        PyStr.lower content = PyStr.lower content' ->
        BuilderV2._generate_node_id md5_hexdigest content node_type
        = BuilderV2._generate_node_id md5_hexdigest content' node_type)
  /\ (forall (hypernode hypernode' : Dict) customer_id,
        PyDict.get hypernode "content" = PyDict.get hypernode' "content" ->
        PyDict.get hypernode "node_type" = PyDict.get hypernode' "node_type" ->
        node_id_of hypernode customer_id = node_id_of hypernode' customer_id)
  /\ (forall (hyperedge hyperedge' : Dict) customer_id,
        PyDict.get hyperedge "source_node_id" = PyDict.get hyperedge' "source_node_id" ->
        PyDict.get hyperedge "target_node_id" = PyDict.get hyperedge' "target_node_id" ->
        PyDict.get hyperedge "edge_type" = PyDict.get hyperedge' "edge_type" ->
        edge_id_of hyperedge customer_id = edge_id_of hyperedge' customer_id)
  /\ (forall clock clock' source_file source_file' hypernodes customer_id,
        map ExtractedNode.id (extract_nodes clock hypernodes customer_id source_file)
        = map ExtractedNode.id (extract_nodes clock' hypernodes customer_id source_file'))
  /\ (forall clock clock' source_file source_file' hyperedges customer_id,
        map ExtractedEdge.id (extract_edges clock hyperedges customer_id source_file)
        = map ExtractedEdge.id (extract_edges clock' hyperedges customer_id source_file'))
  /\ (forall timestamp timestamp' source source' entities,
        map EnhancedHyperNode.id
          (_create_enhanced_hypernodes md5_hexdigest timestamp source entities)
        = map EnhancedHyperNode.id
            (_create_enhanced_hypernodes md5_hexdigest timestamp' source' entities))
  /\ (forall timestamp timestamp' relationships hypernodes,
        map EnhancedHyperEdge.id
          (_create_enhanced_hyperedges timestamp relationships hypernodes)
        = map EnhancedHyperEdge.id
            (_create_enhanced_hyperedges timestamp' relationships hypernodes)).
Proof.
  repeat split.
  - intros content content' node_type Hlow.
    unfold BuilderV2._generate_node_id. now rewrite Hlow.
  - intros hypernode hypernode' customer_id Hc Ht.
    unfold node_id_of, GraphExtraction._generate_node_id, PyDict.get_default.
    now rewrite Hc, Ht.
  - intros hyperedge hyperedge' customer_id Hs Ht He.
    unfold edge_id_of, GraphExtraction._generate_edge_id, PyDict.get_default.
    now rewrite Hs, Ht, He.
  - intros clock clock' source_file source_file' hypernodes customer_id.
    exact (extract_nodes_from_ids clock clock' customer_id source_file source_file'
             (clock 0%nat) (clock' 0%nat) hypernodes 1%nat 1%nat).
  - intros clock clock' source_file source_file' hyperedges customer_id.
    exact (extract_edges_from_ids clock clock' customer_id source_file source_file'
             (clock 0%nat) (clock' 0%nat) hyperedges 1%nat 1%nat).
  - intros. unfold _create_enhanced_hypernodes. rewrite !map_map. reflexivity.
  - intros. apply hyperedge_ids_timestamp.
Qed.

End IdFacts.

(** C1 at two readings of one hypernode that differ in confidence and
    timestamp only, and at two spellings of one name. *)
Lemma ids_are_deterministic_witness :
  GraphExtraction._generate_node_id sample_hexdigest sample_str_of_value
    [("content", PStr "Alice"); ("node_type", PStr "person");
     ("confidence", PFloat (Finite (9 # 10))); ("timestamp", PStr "2024-01-01T10:00:00")]
    "acme"
  = GraphExtraction._generate_node_id sample_hexdigest sample_str_of_value
      [("timestamp", PStr "2024-06-30T08:15:00"); ("content", PStr "Alice");
       ("confidence", PFloat (Finite (4 # 10))); ("node_type", PStr "person")]
      "acme"
  /\ BuilderV2._generate_node_id sample_hexdigest "Alice" PERSON
     = BuilderV2._generate_node_id sample_hexdigest "ALICE" PERSON.
Proof.
  destruct (ids_are_deterministic sample_hexdigest sample_hexdigest sample_str_of_value
              sample_float_of_string sample_update_from_iterable)
    as (_ & Hlower & Hnode & _).
  split.
  - apply Hnode; reflexivity.
  - apply Hlower; reflexivity.
Defined.

(* ================================================================== *)
(** * Further properties *)
(* ================================================================== *)

(** ** From the builder to the extraction agent *)

Module HandoverFacts.
Import Serialize.

Lemma node_value_lower (node_type : NodeType) :
  PyStr.lower (NodeTypeValue.value node_type) = NodeTypeValue.value node_type.
Proof. destruct node_type; reflexivity. Qed.

Lemma edge_value_lower (edge_type : EdgeType) :
  PyStr.lower (EdgeTypeValue.value edge_type) = EdgeTypeValue.value edge_type.
Proof. destruct edge_type; reflexivity. Qed.

Lemma node_value_supported (node_type : NodeType) :
  NodeTypeValue.value node_type ∈ supported_node_types.
Proof.
  unfold supported_node_types. rewrite elem_of_list_to_set, list_elem_of_In.
  destruct node_type; simpl; tauto.
Qed.

Lemma edge_value_supported (edge_type : EdgeType) :
  EdgeTypeValue.value edge_type ∈ supported_edge_types.
Proof.
  unfold supported_edge_types. rewrite elem_of_list_to_set, list_elem_of_In.
  destruct edge_type; simpl; tauto.
Qed.

(** An edge the builder made has both endpoint ids, so it is never
    dropped. *)
Lemma build_edge_attributes_serialized (edge : EnhancedHyperEdge.t) :
  is_Some (_build_edge_attributes (_serialize_edge edge)).
Proof.
  unfold _build_edge_attributes, _serialize_edge. simpl.
  destruct (EnhancedHyperEdge.evidence edge); simpl; eauto.
Qed.

Definition has_endpoints (edge : EnhancedHyperEdge.t) : Prop :=
  EnhancedHyperEdge.source_node_id edge <> "" /\ EnhancedHyperEdge.target_node_id edge <> "".

Lemma truthy_nonempty (s : string) : s <> "" -> truthy (PStr s) = true.
Proof.
  intros Hne. simpl. apply negb_true_iff. now apply String.eqb_neq.
Qed.

Lemma serialized_edge_source edge :
  PyDict.get_default (_serialize_edge edge) "source_node_id" (PStr "")
  = PStr (EnhancedHyperEdge.source_node_id edge).
Proof. reflexivity. Qed.

Lemma serialized_edge_target edge :
  PyDict.get_default (_serialize_edge edge) "target_node_id" (PStr "")
  = PStr (EnhancedHyperEdge.target_node_id edge).
Proof. reflexivity. Qed.

Lemma serialized_edge_type edge :
  PyDict.get_default (_serialize_edge edge) "edge_type" (PStr "relates_to")
  = PStr (EdgeTypeValue.value (EnhancedHyperEdge.edge_type edge)).
Proof. reflexivity. Qed.

Lemma serialized_edge_confidence edge :
  PyDict.get_default (_serialize_edge edge) "confidence" (PFloat (Finite (1 # 2)))
  = number (EnhancedHyperEdge.confidence edge).
Proof. reflexivity. Qed.

(** The edges the builder makes have both endpoint ids. *)
Lemma created_edges_have_endpoints timestamp relationships hypernodes edge :
  In edge (_create_enhanced_hyperedges timestamp relationships hypernodes) ->
  has_endpoints edge.
Proof.
  unfold _create_enhanced_hyperedges. intros Hin.
  apply in_flat_map in Hin. destruct Hin as (rel & _ & Hedge).
  unfold relationship_edges in Hedge.
  destruct (node_lookup hypernodes !! PyStr.lower (CleanRelationship.source_entity rel))
    as [s|]; [|simpl in Hedge; tauto].
  destruct (node_lookup hypernodes !! PyStr.lower (CleanRelationship.target_entity rel))
    as [t|]; [|rewrite andb_false_r in Hedge; simpl in Hedge; tauto].
  simpl in Hedge.
  destruct (String.eqb s "") eqn:Es; [simpl in Hedge; tauto|].
  destruct (String.eqb t "") eqn:Et; [simpl in Hedge; tauto|].
  simpl in Hedge. destruct Hedge as [<-|[]].
  split; simpl; now apply String.eqb_neq.
Qed.

Lemma created_edge_endpoints timestamp relationships hypernodes edge :
  In edge (_create_enhanced_hyperedges timestamp relationships hypernodes) ->
  exists source_node target_node,
    In source_node hypernodes /\ In target_node hypernodes
    /\ EnhancedHyperEdge.source_node_id edge = EnhancedHyperNode.id source_node
    /\ EnhancedHyperEdge.target_node_id edge = EnhancedHyperNode.id target_node.
Proof.
  unfold _create_enhanced_hyperedges. intros Hin.
  apply in_flat_map in Hin. destruct Hin as (rel & _ & Hedge).
  unfold relationship_edges in Hedge.
  destruct (node_lookup hypernodes !! PyStr.lower (CleanRelationship.source_entity rel))
    as [s|] eqn:Hs; [|simpl in Hedge; tauto].
  destruct (node_lookup hypernodes !! PyStr.lower (CleanRelationship.target_entity rel))
    as [t|] eqn:Ht; [|rewrite andb_false_r in Hedge; simpl in Hedge; tauto].
  destruct (truthy_id (Some s) && truthy_id (Some t)); [|simpl in Hedge; tauto].
  destruct Hedge as [<-|[]].
  apply EdgeFacts.node_lookup_Some in Hs, Ht.
  destruct Hs as (n1 & Hn1 & _ & Hi1), Ht as (n2 & Hn2 & _ & Hi2).
  exists n1, n2. simpl. repeat split; auto.
Qed.

(** No builder id reads like an extraction id. *)
Lemma builder_id_not_extraction_id md5_hexdigest content node_type digest :
  BuilderV2._generate_node_id md5_hexdigest content node_type <> "node_" +:+ digest.
Proof.
  unfold BuilderV2._generate_node_id. destruct node_type; simpl; discriminate.
Qed.

Section Handover.

Variable sha256_hexdigest : string -> string.
Variable str_of_value : PyVal.t -> string.
Variable float_of_string : string -> option pyfloat.
Variable update_from_iterable : Dict -> PyVal.t -> option Dict.
Variable clock : nat -> string.

Let try_node := try_extract_node sha256_hexdigest str_of_value float_of_string
                  update_from_iterable clock.
Let try_edge := try_extract_edge sha256_hexdigest str_of_value float_of_string clock.

Definition is_number (v : PyVal.t) : Prop := exists q, v = number q.

Lemma max_item_numbers best best_key items :
  is_number (snd best) ->
  (forall item, In item items -> is_number (snd item)) ->
  exists found,
    max_item float_of_string best best_key items = Some found /\ is_number (snd found).
Proof.
  revert best best_key. induction items as [|item rest IH]; intros best best_key Hb Hall.
  - exists best. now split.
  - simpl. destruct (Hall item (or_introl eq_refl)) as [q Hq].
    rewrite Hq. simpl.
    destruct (flt best_key (Finite q)).
    + apply IH; [now exists q | intros i Hi; apply Hall; now right].
    + apply IH; [assumption | intros i Hi; apply Hall; now right].
Qed.

Lemma build_node_attributes_serialized (node : EnhancedHyperNode.t) :
  is_Some (_build_node_attributes float_of_string update_from_iterable
             (_serialize_node node)).
Proof.
  unfold _build_node_attributes, _serialize_node. simpl.
  destruct (EnhancedHyperNode.needs_classification node) as [|[k q] rest]; simpl.
  - destruct (EnhancedHyperNode.domain_specific_properties node); simpl; eauto.
  - destruct (max_item_numbers (k, number q) (Finite q)
                (map (fun kv : string * Q => (kv.1, number kv.2)) rest))
      as (found & Hfound & [q' Hq']).
    + now exists q.
    + intros item Hin. apply in_map_iff in Hin. destruct Hin as ([k' v'] & <- & _).
      now exists v'.
    + rewrite Hfound. simpl. rewrite Hq'. simpl.
      destruct (EnhancedHyperNode.domain_specific_properties node); simpl; eauto.
Qed.

(** A serialised node is never skipped, and its type and confidence
    arrive as they left, the confidence clamped. *)
Lemma try_extract_node_serialized customer_id source_file current_time tick node :
  exists extracted,
    try_node customer_id source_file current_time tick (_serialize_node node)
    = Some extracted
    /\ ExtractedNode.node_type extracted
       = NodeTypeValue.value (EnhancedHyperNode.node_type node)
    /\ ExtractedNode.confidence extracted
       = clamp (Finite (EnhancedHyperNode.confidence node))
    /\ ExtractedNode.id extracted
       = GraphExtraction._generate_node_id sha256_hexdigest str_of_value
           (_serialize_node node) customer_id.
Proof.
  unfold try_node.
  destruct (build_node_attributes_serialized node) as [attributes Hattr].
  unfold try_extract_node. rewrite Hattr.
  unfold _serialize_node at 2 3 4. simpl.
  rewrite node_value_lower.
  rewrite (bool_decide_eq_true_2 _ (node_value_supported _)).
  eexists. split; [reflexivity|]. simpl. repeat split.
Qed.

Lemma node_reads_clock_serialized node :
  node_reads_clock float_of_string update_from_iterable (_serialize_node node) = true.
Proof.
  unfold node_reads_clock.
  destruct (build_node_attributes_serialized node) as [attributes Hattr].
  rewrite Hattr. reflexivity.
Qed.

Lemma extract_serialized_nodes customer_id source_file current_time nodes :
  forall tick,
    map (fun extracted => (ExtractedNode.node_type extracted,
                           ExtractedNode.confidence extracted))
        (extract_nodes_from sha256_hexdigest str_of_value float_of_string
           update_from_iterable clock customer_id source_file current_time tick
           (map _serialize_node nodes))
    = map (fun node => (NodeTypeValue.value (EnhancedHyperNode.node_type node),
                        clamp (Finite (EnhancedHyperNode.confidence node))))
          nodes.
Proof.
  induction nodes as [|node rest IH]; intros tick; [reflexivity|].
  cbn [map extract_nodes_from].
  destruct (try_extract_node_serialized customer_id source_file current_time tick node)
    as (extracted & Htry & Hty & Hconf & _).
  unfold try_node in Htry. rewrite Htry. cbn [map].
  rewrite Hty, Hconf, IH. reflexivity.
Qed.

Lemma try_extract_edge_serialized customer_id source_file current_time tick edge :
  has_endpoints edge ->
  exists extracted,
    try_edge customer_id source_file current_time tick (_serialize_edge edge)
    = EdgeExtracted extracted
    /\ ExtractedEdge.relationship_type extracted
       = EdgeTypeValue.value (EnhancedHyperEdge.edge_type edge)
    /\ ExtractedEdge.weight extracted
       = clamp (Finite (EnhancedHyperEdge.confidence edge))
    /\ ExtractedEdge.source_node_id extracted
       = PStr (EnhancedHyperEdge.source_node_id edge)
    /\ ExtractedEdge.target_node_id extracted
       = PStr (EnhancedHyperEdge.target_node_id edge).
Proof.
  intros [Hs Ht]. unfold try_edge.
  destruct (build_edge_attributes_serialized edge) as [attributes Hattr].
  unfold try_extract_edge.
  rewrite Hattr, serialized_edge_source, serialized_edge_target, serialized_edge_type,
    serialized_edge_confidence.
  rewrite (truthy_nonempty _ Hs), (truthy_nonempty _ Ht).
  cbn [negb orb lower_of to_float number mbind option_bind].
  rewrite edge_value_lower.
  rewrite (bool_decide_eq_true_2 _ (edge_value_supported _)).
  eexists. split; [reflexivity|]. simpl. repeat split.
Qed.

Lemma edge_reads_clock_serialized edge :
  has_endpoints edge -> edge_reads_clock float_of_string (_serialize_edge edge) = true.
Proof.
  intros [Hs Ht]. unfold edge_reads_clock.
  destruct (build_edge_attributes_serialized edge) as [attributes Hattr].
  rewrite Hattr, serialized_edge_source, serialized_edge_target, serialized_edge_type,
    serialized_edge_confidence.
  now rewrite (truthy_nonempty _ Hs), (truthy_nonempty _ Ht).
Qed.

Lemma extract_serialized_edges customer_id source_file current_time edges :
  (forall edge, In edge edges -> has_endpoints edge) ->
  forall tick,
    map (fun extracted => (ExtractedEdge.relationship_type extracted,
                           ExtractedEdge.weight extracted,
                           ExtractedEdge.source_node_id extracted,
                           ExtractedEdge.target_node_id extracted))
        (extract_edges_from sha256_hexdigest str_of_value float_of_string
           clock customer_id source_file current_time tick
           (map _serialize_edge edges))
    = map (fun edge => (EdgeTypeValue.value (EnhancedHyperEdge.edge_type edge),
                        clamp (Finite (EnhancedHyperEdge.confidence edge)),
                        PStr (EnhancedHyperEdge.source_node_id edge),
                        PStr (EnhancedHyperEdge.target_node_id edge)))
          edges.
Proof.
  induction edges as [|edge rest IH]; intros Hall tick; [reflexivity|].
  cbn [map extract_edges_from].
  destruct (try_extract_edge_serialized customer_id source_file current_time tick edge
              (Hall edge (or_introl eq_refl)))
    as (extracted & Htry & Hty & Hw & Hsrc & Htgt).
  unfold try_edge in Htry. rewrite Htry. cbn [map].
  rewrite Hty, Hw, Hsrc, Htgt, IH; [reflexivity|].
  intros e He. apply Hall. now right.
Qed.

End Handover.

End HandoverFacts.

Import Serialize.

(** X1. Handing the builder's graph to the extraction agent loses
    nothing: every serialised node is extracted, in order, with the
    builder's type and the clamp of its confidence, and so is every edge
    [_create_enhanced_hyperedges] built, with its endpoint ids as the
    builder wrote them. *)
Theorem handover_keeps_nodes_and_edges
    (sha256_hexdigest : string -> string) (str_of_value : PyVal.t -> string)
    (float_of_string : string -> option pyfloat)
    (update_from_iterable : Dict -> PyVal.t -> option Dict) (clock : nat -> string)
    (timestamp customer_id source_file : string)
    (relationships : list CleanRelationship.t) (hypernodes : list EnhancedHyperNode.t) :
  map (fun extracted => (ExtractedNode.node_type extracted,
                         ExtractedNode.confidence extracted))
      (_extract_nodes sha256_hexdigest str_of_value float_of_string update_from_iterable
         clock (map _serialize_node hypernodes) customer_id source_file)
  = map (fun node => (NodeTypeValue.value (EnhancedHyperNode.node_type node),
                      clamp (Finite (EnhancedHyperNode.confidence node))))
        hypernodes
  /\ map (fun extracted => (ExtractedEdge.relationship_type extracted,
                            ExtractedEdge.weight extracted,
                            ExtractedEdge.source_node_id extracted,
                            ExtractedEdge.target_node_id extracted))
         (_extract_edges sha256_hexdigest str_of_value float_of_string clock
            (map _serialize_edge
                 (_create_enhanced_hyperedges timestamp relationships hypernodes))
            customer_id source_file)
     = map (fun edge => (EdgeTypeValue.value (EnhancedHyperEdge.edge_type edge),
                         clamp (Finite (EnhancedHyperEdge.confidence edge)),
                         PStr (EnhancedHyperEdge.source_node_id edge),
                         PStr (EnhancedHyperEdge.target_node_id edge)))
           (_create_enhanced_hyperedges timestamp relationships hypernodes).
Proof.
  split.
  - apply HandoverFacts.extract_serialized_nodes.
  - apply HandoverFacts.extract_serialized_edges.
    intros edge Hin.
    exact (HandoverFacts.created_edges_have_endpoints _ _ _ _ Hin).
Qed.

(** X2. In a graph the builder made and the extraction agent parsed, no
    edge points at a node: the agent gives every node a fresh id that
    starts with ["node_"], while an edge keeps the builder's endpoint ids,
    which start with a node type. *)
Theorem extracted_edges_miss_extracted_nodes
    (md5_hexdigest sha256_hexdigest : string -> string)
    (str_of_value : PyVal.t -> string) (float_of_string : string -> option pyfloat)
    (update_from_iterable : Dict -> PyVal.t -> option Dict) (clock : nat -> string)
    (timestamp source customer_id source_file : string)
    (entities : list CleanEntity.t) (relationships : list CleanRelationship.t)
    (node : ExtractedNode.t) (edge : ExtractedEdge.t) :
  In node (_extract_nodes sha256_hexdigest str_of_value float_of_string
             update_from_iterable clock
             (map _serialize_node
                  (_create_enhanced_hypernodes md5_hexdigest timestamp source entities))
             customer_id source_file) ->
  In edge (_extract_edges sha256_hexdigest str_of_value float_of_string clock
             (map _serialize_edge
                  (_create_enhanced_hyperedges timestamp relationships
                     (_create_enhanced_hypernodes md5_hexdigest timestamp source entities)))
             customer_id source_file) ->
  ExtractedEdge.source_node_id edge <> PStr (ExtractedNode.id node)
  /\ ExtractedEdge.target_node_id edge <> PStr (ExtractedNode.id node).
Proof.
  intros Hnode Hedge.
  unfold _extract_nodes in Hnode. apply extract_nodes_from_inv in Hnode.
  destruct Hnode as (tick & hypernode & _ & Hnode).
  apply try_extract_node_inv in Hnode. destruct Hnode as (_ & _ & _ & _ & Hid).
  unfold _extract_edges in Hedge.
  apply (extract_edges_from_inv sha256_hexdigest str_of_value float_of_string
           update_from_iterable) in Hedge.
  destruct Hedge as (tick' & hyperedge & Hin & Hedge).
  apply try_extract_edge_inv in Hedge.
  destruct Hedge as (_ & _ & _ & _ & Hsrc & Htgt & _).
  apply in_map_iff in Hin. destruct Hin as (built & <- & Hbuilt).
  apply HandoverFacts.created_edge_endpoints in Hbuilt.
  destruct Hbuilt as (n1 & n2 & Hn1 & Hn2 & Hs & Ht).
  unfold _create_enhanced_hypernodes in Hn1, Hn2.
  apply in_map_iff in Hn1, Hn2.
  destruct Hn1 as (e1 & <- & _), Hn2 as (e2 & <- & _). simpl in Hs, Ht.
  rewrite Hsrc, Htgt, HandoverFacts.serialized_edge_source,
    HandoverFacts.serialized_edge_target, Hs, Ht, Hid.
  unfold GraphExtraction._generate_node_id.
  split; intros [= Heq]; revert Heq; apply HandoverFacts.builder_id_not_extraction_id.
Qed.

(** X2 at the sample entities and relationships: the first extracted
    edge runs from ["person_..."] to ["skill_..."], the first extracted
    node is called ["node_..."]. *)
Lemma extracted_edges_miss_extracted_nodes_witness :
  match
    _extract_nodes sample_hexdigest sample_str_of_value sample_float_of_string
      sample_update_from_iterable sample_clock
      (map _serialize_node
           (_create_enhanced_hypernodes sample_hexdigest "2024-01-01T00:00:00"
              "interview.txt" sample_entities))
      "acme" "interview.txt",
    _extract_edges sample_hexdigest sample_str_of_value sample_float_of_string
      sample_clock
      (map _serialize_edge
           (_create_enhanced_hyperedges "2024-01-01T00:00:00" sample_relationships
              (_create_enhanced_hypernodes sample_hexdigest "2024-01-01T00:00:00"
                 "interview.txt" sample_entities)))
      "acme" "interview.txt"
  with
  | node :: _, edge :: _ =>
      ExtractedEdge.source_node_id edge <> PStr (ExtractedNode.id node)
      /\ ExtractedEdge.target_node_id edge <> PStr (ExtractedNode.id node)
  | _, _ => False
  end.
Proof.
  pose proof (extracted_edges_miss_extracted_nodes sample_hexdigest sample_hexdigest
                sample_str_of_value sample_float_of_string sample_update_from_iterable
                sample_clock "2024-01-01T00:00:00" "interview.txt" "acme" "interview.txt"
                sample_entities sample_relationships) as H.
  destruct (_extract_nodes _ _ _ _ _ _ _ _) as [|node nodes] eqn:En;
    [vm_compute in En; discriminate|].
  destruct (_extract_edges _ _ _ _ _ _ _) as [|edge edges] eqn:Ee;
    [vm_compute in Ee; discriminate|].
  apply H; now left.
Defined.

(** ** Counting by key *)

Module CountFacts.
Import BuilderV2.

(** The loop [for k in keys: d[k] = d.get(k, 0) + 1]. *)
Definition tally (ks : list string) (d : PyDict.t string Z) : PyDict.t string Z :=
  fold_left bump ks d.

Definition total (d : PyDict.t string Z) : Z :=
  fold_right Z.add 0%Z (PyDict.values d).

Definition occurrences (k : string) (ks : list string) : Z :=
  Z.of_nat (List.length (List.filter (fun k' => bool_decide (k' = k)) ks)).

Lemma get_bump_eq d k :
  PyDict.get_default (bump d k) k 0%Z = (PyDict.get_default d k 0 + 1)%Z.
Proof.
  unfold bump. unfold PyDict.get_default at 1.
  now rewrite PyDictFacts.get_set_eq.
Qed.

Lemma get_bump_ne d k k' :
  k <> k' -> PyDict.get_default (bump d k) k' 0%Z = PyDict.get_default d k' 0%Z.
Proof.
  intros Hne. unfold bump, PyDict.get_default.
  now rewrite PyDictFacts.get_set_ne.
Qed.

Lemma total_bump d k : total (bump d k) = (total d + 1)%Z.
Proof.
  unfold bump, total, PyDict.get_default.
  induction d as [|[k0 v0] d IH]; simpl.
  - reflexivity.
  - destruct (decide (k0 = k)) as [->|Hne]; simpl.
    + lia.
    + rewrite IH. lia.
Qed.

Lemma occurrences_app k ks ks' :
  occurrences k (ks ++ ks') = (occurrences k ks + occurrences k ks')%Z.
Proof.
  unfold occurrences. rewrite List.filter_app, List.length_app. lia.
Qed.

Lemma occurrences_pos k ks : In k ks -> (1 <= occurrences k ks)%Z.
Proof.
  unfold occurrences. induction ks as [|k0 ks IH]; simpl; [tauto|].
  intros [->|Hin].
  - rewrite bool_decide_eq_true_2 by reflexivity. simpl. lia.
  - destruct (bool_decide (k0 = k)); simpl; [lia | now apply IH].
Qed.

Lemma occurrences_zero k ks : ~ In k ks -> occurrences k ks = 0%Z.
Proof.
  unfold occurrences. induction ks as [|k0 ks IH]; simpl; [reflexivity|].
  intros Hnot. rewrite bool_decide_eq_false_2 by (intros ->; apply Hnot; now left).
  apply IH. tauto.
Qed.

Lemma tally_get ks d k :
  PyDict.get_default (tally ks d) k 0%Z
  = (PyDict.get_default d k 0 + occurrences k ks)%Z.
Proof.
  unfold tally. revert d. induction ks as [|k0 ks IH]; intros d; simpl.
  - unfold occurrences. simpl. lia.
  - rewrite IH. change (k0 :: ks) with ([k0] ++ ks). rewrite occurrences_app.
    unfold occurrences at 2. simpl.
    destruct (decide (k0 = k)) as [->|Hne].
    + rewrite get_bump_eq, bool_decide_eq_true_2 by reflexivity. simpl. lia.
    + rewrite get_bump_ne, bool_decide_eq_false_2 by assumption. simpl. lia.
Qed.

Lemma tally_total ks d :
  total (tally ks d) = (total d + Z.of_nat (List.length ks))%Z.
Proof.
  unfold tally. revert d. induction ks as [|k0 ks IH]; intros d; simpl.
  - lia.
  - rewrite IH, total_bump. lia.
Qed.

Lemma tally_nodup ks d :
  List.NoDup (PyDict.keys d) -> List.NoDup (PyDict.keys (tally ks d)).
Proof.
  unfold tally. revert d. induction ks as [|k0 ks IH]; intros d Hnd; simpl.
  - exact Hnd.
  - apply IH. unfold bump. now apply PyDictFacts.NoDup_keys_set.
Qed.

Lemma keys_bump d k k' :
  In k' (PyDict.keys (bump d k)) <-> In k' (PyDict.keys d) \/ k' = k.
Proof.
  unfold bump. set (v := (PyDict.get_default d k 0 + 1)%Z). clearbody v.
  destruct (in_dec (fun a b => decide (a = b)) k (PyDict.keys d)) as [Hin|Hnot].
  - rewrite PyDictFacts.keys_set_present by assumption.
    split; [now left | intros [H0 | ->]; assumption].
  - rewrite PyDictFacts.set_absent by assumption.
    unfold PyDict.keys. rewrite map_app, in_app_iff. simpl.
    split; (intros [H0|H0]; [now left | right]); [destruct H0 as [<-|[]] | left]; congruence.
Qed.

Lemma tally_keys ks d k :
  In k (PyDict.keys (tally ks d)) <-> In k (PyDict.keys d) \/ In k ks.
Proof.
  unfold tally. revert d. induction ks as [|k0 ks IH]; intros d; simpl.
  - tauto.
  - rewrite IH, keys_bump. intuition congruence.
Qed.

(** The entries of a tally from the empty dictionary: the keys are the
    distinct items, each with the number of its occurrences. *)
Lemma tally_entry ks k v :
  In (k, v) (tally ks PyDict.empty) -> In k ks /\ v = occurrences k ks.
Proof.
  intros Hin.
  assert (Hk : In k ks).
  { apply (PyDictFacts.In_keys _ k v), tally_keys in Hin. simpl in Hin. tauto. }
  split; [exact Hk|].
  pose proof (tally_nodup ks PyDict.empty (List.NoDup_nil _)) as Hnd.
  pose proof (PyDictFacts.In_get _ _ _ Hnd Hin) as Hget.
  pose proof (tally_get ks PyDict.empty k) as Hcount.
  unfold PyDict.get_default in Hcount at 1. rewrite Hget in Hcount.
  simpl in Hcount. exact Hcount.
Qed.

Lemma tally_length ks :
  List.length (tally ks PyDict.empty) = size (list_to_set ks : gset string).
Proof.
  pose proof (tally_nodup ks PyDict.empty (List.NoDup_nil _)) as Hnd.
  rewrite <- (List.length_map fst). fold (PyDict.keys (tally ks PyDict.empty)).
  apply NoDup_ListNoDup in Hnd.
  rewrite <- (size_list_to_set (C := gset string) _ Hnd).
  f_equal. apply set_eq. intros k.
  rewrite !elem_of_list_to_set, !list_elem_of_In, tally_keys. simpl. tauto.
Qed.

Lemma fold_bump_map {A} (f : A -> string) (l : list A) d :
  fold_left (fun acc x => bump acc (f x)) l d = tally (map f l) d.
Proof.
  unfold tally. revert d. induction l as [|x l IH]; intros d; simpl; [reflexivity|].
  apply IH.
Qed.

Lemma occurrences_map {A} (f : A -> string) (l : list A) k :
  occurrences k (map f l)
  = Z.of_nat (List.length (List.filter (fun x => bool_decide (f x = k)) l)).
Proof.
  unfold occurrences. f_equal.
  induction l as [|x l IH]; simpl; [reflexivity|].
  destruct (bool_decide (f x = k)); simpl; now rewrite IH.
Qed.

End CountFacts.

(** ** Graph metrics of the V2 builder *)

Module MetricsFacts.
Import BuilderV2 BuilderV2Relationships.

Lemma node_value_inj (a b : NodeType) :
  NodeTypeValue.value a = NodeTypeValue.value b -> a = b.
Proof. destruct a, b; simpl; intros H0; first [reflexivity | discriminate H0]. Qed.

Lemma edge_value_inj (a b : EdgeType) :
  EdgeTypeValue.value a = EdgeTypeValue.value b -> a = b.
Proof. destruct a, b; simpl; intros H0; first [reflexivity | discriminate H0]. Qed.

Lemma filter_length_ext {A} (f g : A -> bool) (l : list A) :
  (forall x, f x = g x) ->
  List.length (List.filter f l) = List.length (List.filter g l).
Proof.
  intros Hfg. induction l as [|x l IH]; simpl; [reflexivity|].
  rewrite Hfg. destruct (g x); simpl; now rewrite IH.
Qed.

Lemma bool_decide_inj {A B} `{EqDecision A, EqDecision B} (f : A -> B) (x y : A) :
  (forall a b, f a = f b -> a = b) ->
  bool_decide (f x = f y) = bool_decide (x = y).
Proof.
  intros Hinj. destruct (decide (x = y)) as [->|Hne].
  - now rewrite !bool_decide_eq_true_2.
  - rewrite !bool_decide_eq_false_2; [reflexivity | assumption |].
    intros H0. apply Hne. now apply Hinj.
Qed.

(** The nodes of a type and the edges of a type. *)
Definition nodes_of_type (node_type : NodeType) (nodes : list EnhancedHyperNode.t)
    : list EnhancedHyperNode.t :=
  List.filter (fun node => bool_decide (EnhancedHyperNode.node_type node = node_type)) nodes.

Definition edges_of_type (edge_type : EdgeType) (edges : list EnhancedHyperEdge.t)
    : list EnhancedHyperEdge.t :=
  List.filter (fun edge => bool_decide (EnhancedHyperEdge.edge_type edge = edge_type)) edges.

Definition edge_types (edges : list EnhancedHyperEdge.t) : gset string :=
  list_to_set (map (fun edge => EdgeTypeValue.value (EnhancedHyperEdge.edge_type edge)) edges).

End MetricsFacts.

(** X3. The type distributions of [_calculate_graph_metrics] count
    exactly: the entry of a node type is the number of nodes of that type
    and the entry of an edge type the number of edges of that type (a type
    nothing has is absent, no entry is zero); the entries of each
    distribution add up to the total it is reported with, and
    [relationship_diversity] is the number of distinct edge types. *)
Theorem graph_metrics_count_types (nodes : list EnhancedHyperNode.t)
    (edges : list EnhancedHyperEdge.t) :
  let metrics := BuilderV2Relationships._calculate_graph_metrics nodes edges in
  (forall node_type,
     PyDict.get_default (BuilderV2Relationships.node_type_distribution metrics)
                        (NodeTypeValue.value node_type) 0%Z
     = Z.of_nat (List.length (MetricsFacts.nodes_of_type node_type nodes)))
  /\ (forall edge_type,
     PyDict.get_default (BuilderV2Relationships.edge_type_distribution metrics)
                        (EdgeTypeValue.value edge_type) 0%Z
     = Z.of_nat (List.length (MetricsFacts.edges_of_type edge_type edges)))
  /\ (forall k v,
        In (k, v) (BuilderV2Relationships.node_type_distribution metrics)
        \/ In (k, v) (BuilderV2Relationships.edge_type_distribution metrics) ->
        (1 <= v)%Z)
  /\ CountFacts.total (BuilderV2Relationships.node_type_distribution metrics)
     = BuilderV2Relationships.total_nodes metrics
  /\ CountFacts.total (BuilderV2Relationships.edge_type_distribution metrics)
     = BuilderV2Relationships.total_edges metrics
  /\ BuilderV2Relationships.relationship_diversity metrics
     = Z.of_nat (size (MetricsFacts.edge_types edges)).
Proof.
  unfold BuilderV2Relationships._calculate_graph_metrics. cbn zeta.
  cbn [BuilderV2Relationships.node_type_distribution
       BuilderV2Relationships.edge_type_distribution
       BuilderV2Relationships.total_nodes BuilderV2Relationships.total_edges
       BuilderV2Relationships.relationship_diversity].
  rewrite !CountFacts.fold_bump_map.
  repeat split.
  - intros node_type. rewrite CountFacts.tally_get, CountFacts.occurrences_map.
    unfold PyDict.get_default. simpl. rewrite Z.add_0_l. f_equal.
    apply MetricsFacts.filter_length_ext. intros node.
    apply MetricsFacts.bool_decide_inj, MetricsFacts.node_value_inj.
  - intros edge_type. rewrite CountFacts.tally_get, CountFacts.occurrences_map.
    unfold PyDict.get_default. simpl. rewrite Z.add_0_l. f_equal.
    apply MetricsFacts.filter_length_ext. intros edge.
    apply MetricsFacts.bool_decide_inj, MetricsFacts.edge_value_inj.
  - intros k v [Hin|Hin]; apply CountFacts.tally_entry in Hin;
      destruct Hin as [Hk ->]; now apply CountFacts.occurrences_pos.
  - rewrite CountFacts.tally_total, List.length_map. reflexivity.
  - rewrite CountFacts.tally_total, List.length_map. reflexivity.
  - now rewrite CountFacts.tally_length.
Qed.

(** ** Connections and central entities *)

Module ConnectionFacts.
Import BuilderV2.

(** The ids an edge list touches, a source before its target. *)
Definition endpoints (edges : list EnhancedHyperEdge.t) : list string :=
  flat_map (fun edge => [EnhancedHyperEdge.source_node_id edge;
                         EnhancedHyperEdge.target_node_id edge]) edges.

(** The number of edge ends at a node: an edge from a node to itself
    counts twice. *)
Definition degree (edges : list EnhancedHyperEdge.t) (node_id : string) : Z :=
  (Z.of_nat (List.length
     (List.filter (fun edge => bool_decide (EnhancedHyperEdge.source_node_id edge = node_id))
                  edges))
   + Z.of_nat (List.length
     (List.filter (fun edge => bool_decide (EnhancedHyperEdge.target_node_id edge = node_id))
                  edges)))%Z.

Lemma count_connections_tally edges acc :
  fold_left (fun acc edge =>
               bump (bump acc (EnhancedHyperEdge.source_node_id edge))
                    (EnhancedHyperEdge.target_node_id edge)) edges acc
  = CountFacts.tally (endpoints edges) acc.
Proof.
  unfold CountFacts.tally. revert acc.
  induction edges as [|edge edges IH]; intros acc; simpl; [reflexivity|].
  apply IH.
Qed.

Lemma occurrences_endpoints edges node_id :
  CountFacts.occurrences node_id (endpoints edges) = degree edges node_id.
Proof.
  unfold degree. induction edges as [|edge edges IH].
  - reflexivity.
  - change (endpoints (edge :: edges))
      with ([EnhancedHyperEdge.source_node_id edge;
             EnhancedHyperEdge.target_node_id edge] ++ endpoints edges).
    rewrite CountFacts.occurrences_app, IH.
    unfold CountFacts.occurrences. simpl.
    destruct (bool_decide (EnhancedHyperEdge.source_node_id edge = node_id));
      destruct (bool_decide (EnhancedHyperEdge.target_node_id edge = node_id));
      simpl; lia.
Qed.

Lemma endpoints_length edges :
  List.length (endpoints edges) = (2 * List.length edges)%nat.
Proof.
  induction edges as [|edge edges IH]; simpl; [reflexivity|]. rewrite IH. lia.
Qed.

Lemma In_endpoints edges node_id :
  In node_id (endpoints edges) <->
  exists edge, In edge edges
    /\ (EnhancedHyperEdge.source_node_id edge = node_id
        \/ EnhancedHyperEdge.target_node_id edge = node_id).
Proof.
  unfold endpoints. rewrite in_flat_map. split.
  - intros (edge & Hin & Hk). exists edge. split; [assumption|].
    simpl in Hk. tauto.
  - intros (edge & Hin & Hk). exists edge. split; [assumption|].
    simpl. tauto.
Qed.

End ConnectionFacts.

(** X4. The connection counter of [_generate_graph_insights] holds, for
    every node id an edge touches, the number of edge ends at that node
    and nothing else; its counts add up to twice the number of edges. *)
Theorem count_connections_degrees (edges : list EnhancedHyperEdge.t) :
  (forall node_id,
     PyDict.get_default (count_connections edges) node_id 0%Z
     = ConnectionFacts.degree edges node_id)
  /\ (forall node_id count,
        In (node_id, count) (count_connections edges) ->
        (1 <= count)%Z
        /\ exists edge, In edge edges
             /\ (EnhancedHyperEdge.source_node_id edge = node_id
                 \/ EnhancedHyperEdge.target_node_id edge = node_id))
  /\ List.NoDup (PyDict.keys (count_connections edges))
  /\ CountFacts.total (count_connections edges) = (2 * Z.of_nat (List.length edges))%Z.
Proof.
  unfold count_connections. rewrite ConnectionFacts.count_connections_tally.
  repeat split.
  - intros node_id. rewrite CountFacts.tally_get.
    now rewrite ConnectionFacts.occurrences_endpoints.
  - apply CountFacts.tally_entry in H. destruct H as [Hk ->].
    now apply CountFacts.occurrences_pos.
  - apply CountFacts.tally_entry in H. destruct H as [Hk _].
    now apply ConnectionFacts.In_endpoints.
  - apply CountFacts.tally_nodup. constructor.
  - rewrite CountFacts.tally_total, ConnectionFacts.endpoints_length.
    unfold CountFacts.total. simpl. lia.
Qed.

Module CentralFacts.
Import BuilderV2.

(** Counts fall along the list. *)
Definition descending (l : list (string * Z)) : Prop :=
  StronglySorted (fun a b => (snd b <= snd a)%Z) l.

Lemma insert_desc_In x l y : In y (insert_desc x l) <-> y = x \/ In y l.
Proof.
  induction l as [|z l IH]; simpl.
  - intuition congruence.
  - destruct (snd x <? snd z)%Z; simpl; rewrite ?IH; intuition congruence.
Qed.

Lemma insert_desc_length x l : List.length (insert_desc x l) = S (List.length l).
Proof.
  induction l as [|z l IH]; simpl; [reflexivity|].
  destruct (snd x <? snd z)%Z; simpl; [now rewrite IH | reflexivity].
Qed.

Lemma insert_desc_descending x l : descending l -> descending (insert_desc x l).
Proof.
  unfold descending. induction l as [|z l IH]; intros Hs; simpl.
  - constructor; constructor.
  - inversion Hs as [|? ? Hs' Hz]; subst.
    destruct (snd x <? snd z)%Z eqn:Hlt.
    + apply Z.ltb_lt in Hlt. constructor; [now apply IH|].
      apply List.Forall_forall. intros y Hy. apply insert_desc_In in Hy.
      destruct Hy as [->|Hy]; [lia|].
      rewrite List.Forall_forall in Hz. now apply Hz.
    + apply Z.ltb_ge in Hlt. constructor; [assumption|].
      constructor; [assumption|].
      rewrite List.Forall_forall in Hz |- *. intros y Hy.
      specialize (Hz y Hy). lia.
Qed.

Lemma insert_desc_keys x l :
  List.NoDup (map fst (x :: l)) -> List.NoDup (map fst (insert_desc x l)).
Proof.
  induction l as [|z l IH]; simpl; intros Hnd; [exact Hnd|].
  destruct (snd x <? snd z)%Z; simpl; [|exact Hnd].
  inversion Hnd as [|? ? Hx Hnd']; subst.
  inversion Hnd' as [|? ? Hz Hnd'']; subst.
  constructor.
  - rewrite in_map_iff. intros ([k v] & Hk & Hin). simpl in Hk. subst k.
    apply insert_desc_In in Hin. destruct Hin as [<-|Hin].
    + apply Hx. now left.
    + apply Hz. apply in_map_iff. now exists (fst z, v).
  - apply IH. simpl. constructor; [|assumption].
    intros Hin. apply Hx. now right.
Qed.

Lemma sorted_desc_In l y : In y (sorted_desc l) <-> In y l.
Proof.
  unfold sorted_desc. induction l as [|x l IH]; simpl; [tauto|].
  rewrite insert_desc_In, IH. intuition congruence.
Qed.

Lemma sorted_desc_length l : List.length (sorted_desc l) = List.length l.
Proof.
  unfold sorted_desc. induction l as [|x l IH]; simpl; [reflexivity|].
  now rewrite insert_desc_length, IH.
Qed.

Lemma sorted_desc_descending l : descending (sorted_desc l).
Proof.
  unfold sorted_desc. induction l as [|x l IH]; simpl.
  - constructor.
  - now apply insert_desc_descending.
Qed.

Lemma sorted_desc_keys l :
  List.NoDup (map fst l) -> List.NoDup (map fst (sorted_desc l)).
Proof.
  unfold sorted_desc. induction l as [|x l IH]; simpl; intros Hnd; [exact Hnd|].
  inversion Hnd as [|? ? Hx Hnd']; subst.
  apply insert_desc_keys. simpl. constructor; [|now apply IH].
  rewrite in_map_iff. intros (y & Hk & Hin). apply Hx.
  apply in_map_iff. exists y. split; [assumption|].
  apply (sorted_desc_In l y). exact Hin.
Qed.

(** In a descending list whatever is cut off counts no more than
    whatever is kept. *)
Lemma firstn_dominates n l a b :
  descending l -> In a (firstn n l) -> In b (skipn n l) -> (snd b <= snd a)%Z.
Proof.
  unfold descending. revert l. induction n as [|n IH]; intros l Hs Ha Hb.
  - destruct Ha.
  - destruct l as [|x l]; [destruct Ha|].
    inversion Hs as [|? ? Hs' Hx]; subst. simpl in Ha, Hb.
    destruct Ha as [<-|Ha].
    + rewrite List.Forall_forall in Hx. apply Hx.
      rewrite <- (firstn_skipn n l). apply in_or_app. now right.
    + now apply (IH l).
Qed.

Lemma firstn_descending n l : descending l -> descending (firstn n l).
Proof.
  unfold descending. revert l. induction n as [|n IH]; intros l Hs; simpl.
  - constructor.
  - destruct l as [|x l]; [constructor|].
    inversion Hs as [|? ? Hs' Hx]; subst.
    constructor; [now apply IH|].
    rewrite List.Forall_forall in Hx |- *. intros y Hy. apply Hx.
    rewrite <- (firstn_skipn n l). apply in_or_app. now left.
Qed.

Lemma firstn_keys {A B} n (l : list (A * B)) :
  List.NoDup (map fst l) -> List.NoDup (map fst (firstn n l)).
Proof.
  revert l. induction n as [|n IH]; intros l Hnd; simpl.
  - constructor.
  - destruct l as [|x l]; [constructor|]. simpl in *.
    inversion Hnd as [|? ? Hx Hnd']; subst.
    constructor; [|now apply IH].
    rewrite in_map_iff. intros (y & Hk & Hin). apply Hx.
    apply in_map_iff. exists y. split; [assumption|].
    rewrite <- (firstn_skipn n l). apply in_or_app. now left.
Qed.

(** The id-to-content dictionary of [_generate_graph_insights]. *)
Definition contents (nodes : list EnhancedHyperNode.t) (m : gmap string string)
    : gmap string string :=
  fold_left (fun m node => <[EnhancedHyperNode.id node := EnhancedHyperNode.content node]> m)
            nodes m.

Lemma contents_Some nodes m node_id content :
  contents nodes m !! node_id = Some content ->
  m !! node_id = Some content
  \/ exists node, In node nodes /\ EnhancedHyperNode.id node = node_id
                  /\ EnhancedHyperNode.content node = content.
Proof.
  unfold contents. revert m. induction nodes as [|node nodes IH]; intros m; simpl.
  - now left.
  - intros H0. apply IH in H0. destruct H0 as [H0|(n & Hin & Hi & Hc)].
    + destruct (decide (EnhancedHyperNode.id node = node_id)) as [Heq|Hne].
      * rewrite Heq, lookup_insert_eq in H0. injection H0 as <-.
        right. exists node. split; [now left | now split].
      * rewrite lookup_insert_ne in H0 by assumption. now left.
    + right. exists n. split; [now right | now split].
Qed.

Lemma contents_keeps nodes m node_id :
  is_Some (m !! node_id) -> is_Some (contents nodes m !! node_id).
Proof.
  unfold contents. revert m. induction nodes as [|node nodes IH]; intros m Hm; simpl.
  - exact Hm.
  - apply IH.
    destruct (decide (EnhancedHyperNode.id node = node_id)) as [Heq|Hne].
    + rewrite Heq, lookup_insert_eq. now eexists.
    + now rewrite lookup_insert_ne.
Qed.

Lemma contents_None nodes m node_id :
  contents nodes m !! node_id = None ->
  forall node, In node nodes -> EnhancedHyperNode.id node <> node_id.
Proof.
  revert m. induction nodes as [|node nodes IH]; intros m H0 n Hin.
  - destruct Hin.
  - destruct Hin as [<-|Hin].
    + intros Heq.
      assert (Hs : is_Some (contents (node :: nodes) m !! node_id)).
      { unfold contents. simpl. apply (contents_keeps nodes).
        rewrite Heq, lookup_insert_eq. now eexists. }
      rewrite H0 in Hs. destruct Hs as [c Hc]. discriminate Hc.
    + unfold contents in H0. simpl in H0. now apply (IH _ H0).
Qed.

End CentralFacts.

Module CentralSpec.
Import BuilderV2.

(** [label] is what the insights show for the node id: the content of a
    node of that id, or "Unknown" when no node has it. *)
Definition labelled (nodes : list EnhancedHyperNode.t) (node_id label : string) : Prop :=
  (exists node, In node nodes /\ EnhancedHyperNode.id node = node_id
                /\ EnhancedHyperNode.content node = label)
  \/ (label = "Unknown"
      /\ forall node, In node nodes -> EnhancedHyperNode.id node <> node_id).

Definition touched (edges : list EnhancedHyperEdge.t) : gset string :=
  list_to_set (ConnectionFacts.endpoints edges).

Lemma count_connections_entry edges node_id count :
  In (node_id, count) (count_connections edges) ->
  In node_id (ConnectionFacts.endpoints edges)
  /\ count = ConnectionFacts.degree edges node_id.
Proof.
  unfold count_connections. rewrite ConnectionFacts.count_connections_tally.
  intros Hin. apply CountFacts.tally_entry in Hin.
  now rewrite ConnectionFacts.occurrences_endpoints in Hin.
Qed.

Lemma count_connections_has edges node_id :
  In node_id (ConnectionFacts.endpoints edges) ->
  In (node_id, ConnectionFacts.degree edges node_id) (count_connections edges).
Proof.
  intros Hin.
  assert (Hk : In node_id (PyDict.keys (count_connections edges))).
  { unfold count_connections. rewrite ConnectionFacts.count_connections_tally.
    apply CountFacts.tally_keys. now right. }
  unfold PyDict.keys in Hk. apply in_map_iff in Hk.
  destruct Hk as ([k v] & Hk & Hkv). simpl in Hk. subst k.
  destruct (count_connections_entry _ _ _ Hkv) as [_ ->]. exact Hkv.
Qed.

Lemma degree_untouched edges node_id :
  ~ In node_id (ConnectionFacts.endpoints edges) ->
  ConnectionFacts.degree edges node_id = 0%Z.
Proof.
  intros Hnot. rewrite <- ConnectionFacts.occurrences_endpoints.
  now apply CountFacts.occurrences_zero.
Qed.

Lemma count_connections_keys edges :
  List.NoDup (map fst (count_connections edges)).
Proof.
  unfold count_connections. rewrite ConnectionFacts.count_connections_tally.
  apply (CountFacts.tally_nodup _ PyDict.empty). constructor.
Qed.

Lemma count_connections_length edges :
  List.length (count_connections edges) = size (touched edges).
Proof.
  unfold count_connections. rewrite ConnectionFacts.count_connections_tally.
  apply CountFacts.tally_length.
Qed.

Lemma Forall2_map_both {A B C} (P : B -> C -> Prop) (f : A -> B) (g : A -> C)
    (l : list A) :
  (forall x, In x l -> P (f x) (g x)) -> Forall2 P (map f l) (map g l).
Proof.
  induction l as [|x l IH]; intros HP; simpl; constructor.
  - apply HP. now left.
  - apply IH. intros y Hy. apply HP. now right.
Qed.

Lemma descending_by_degree edges (l : list (string * Z)) :
  (forall item, In item l -> snd item = ConnectionFacts.degree edges (fst item)) ->
  CentralFacts.descending l ->
  StronglySorted (fun i j => (ConnectionFacts.degree edges j
                              <= ConnectionFacts.degree edges i)%Z) (map fst l).
Proof.
  unfold CentralFacts.descending. intros Hdeg Hs.
  induction Hs as [|x l Hs IH Hx]; simpl; constructor.
  - apply IH. intros item Hin. apply Hdeg. now right.
  - rewrite List.Forall_forall in Hx |- *. intros j Hj.
    apply in_map_iff in Hj. destruct Hj as (y & <- & Hy).
    rewrite <- (Hdeg y) by now right. rewrite <- (Hdeg x) by now left.
    now apply Hx.
Qed.

End CentralSpec.

(** X5. The central entities of [_generate_graph_insights] are the labels
    of the most connected node ids: at most three ids, all different and
    each touched by an edge, in descending order of their number of edge
    ends, and no id left out has more edge ends than one listed.  There
    are fewer than three only when the edges touch fewer than three ids.
    An id that no node carries is shown as "Unknown". *)
Theorem central_entities_most_connected (nodes : list EnhancedHyperNode.t)
    (edges : list EnhancedHyperEdge.t) :
  exists top : list string,
    List.length top = Nat.min 3 (size (CentralSpec.touched edges))
    /\ List.NoDup top
    /\ (forall i, In i top -> (1 <= ConnectionFacts.degree edges i)%Z)
    /\ (forall i j, In i top -> ~ In j top ->
          (ConnectionFacts.degree edges j <= ConnectionFacts.degree edges i)%Z)
    /\ StronglySorted (fun i j => (ConnectionFacts.degree edges j
                                   <= ConnectionFacts.degree edges i)%Z) top
    /\ Forall2 (CentralSpec.labelled nodes) top
               (central_entities (_generate_graph_insights nodes edges)).
Proof.
  set (ranked := sorted_desc (PyDict.items (count_connections edges))).
  assert (Hranked : forall item, In item ranked ->
            In (fst item) (ConnectionFacts.endpoints edges)
            /\ snd item = ConnectionFacts.degree edges (fst item)).
  { intros [i c] Hin. unfold ranked in Hin.
    apply (proj1 (CentralFacts.sorted_desc_In _ _)) in Hin.
    simpl. apply CentralSpec.count_connections_entry. exact Hin. }
  assert (Hkeys : List.NoDup (map fst ranked)).
  { apply CentralFacts.sorted_desc_keys, CentralSpec.count_connections_keys. }
  assert (Hfirst : forall item, In item (firstn 3 ranked) -> In item ranked).
  { intros item Hin. rewrite <- (firstn_skipn 3 ranked). apply in_or_app. now left. }
  exists (map fst (firstn 3 ranked)).
  split; [|split; [|split; [|split; [|split]]]].
  - rewrite List.length_map, List.length_firstn. unfold ranked.
    rewrite CentralFacts.sorted_desc_length.
    unfold PyDict.items. now rewrite CentralSpec.count_connections_length.
  - now apply CentralFacts.firstn_keys.
  - intros i Hi. apply in_map_iff in Hi. destruct Hi as ([i' c] & Hi & Hin).
    simpl in Hi. subst i'. apply Hfirst, Hranked in Hin. simpl in Hin.
    destruct Hin as [Hend _].
    rewrite <- ConnectionFacts.occurrences_endpoints.
    now apply CountFacts.occurrences_pos.
  - intros i j Hi Hj. apply in_map_iff in Hi. destruct Hi as ([i' c] & Hi & Hin).
    simpl in Hi. subst i'.
    pose proof (Hranked _ (Hfirst _ Hin)) as [Hend Hc]. simpl in Hend, Hc.
    destruct (in_dec string_dec j (ConnectionFacts.endpoints edges)) as [Hjin|Hjout].
    + pose proof (CentralSpec.count_connections_has _ _ Hjin) as Hitem.
      apply (proj2 (CentralFacts.sorted_desc_In
                      (PyDict.items (count_connections edges)) _)) in Hitem.
      fold ranked in Hitem. rewrite <- (firstn_skipn 3 ranked) in Hitem.
      apply in_app_or in Hitem. destruct Hitem as [Hitem|Hitem].
      * exfalso. apply Hj. apply in_map_iff.
        now exists (j, ConnectionFacts.degree edges j).
      * pose proof (CentralFacts.firstn_dominates 3 ranked _ _
                      (CentralFacts.sorted_desc_descending _) Hin Hitem) as Hle.
        simpl in Hle. now rewrite <- Hc.
    + rewrite (CentralSpec.degree_untouched _ _ Hjout).
      rewrite <- ConnectionFacts.occurrences_endpoints.
      pose proof (CountFacts.occurrences_pos _ _ Hend). lia.
  - apply CentralSpec.descending_by_degree.
    + intros item Hin. now apply Hranked, Hfirst.
    + apply CentralFacts.firstn_descending, CentralFacts.sorted_desc_descending.
  - change (central_entities (_generate_graph_insights nodes edges))
      with (map (fun item : string * Z =>
                   default "Unknown" (CentralFacts.contents nodes ∅ !! fst item))
                (firstn 3 ranked)).
    apply CentralSpec.Forall2_map_both. intros item _.
    destruct (CentralFacts.contents nodes ∅ !! fst item) as [label|] eqn:Hget; simpl.
    + apply CentralFacts.contents_Some in Hget.
      destruct Hget as [Hget|Hget]; [|now left].
      rewrite lookup_empty in Hget. discriminate Hget.
    + right. split; [reflexivity|].
      now apply (CentralFacts.contents_None nodes ∅).
Qed.

(** ** Which node an edge attaches to *)

Module LastNodeFacts.
Import BuilderV2.

(** The last node of [hypernodes] whose content is [text], letter case
    apart. *)
Definition last_node (hypernodes : list EnhancedHyperNode.t) (text : string)
    : option EnhancedHyperNode.t :=
  List.find (fun node => String.eqb (PyStr.lower (EnhancedHyperNode.content node))
                                    (PyStr.lower text))
            (List.rev hypernodes).

(** The edge of a relationship between the last node of its source text
    and the last node of its target text; none when a text has no node or
    the id of one of the two nodes is empty. *)
Definition edge_between_last (timestamp : string) (hypernodes : list EnhancedHyperNode.t)
    (rel : CleanRelationship.t) : list EnhancedHyperEdge.t :=
  match last_node hypernodes (CleanRelationship.source_entity rel),
        last_node hypernodes (CleanRelationship.target_entity rel) with
  | Some source, Some target =>
      if String.eqb (EnhancedHyperNode.id source) ""
         || String.eqb (EnhancedHyperNode.id target) ""
      then []
      else [make_edge timestamp rel (EnhancedHyperNode.id source)
              (EnhancedHyperNode.id target)]
  | _, _ => []
  end.

Lemma last_node_snoc hypernodes node text :
  last_node (hypernodes ++ [node]) text
  = if String.eqb (PyStr.lower (EnhancedHyperNode.content node)) (PyStr.lower text)
    then Some node else last_node hypernodes text.
Proof. unfold last_node. rewrite rev_unit. reflexivity. Qed.

Lemma node_lookup_last_node hypernodes text :
  node_lookup hypernodes !! PyStr.lower text
  = option_map EnhancedHyperNode.id (last_node hypernodes text).
Proof.
  rewrite EdgeFacts.node_lookup_fold.
  induction hypernodes as [|node hypernodes IH] using rev_ind.
  - reflexivity.
  - rewrite fold_left_app, last_node_snoc. simpl. unfold EdgeFacts.lookup_step at 1.
    destruct (String.eqb_spec (PyStr.lower (EnhancedHyperNode.content node))
                (PyStr.lower text)) as [Heq|Hne].
    + rewrite Heq. apply lookup_insert_eq.
    + rewrite lookup_insert_ne by assumption. exact IH.
Qed.

Lemma last_node_unrepeated before node after text :
  PyStr.lower text = PyStr.lower (EnhancedHyperNode.content node) ->
  (forall later, In later after ->
     PyStr.lower (EnhancedHyperNode.content later)
     <> PyStr.lower (EnhancedHyperNode.content node)) ->
  last_node (before ++ node :: after) text = Some node.
Proof.
  intros Htext. induction after as [|later after IH] using rev_ind; intros Hlater.
  - rewrite last_node_snoc, Htext, String.eqb_refl. reflexivity.
  - change (before ++ node :: after ++ [later])
      with (before ++ (node :: after) ++ [later]).
    rewrite app_assoc, last_node_snoc.
    destruct (String.eqb_spec (PyStr.lower (EnhancedHyperNode.content later))
                (PyStr.lower text)) as [Heq|Hne].
    + exfalso. apply (Hlater later); [apply in_or_app; right; now left|].
      now rewrite Heq.
    + apply IH. intros l Hl. apply Hlater. apply in_or_app. now left.
Qed.

Lemma relationship_edges_last hypernodes timestamp rel :
  relationship_edges (node_lookup hypernodes) timestamp rel
  = edge_between_last timestamp hypernodes rel.
Proof.
  unfold relationship_edges, edge_between_last.
  rewrite !node_lookup_last_node.
  destruct (last_node hypernodes (CleanRelationship.source_entity rel)) as [source|];
    destruct (last_node hypernodes (CleanRelationship.target_entity rel)) as [target|];
    simpl; try reflexivity.
  - destruct (String.eqb (EnhancedHyperNode.id source) "");
      destruct (String.eqb (EnhancedHyperNode.id target) ""); reflexivity.
  - now rewrite andb_false_r.
Qed.

End LastNodeFacts.

(** X6. When several hypernodes have the same content, letter case apart,
    [_create_enhanced_hyperedges] attaches edges to the last of them: the
    edges are, relationship by relationship and in their order, the edge
    made from the relationship with the id of the last node whose content
    equals its source text as source and the id of the last node whose
    content equals its target text as target, and no edge when one of the
    texts has no node or one of the two ids is empty.  A node whose
    content no later node repeats is the last node of every text equal to
    its content. *)
Theorem hyperedges_attach_to_last_node (timestamp : string)
    (relationships : list CleanRelationship.t)
    (hypernodes : list EnhancedHyperNode.t) :
  _create_enhanced_hyperedges timestamp relationships hypernodes
  = flat_map (LastNodeFacts.edge_between_last timestamp hypernodes) relationships
  /\ (forall before node after text,
        hypernodes = before ++ node :: after ->
        PyStr.lower text = PyStr.lower (EnhancedHyperNode.content node) ->
        (forall later, In later after ->
           PyStr.lower (EnhancedHyperNode.content later)
           <> PyStr.lower (EnhancedHyperNode.content node)) ->
        LastNodeFacts.last_node hypernodes text = Some node).
Proof.
  split.
  - unfold _create_enhanced_hyperedges.
    induction relationships as [|rel relationships IH]; simpl; [reflexivity|].
    now rewrite IH, LastNodeFacts.relationship_edges_last.
  - intros before node after text -> Htext Hlater.
    now apply LastNodeFacts.last_node_unrepeated.
Qed.

(** X6 at two nodes called Alice, a person and then a skill: the one edge
    made, that of "alice demonstrates PLANNING", starts at the skill. *)
Lemma hyperedges_attach_to_last_node_witness :
  map (fun edge => (EnhancedHyperEdge.source_node_id edge,
                    EnhancedHyperEdge.target_node_id edge))
      (_create_enhanced_hyperedges "2024-01-01T00:00:00" sample_relationships
         [sample_node "person_0" "Alice" PERSON (9 # 10);
          sample_node "skill_9" "ALICE" SKILL (1 # 2);
          sample_node "skill_1" "Planning" SKILL 1])
  = [("skill_9", "skill_1")].
Proof.
  rewrite (proj1 (hyperedges_attach_to_last_node "2024-01-01T00:00:00"
                    sample_relationships
                    [sample_node "person_0" "Alice" PERSON (9 # 10);
                     sample_node "skill_9" "ALICE" SKILL (1 # 2);
                     sample_node "skill_1" "Planning" SKILL 1])).
  reflexivity.
Defined.

(** ** Keeping the best item of every key *)

Module KeepBest.
Section KeepBest.
Context {A K : Type} `{EqDecision K}.
Variable key : A -> K.
Variable conf : A -> Q.

(** One iteration of the loop [if key not in m or x.confidence >
    m[key].confidence: m[key] = x]. *)
Definition step (m : PyDict.t K A) (x : A) : PyDict.t K A :=
  match PyDict.get m (key x) with
  | None => PyDict.set m (key x) x
  | Some kept => if Py.gt (conf x) (conf kept) then PyDict.set m (key x) x else m
  end.

(** [x] is the first of the most confident items of its key in [l]. *)
Definition first_best (l : list A) (x : A) : Prop :=
  exists before after,
    l = before ++ x :: after
    /\ (forall y, In y before -> key y = key x -> conf y < conf x)
    /\ (forall y, In y after -> key y = key x -> conf y <= conf x).

Record inv (seen : list A) (m : PyDict.t K A) : Prop := {
  inv_nodup : List.NoDup (PyDict.keys m);
  inv_entry : forall k x, In (k, x) m -> k = key x /\ first_best seen x;
  inv_cover : forall x, In x seen -> In (key x) (PyDict.keys m)
}.

Lemma first_best_le seen x y :
  first_best seen x -> In y seen -> key y = key x -> conf y <= conf x.
Proof.
  intros (before & after & -> & Hb & Ha) Hy Hk.
  apply in_app_or in Hy. destruct Hy as [Hy|[<-|Hy]].
  - apply Qlt_le_weak. now apply Hb.
  - apply Qle_refl.
  - now apply Ha.
Qed.

Lemma first_best_In seen x : first_best seen x -> In x seen.
Proof. intros (before & after & -> & _). apply in_or_app. right. now left. Qed.

Lemma first_best_snoc seen x y :
  first_best seen x -> (key y = key x -> conf y <= conf x) ->
  first_best (seen ++ [y]) x.
Proof.
  intros (before & after & -> & Hb & Ha) Hy.
  exists before, (after ++ [y]). split; [|split].
  - now rewrite <- List.app_assoc.
  - exact Hb.
  - intros z Hz Hk. apply in_app_or in Hz. destruct Hz as [Hz|[<-|[]]].
    + now apply Ha.
    + now apply Hy.
Qed.

Lemma first_best_new seen x :
  (forall y, In y seen -> key y = key x -> conf y < conf x) ->
  first_best (seen ++ [x]) x.
Proof.
  intros Hlt. exists seen, []. split; [reflexivity|]. split; [exact Hlt|].
  intros y [].
Qed.

Lemma inv_empty : inv [] PyDict.empty.
Proof.
  split; simpl.
  - constructor.
  - intros k x [].
  - intros x [].
Qed.

Lemma inv_step seen m x : inv seen m -> inv (seen ++ [x]) (step m x).
Proof.
  intros [Hnd Hentry Hcover]. unfold step.
  destruct (PyDict.get m (key x)) as [kept|] eqn:Hget.
  - pose proof (PyDictFacts.get_Some_In _ _ _ Hget) as Hkept.
    destruct (Hentry _ _ Hkept) as (Hkk & Hbest).
    destruct (Py.gt (conf x) (conf kept)) eqn:Hgt.
    + apply PyFacts.gt_true in Hgt. split.
      * now apply PyDictFacts.NoDup_keys_set.
      * intros k z Hin. apply PyDictFacts.In_set_inv in Hin; [|assumption].
        destruct Hin as [[-> ->]|[Hne Hin]].
        -- split; [reflexivity|]. apply first_best_new.
           intros y Hy Hk. apply Qle_lt_trans with (conf kept); [|exact Hgt].
           apply (first_best_le seen); [assumption | assumption | congruence].
        -- destruct (Hentry _ _ Hin) as (Hk & Hb). split; [assumption|].
           apply first_best_snoc; [assumption|]. intros Hk'. congruence.
      * intros y Hy. apply in_app_or in Hy. destruct Hy as [Hy|[<-|[]]].
        -- apply PyDictFacts.keys_set_incl. now apply Hcover.
        -- apply PyDictFacts.key_in_set.
    + apply PyFacts.gt_false in Hgt. split.
      * assumption.
      * intros k z Hin. destruct (Hentry _ _ Hin) as (Hk & Hb).
        split; [assumption|]. apply first_best_snoc; [assumption|].
        intros Hk'. subst k. rewrite <- Hk' in Hin.
        pose proof (PyDictFacts.In_get _ _ _ Hnd Hin) as Hget'.
        rewrite Hget in Hget'. injection Hget' as ->. exact Hgt.
      * intros y Hy. apply in_app_or in Hy. destruct Hy as [Hy|[<-|[]]].
        -- now apply Hcover.
        -- now apply (PyDictFacts.In_keys _ _ kept).
  - apply PyDictFacts.get_None_keys in Hget. split.
    + now apply PyDictFacts.NoDup_keys_set.
    + intros k z Hin. apply PyDictFacts.In_set_inv in Hin; [|assumption].
      destruct Hin as [[-> ->]|[Hne Hin]].
      * split; [reflexivity|]. apply first_best_new.
        intros y Hy Hk. exfalso. apply Hget. rewrite <- Hk. now apply Hcover.
      * destruct (Hentry _ _ Hin) as (Hk & Hb). split; [assumption|].
        apply first_best_snoc; [assumption|]. intros Hk'. congruence.
    + intros y Hy. apply in_app_or in Hy. destruct Hy as [Hy|[<-|[]]].
      * apply PyDictFacts.keys_set_incl. now apply Hcover.
      * apply PyDictFacts.key_in_set.
Qed.

Lemma inv_fold l : inv l (fold_left step l PyDict.empty).
Proof.
  induction l as [|x seen IH] using rev_ind.
  - apply inv_empty.
  - rewrite fold_left_app. simpl. now apply inv_step.
Qed.

Lemma kept_keys_of_values seen m :
  inv seen m -> map key (PyDict.values m) = PyDict.keys m.
Proof.
  intros [_ Hentry _]. unfold PyDict.values, PyDict.keys.
  rewrite map_map. apply map_ext_in. intros [k x] Hin. simpl.
  symmetry. apply (Hentry k x Hin).
Qed.

Lemma kept_In_values_inv (m : PyDict.t K A) x :
  In x (PyDict.values m) -> exists k, In (k, x) m.
Proof.
  unfold PyDict.values. rewrite in_map_iff. intros [[k x'] [<- Hin]]. now exists k.
Qed.

(** A list without two items of one key passes through unchanged. *)
Lemma fold_distinct l :
  List.NoDup (map key l) ->
  fold_left step l PyDict.empty = map (fun x => (key x, x)) l.
Proof.
  induction l as [|x l IH] using rev_ind; intros Hnd; [reflexivity|].
  rewrite map_app in Hnd. apply NoDup_ListNoDup, NoDup_app in Hnd.
  destruct Hnd as (Hl & Hx & _).
  rewrite fold_left_app, map_app. simpl.
  rewrite IH by now apply NoDup_ListNoDup.
  assert (Habsent : ~ In (key x) (PyDict.keys (map (fun y => (key y, y)) l))).
  { unfold PyDict.keys. rewrite map_map. simpl. intros Hin.
    apply list_elem_of_In in Hin. apply (Hx _ Hin). now left. }
  unfold step. rewrite (proj2 (PyDictFacts.get_None_keys _ _) Habsent).
  now apply PyDictFacts.set_absent.
Qed.

Lemma values_pairs l : PyDict.values (map (fun x => (key x, x)) l) = l.
Proof. unfold PyDict.values. rewrite map_map. simpl. apply map_id. Qed.

End KeepBest.
End KeepBest.

(** X7. [_deduplicate_relationships] keeps, for every key (lowercased
    source, lowercased target, relationship type), the first of the most
    confident relationships of that key: no key occurs twice in the
    result, every key of the input occurs in it, and a second pass over
    the result changes nothing. *)
Theorem deduplicate_relationships_spec (relationships : list CleanRelationship.t) :
  let key := BuilderV2Relationships.relationship_key in
  let kept := BuilderV2Relationships._deduplicate_relationships relationships in
  List.NoDup (map key kept)
  /\ (forall rel, In rel kept ->
        KeepBest.first_best key CleanRelationship.confidence relationships rel)
  /\ (forall rel, In rel relationships -> In (key rel) (map key kept))
  /\ BuilderV2Relationships._deduplicate_relationships kept = kept.
Proof.
  cbn zeta. unfold BuilderV2Relationships._deduplicate_relationships.
  change BuilderV2Relationships.dedup_relationship_step
    with (KeepBest.step BuilderV2Relationships.relationship_key
                        CleanRelationship.confidence).
  pose proof (KeepBest.inv_fold BuilderV2Relationships.relationship_key
                CleanRelationship.confidence relationships) as Hinv.
  pose proof (KeepBest.kept_keys_of_values _ _ _ _ Hinv) as Hkeys.
  destruct Hinv as [Hnd Hentry Hcover].
  assert (Hdistinct : List.NoDup (map BuilderV2Relationships.relationship_key
            (PyDict.values (fold_left
               (KeepBest.step BuilderV2Relationships.relationship_key
                              CleanRelationship.confidence)
               relationships PyDict.empty)))).
  { rewrite Hkeys. exact Hnd. }
  split; [exact Hdistinct|]. split; [|split].
  - intros rel Hrel. apply KeepBest.kept_In_values_inv in Hrel. destruct Hrel as [k Hin].
    apply (Hentry k rel Hin).
  - rewrite Hkeys. exact Hcover.
  - rewrite (KeepBest.fold_distinct _ _ _ Hdistinct).
    apply KeepBest.values_pairs.
Qed.

(** ** Semantic relationships *)

Module SemanticFacts.
Import BuilderV2 BuilderV2Relationships.

(** [entity1] stands before [entity2] in the list. *)
Definition in_order (entities : list CleanEntity.t) (entity1 entity2 : CleanEntity.t)
    : Prop :=
  exists l1 l2 l3, entities = l1 ++ entity1 :: l2 ++ entity2 :: l3.

Lemma entity_pairs_inv entities entity1 entity2 :
  In (entity1, entity2) (entity_pairs entities) ->
  CleanEntity.entity_type entity1 <> CleanEntity.entity_type entity2
  /\ in_order entities entity1 entity2.
Proof.
  induction entities as [|e rest IH]; simpl; [tauto|].
  intros Hin. apply in_app_or in Hin. destruct Hin as [Hin|Hin].
  - apply in_map_iff in Hin. destruct Hin as (e2 & [= <- <-] & Hin).
    apply List.filter_In in Hin. destruct Hin as [Hin Hty].
    apply negb_true_iff, bool_decide_eq_false_1 in Hty.
    split; [exact Hty|].
    apply in_split in Hin. destruct Hin as (l2 & l3 & ->).
    now exists [], l2, l3.
  - destruct (IH Hin) as (Hty & l1 & l2 & l3 & ->).
    split; [exact Hty|]. now exists (e :: l1), l2, l3.
Qed.

Lemma In_firstn {A} n (l : list A) x : In x (firstn n l) -> In x l.
Proof.
  intros Hin. rewrite <- (firstn_skipn n l). apply in_or_app. now left.
Qed.

Lemma flat_map_length_le {A B} (f : A -> list B) (l : list A) :
  (forall x, (List.length (f x) <= 1)%nat) ->
  (List.length (flat_map f l) <= List.length l)%nat.
Proof.
  intros Hf. induction l as [|x l IH]; simpl; [lia|].
  rewrite List.length_app. specialize (Hf x). lia.
Qed.

End SemanticFacts.

(** X8. [_extract_semantic_relationships_with_llm] asks the model about at
    most ten pairs, each of two entities of different types, the first
    standing before the second in the entity list; it returns at most one
    relationship per pair asked, each the model's answer for such a pair
    with a confidence above 0.6.  When all entities have one type the
    model is not asked and nothing is returned. *)
Theorem semantic_relationships_bounded
    (_analyze_semantic_relationship :
       CleanEntity.t -> CleanEntity.t -> option CleanRelationship.t)
    (entities : list CleanEntity.t) :
  let queries := BuilderV2Relationships.semantic_queries entities in
  let found :=
    BuilderV2Relationships._extract_semantic_relationships_with_llm
      _analyze_semantic_relationship entities in
  (List.length queries <= 10)%nat
  /\ (forall entity1 entity2, In (entity1, entity2) queries ->
        CleanEntity.entity_type entity1 <> CleanEntity.entity_type entity2
        /\ SemanticFacts.in_order entities entity1 entity2)
  /\ (List.length found <= List.length queries)%nat
  /\ (forall rel, In rel found ->
        6 # 10 < CleanRelationship.confidence rel
        /\ exists entity1 entity2,
             In (entity1, entity2) queries
             /\ _analyze_semantic_relationship entity1 entity2 = Some rel)
  /\ ((forall entity1 entity2, In entity1 entities -> In entity2 entities ->
         CleanEntity.entity_type entity1 = CleanEntity.entity_type entity2) ->
      queries = [] /\ found = []).
Proof.
  cbn zeta.
  assert (Hq : forall entity1 entity2,
            In (entity1, entity2) (BuilderV2Relationships.semantic_queries entities) ->
            CleanEntity.entity_type entity1 <> CleanEntity.entity_type entity2
            /\ SemanticFacts.in_order entities entity1 entity2).
  { intros entity1 entity2 Hin. apply SemanticFacts.entity_pairs_inv.
    now apply (SemanticFacts.In_firstn 10). }
  split; [|split; [exact Hq|split; [|split]]].
  - unfold BuilderV2Relationships.semantic_queries. rewrite List.length_firstn. lia.
  - unfold BuilderV2Relationships._extract_semantic_relationships_with_llm.
    apply SemanticFacts.flat_map_length_le. intros pair.
    destruct (_analyze_semantic_relationship (fst pair) (snd pair)) as [rel|];
      [destruct (Py.gt _ _)|]; simpl; lia.
  - intros rel Hin.
    unfold BuilderV2Relationships._extract_semantic_relationships_with_llm in Hin.
    apply in_flat_map in Hin. destruct Hin as ([entity1 entity2] & Hpair & Hin).
    simpl in Hin.
    destruct (_analyze_semantic_relationship entity1 entity2) as [rel'|] eqn:Hrel;
      [|destruct Hin].
    destruct (Py.gt (CleanRelationship.confidence rel') (6 # 10)) eqn:Hgt;
      [|destruct Hin].
    destruct Hin as [<-|[]]. split; [now apply PyFacts.gt_true|].
    now exists entity1, entity2.
  - intros Hsame.
    assert (Hnone : BuilderV2Relationships.semantic_queries entities = []).
    { destruct (BuilderV2Relationships.semantic_queries entities)
        as [|[entity1 entity2] rest] eqn:Hqs; [reflexivity|].
      exfalso. destruct (Hq entity1 entity2) as (Hty & l1 & l2 & l3 & Hl); [now left|].
      apply Hty, Hsame; rewrite Hl.
      - apply in_or_app. right. now left.
      - apply in_or_app. right. right. apply in_or_app. right. now left. }
    split; [exact Hnone|].
    unfold BuilderV2Relationships._extract_semantic_relationships_with_llm.
    now rewrite Hnone.
Qed.

(** ** Storage keys *)

Module KeyFacts.
Import GraphExtractor.

(** Every character of the string is of the class. *)
Fixpoint all_chars (cls : ascii -> bool) (s : string) : bool :=
  match s with
  | EmptyString => true
  | String c s' => cls c && all_chars cls s'
  end.

Definition starts_with_underscore (s : string) : bool :=
  match s with
  | String c _ => Ascii.eqb c "_"
  | EmptyString => false
  end.

Fixpoint ends_with_underscore (s : string) : bool :=
  match s with
  | EmptyString => false
  | String c EmptyString => Ascii.eqb c "_"
  | String _ s' => ends_with_underscore s'
  end.

(** A component that needs no sanitising. *)
Definition is_safe (s : string) : bool :=
  negb (String.eqb s "") && (String.length s <=? 50)%nat
  && all_chars is_key_char s
  && negb (starts_with_underscore s) && negb (ends_with_underscore s).

Lemma all_replace_unsafe s : all_chars is_key_char (replace_unsafe s) = true.
Proof.
  induction s as [|c s IH]; simpl; [reflexivity|].
  rewrite IH, andb_true_r. destruct (is_key_char c) eqn:Hc; [exact Hc | reflexivity].
Qed.

Lemma replace_unsafe_id s : all_chars is_key_char s = true -> replace_unsafe s = s.
Proof.
  induction s as [|c s IH]; simpl; [reflexivity|].
  intros Hall. apply andb_true_iff in Hall. destruct Hall as [Hc Hs].
  now rewrite Hc, IH.
Qed.

Lemma replace_unsafe_length s : String.length (replace_unsafe s) = String.length s.
Proof. induction s as [|c s IH]; simpl; [reflexivity | now rewrite IH]. Qed.

Lemma all_lstrip cls s :
  all_chars cls s = true -> all_chars cls (lstrip_underscores s) = true.
Proof.
  induction s as [|c s IH]; simpl; [reflexivity|].
  intros Hall. destruct (Ascii.eqb c "_"); [|exact Hall].
  apply IH. apply andb_true_iff in Hall. tauto.
Qed.

Lemma all_rstrip cls s :
  all_chars cls s = true -> all_chars cls (rstrip_underscores s) = true.
Proof.
  induction s as [|c s IH]; simpl; [reflexivity|].
  intros Hall. apply andb_true_iff in Hall. destruct Hall as [Hc Hs].
  specialize (IH Hs).
  destruct (rstrip_underscores s) as [|c' r].
  - destruct (Ascii.eqb c "_"); simpl; [reflexivity | now rewrite Hc].
  - change (all_chars cls (String c (String c' r)))
      with (cls c && all_chars cls (String c' r)).
    now rewrite Hc, IH.
Qed.

Lemma all_slice cls n s :
  all_chars cls s = true -> all_chars cls (PyStr.slice_to n s) = true.
Proof.
  unfold PyStr.slice_to. revert s. induction n as [|n IH]; intros s Hall.
  - destruct s; reflexivity.
  - destruct s as [|c s]; simpl; [reflexivity|].
    simpl in Hall. apply andb_true_iff in Hall. destruct Hall as [Hc Hs].
    now rewrite Hc, IH.
Qed.

Lemma slice_length n s : (String.length (PyStr.slice_to n s) <= n)%nat.
Proof.
  unfold PyStr.slice_to. revert s. induction n as [|n IH]; intros s.
  - destruct s; simpl; lia.
  - destruct s as [|c s]; simpl; [lia|]. specialize (IH s). lia.
Qed.

Lemma slice_id n s : (String.length s <= n)%nat -> PyStr.slice_to n s = s.
Proof.
  unfold PyStr.slice_to. revert s. induction n as [|n IH]; intros s Hlen.
  - destruct s; [reflexivity | simpl in Hlen; lia].
  - destruct s as [|c s]; simpl; [reflexivity|].
    simpl in Hlen. rewrite IH by lia. reflexivity.
Qed.

Lemma lstrip_start s : starts_with_underscore (lstrip_underscores s) = false.
Proof.
  induction s as [|c s IH]; simpl; [reflexivity|].
  destruct (Ascii.eqb c "_") eqn:Hc; [exact IH | exact Hc].
Qed.

Lemma slice_start n s :
  starts_with_underscore s = false -> starts_with_underscore (PyStr.slice_to n s) = false.
Proof.
  unfold PyStr.slice_to. destruct n, s; simpl; auto.
Qed.

Lemma lstrip_id s : starts_with_underscore s = false -> lstrip_underscores s = s.
Proof. destruct s as [|c s]; simpl; [reflexivity|]. now intros ->. Qed.

Lemma rstrip_id s : ends_with_underscore s = false -> rstrip_underscores s = s.
Proof.
  induction s as [|c s IH]; [reflexivity|].
  destruct s as [|c' s'].
  - simpl. now intros ->.
  - intros Hend. change (ends_with_underscore (String c (String c' s')))
      with (ends_with_underscore (String c' s')) in Hend.
    change (rstrip_underscores (String c (String c' s')))
      with (match rstrip_underscores (String c' s') with
            | EmptyString => if Ascii.eqb c "_" then EmptyString else String c EmptyString
            | r => String c r
            end).
    now rewrite (IH Hend).
Qed.

Lemma eqb_empty s : String.eqb s "" = true <-> s = "".
Proof. apply String.eqb_eq. Qed.

Lemma append_inj_r (p a b : string) : p +:+ a = p +:+ b -> a = b.
Proof.
  induction p as [|c p IH]; simpl; [tauto|].
  intros [= H0]. now apply IH.
Qed.

(** Two strings split at their first slash. *)
Lemma split_at_slash a a' r r' :
  all_chars is_key_char a = true -> all_chars is_key_char a' = true ->
  a +:+ String "/" r = a' +:+ String "/" r' -> a = a' /\ r = r'.
Proof.
  revert a'. induction a as [|c a IH]; intros [|c' a'] Ha Ha'; simpl in *.
  - intros [= ->]. now split.
  - intros [= <- _]. discriminate Ha'.
  - intros [= -> _]. discriminate Ha.
  - intros [= <- Heq].
    apply andb_true_iff in Ha, Ha'.
    destruct (IH a' (proj2 Ha) (proj2 Ha') Heq) as [-> ->]. now split.
Qed.

Lemma sanitized_shape component :
  _sanitize_s3_key_component component <> ""
  /\ (String.length (_sanitize_s3_key_component component) <= 50)%nat
  /\ all_chars is_key_char (_sanitize_s3_key_component component) = true
  /\ starts_with_underscore (_sanitize_s3_key_component component) = false.
Proof.
  unfold _sanitize_s3_key_component.
  set (sanitized := PyStr.slice_to 50 (strip_underscores (replace_unsafe component))).
  destruct (String.eqb sanitized "") eqn:Hempty.
  - repeat split; [discriminate | simpl; lia].
  - split; [|split; [|split]].
    + intros Heq. rewrite Heq in Hempty. discriminate Hempty.
    + apply slice_length.
    + apply all_slice, all_lstrip, all_rstrip, all_replace_unsafe.
    + apply slice_start, lstrip_start.
Qed.

Lemma sanitized_safe s : is_safe s = true -> _sanitize_s3_key_component s = s.
Proof.
  unfold is_safe. rewrite !andb_true_iff, !negb_true_iff, Nat.leb_le.
  intros ((((Hne & Hlen) & Hall) & Hstart) & Hend).
  unfold _sanitize_s3_key_component, strip_underscores.
  rewrite (replace_unsafe_id _ Hall), (rstrip_id _ Hend), (lstrip_id _ Hstart),
    (slice_id _ _ Hlen), Hne.
  reflexivity.
Qed.

End KeyFacts.

(** X9. [_sanitize_s3_key_component] always returns a usable key
    component: it is not empty, has at most 50 characters, all of them
    ASCII letters, digits, hyphens, underscores or dots (so no slash), and
    does not begin with an underscore. *)
Theorem sanitized_components_are_safe (component : string) :
  GraphExtractor._sanitize_s3_key_component component <> ""
  /\ (String.length (GraphExtractor._sanitize_s3_key_component component) <= 50)%nat
  /\ KeyFacts.all_chars GraphExtractor.is_key_char
       (GraphExtractor._sanitize_s3_key_component component) = true
  /\ KeyFacts.starts_with_underscore
       (GraphExtractor._sanitize_s3_key_component component) = false.
Proof.
  unfold GraphExtractor._sanitize_s3_key_component.
  set (sanitized := PyStr.slice_to 50
                      (GraphExtractor.strip_underscores
                         (GraphExtractor.replace_unsafe component))).
  destruct (String.eqb sanitized "") eqn:Hempty.
  - repeat split; [discriminate | simpl; lia].
  - split; [|split; [|split]].
    + intros Heq. rewrite Heq in Hempty. discriminate Hempty.
    + apply KeyFacts.slice_length.
    + apply KeyFacts.all_slice, KeyFacts.all_lstrip, KeyFacts.all_rstrip,
        KeyFacts.all_replace_unsafe.
    + apply KeyFacts.slice_start, KeyFacts.lstrip_start.
Qed.

(** X10. Two extractions are stored under the same prefix by
    [_build_s3_prefix] exactly when their sanitised customer ids and
    their sanitised extraction ids coincide; an id that is already safe
    (not empty, at most 50 characters of the key class, no underscore at
    either end) is kept as it is, so two different safe customer ids
    never share a prefix. *)
Theorem s3_prefix_separates_customers :
  (forall customer_id extraction_id customer_id' extraction_id',
     GraphExtractor._build_s3_prefix customer_id extraction_id
     = GraphExtractor._build_s3_prefix customer_id' extraction_id'
     <-> GraphExtractor._sanitize_s3_key_component customer_id
         = GraphExtractor._sanitize_s3_key_component customer_id'
         /\ GraphExtractor._sanitize_s3_key_component extraction_id
            = GraphExtractor._sanitize_s3_key_component extraction_id')
  /\ (forall component,
        KeyFacts.is_safe component = true ->
        GraphExtractor._sanitize_s3_key_component component = component)
  /\ (forall customer_id extraction_id customer_id' extraction_id',
        KeyFacts.is_safe customer_id = true ->
        KeyFacts.is_safe customer_id' = true ->
        customer_id <> customer_id' ->
        GraphExtractor._build_s3_prefix customer_id extraction_id
        <> GraphExtractor._build_s3_prefix customer_id' extraction_id').
Proof.
  assert (Hiff : forall customer_id extraction_id customer_id' extraction_id',
     GraphExtractor._build_s3_prefix customer_id extraction_id
     = GraphExtractor._build_s3_prefix customer_id' extraction_id'
     <-> GraphExtractor._sanitize_s3_key_component customer_id
         = GraphExtractor._sanitize_s3_key_component customer_id'
         /\ GraphExtractor._sanitize_s3_key_component extraction_id
            = GraphExtractor._sanitize_s3_key_component extraction_id').
  { intros c e c' e'. unfold GraphExtractor._build_s3_prefix. cbn zeta. split.
    - intros Heq. apply KeyFacts.append_inj_r in Heq.
      change ("/extractions/" +:+ GraphExtractor._sanitize_s3_key_component e)
        with (String "/" ("extractions/" +:+ GraphExtractor._sanitize_s3_key_component e))
        in Heq.
      change ("/extractions/" +:+ GraphExtractor._sanitize_s3_key_component e')
        with (String "/" ("extractions/" +:+ GraphExtractor._sanitize_s3_key_component e'))
        in Heq.
      apply KeyFacts.split_at_slash in Heq;
        [|apply KeyFacts.sanitized_shape | apply KeyFacts.sanitized_shape].
      destruct Heq as [Hc He]. split; [exact Hc|].
      now apply KeyFacts.append_inj_r in He.
    - intros [-> ->]. reflexivity. }
  split; [exact Hiff|]. split; [exact KeyFacts.sanitized_safe|].
  intros c e c' e' Hc Hc' Hne Heq. apply Hiff in Heq. destruct Heq as [Heq _].
  rewrite (KeyFacts.sanitized_safe _ Hc), (KeyFacts.sanitized_safe _ Hc') in Heq.
  now apply Hne.
Qed.

(** ** Error categories and responses *)

Module ErrorFacts.
Import GraphExtractor.

Lemma lower_app (a b : string) : PyStr.lower (a +:+ b) = PyStr.lower a +:+ PyStr.lower b.
Proof. induction a as [|c a IH]; simpl; [reflexivity | now rewrite IH]. Qed.

Lemma prefix_app (sub a b : string) :
  String.prefix sub a = true -> String.prefix sub (a +:+ b) = true.
Proof.
  revert a. induction sub as [|c sub IH]; intros a.
  - intros _. destruct (a +:+ b); reflexivity.
  - destruct a as [|c' a]; simpl; [discriminate|].
    destruct (ascii_dec c c'); [apply IH | discriminate].
Qed.

Lemma contains_app_l (sub a b : string) :
  PyStr.contains sub a = true -> PyStr.contains sub (a +:+ b) = true.
Proof.
  induction a as [|c a IH].
  - simpl. rewrite orb_false_r. destruct sub; [|discriminate].
    intros _. destruct b; reflexivity.
  - change (PyStr.contains sub (String c a))
      with (String.prefix sub (String c a) || PyStr.contains sub a).
    change (PyStr.contains sub (String c a +:+ b))
      with (String.prefix sub (String c a +:+ b) || PyStr.contains sub (a +:+ b)).
    intros H0. apply orb_true_iff in H0. apply orb_true_iff.
    destruct H0 as [H0|H0]; [left; now apply prefix_app | right; now apply IH].
Qed.

(** The categories [categorize_error] gives its own exception class. *)
Lemma categorize_own message :
  let category := categorize_error (GraphExtractionError message) in
  (category = "VALIDATION_ERROR" \/ category = "PARSING_ERROR"
   \/ category = "INTERNAL_ERROR").
Proof.
  unfold categorize_error. cbn zeta.
  destruct (_ || _); [now left|]. destruct (_ || _); [right; now left | right; now right].
Qed.

(** A message that names the validation category keeps it when the
    error is categorised again. *)
Lemma wrapped_validation (rest : string) :
  categorize_error
    (GraphExtractionError ("Failed to extract graph data (" +:+ "VALIDATION_ERROR" +:+ rest))
  = "VALIDATION_ERROR".
Proof.
  unfold categorize_error. cbn [str].
  replace ("Failed to extract graph data (" +:+ "VALIDATION_ERROR" +:+ rest)
    with (("Failed to extract graph data (" +:+ "VALIDATION_ERROR") +:+ rest)
    by reflexivity.
  rewrite lower_app.
  rewrite (contains_app_l "validation"); [reflexivity|].
  vm_compute. reflexivity.
Qed.

Lemma response_of_own sanitize_message message :
  let response := lambda_handler_error sanitize_message (GraphExtractionError message) in
  let category := categorize_error (GraphExtractionError message) in
  error_category response = category
  /\ error_info response = Some (get_error_info category)
  /\ statusCode response
     = (if among category ["VALIDATION_ERROR"; "PARSING_ERROR"] then 400 else 500)%Z.
Proof. cbn zeta. unfold lambda_handler_error. simpl. auto. Qed.

Lemma validation_messages_categorised message :
  message = "Valid customer_id is required" \/ message = "Hypergraph data is required" ->
  categorize_error (GraphExtractionError message) = "VALIDATION_ERROR".
Proof. intros [-> | ->]; vm_compute; reflexivity. Qed.

End ErrorFacts.

(** X11. Whatever fails inside [extract_graph_data], storage included, is
    answered by [lambda_handler] as a validation, parsing or internal
    error, never as a storage error and never as one to retry; the status
    is 400 for a validation or parsing error and 500 otherwise.  A failure
    that [extract_graph_data] categorised as a validation error is
    answered as a validation error, with status 400. *)
Theorem handler_never_reports_storage_errors (sanitize_message : string -> string)
    (e : GraphExtractor.Error) :
  let response :=
    GraphExtractor.lambda_handler_error sanitize_message
      (GraphExtractor.extract_graph_data_error sanitize_message e) in
  (GraphExtractor.error_category response = "VALIDATION_ERROR"
   /\ GraphExtractor.statusCode response = 400%Z
   \/ GraphExtractor.error_category response = "PARSING_ERROR"
      /\ GraphExtractor.statusCode response = 400%Z
   \/ GraphExtractor.error_category response = "INTERNAL_ERROR"
      /\ GraphExtractor.statusCode response = 500%Z)
  /\ (exists info, GraphExtractor.error_info response = Some info
                   /\ GraphExtractor.retry info = false)
  /\ (GraphExtractor.categorize_error e = "VALIDATION_ERROR" ->
      GraphExtractor.error_category response = "VALIDATION_ERROR"
      /\ GraphExtractor.statusCode response = 400%Z).
Proof.
  cbn zeta. unfold GraphExtractor.extract_graph_data_error.
  set (message := "Failed to extract graph data (" +:+ GraphExtractor.categorize_error e
                  +:+ "): " +:+ sanitize_message (GraphExtractor.str e)).
  destruct (ErrorFacts.response_of_own sanitize_message message) as (Hcat & Hinfo & Hstatus).
  rewrite Hcat, Hinfo, Hstatus.
  split; [|split].
  - destruct (ErrorFacts.categorize_own message) as [-> | [-> | ->]];
      [left | right; left | right; right]; now split.
  - eexists. split; [reflexivity|].
    destruct (ErrorFacts.categorize_own message) as [-> | [-> | ->]]; reflexivity.
  - intros Hinner. unfold message. rewrite Hinner.
    rewrite ErrorFacts.wrapped_validation. now split.
Qed.

(** ** The inputs of an extraction *)

Module InputFacts.
Import PyVal GraphExtractor.

Lemma has_hypergraph_graph (data : Dict) :
  has_hypergraph data = true -> has_graph data = true.
Proof. unfold has_graph, has_hypergraph. now intros ->. Qed.

Lemma find_in_body_accepts accept body found :
  find_in_body accept body = Some found -> accept found = true.
Proof.
  unfold find_in_body. destruct body as [| | | | |l|body]; try discriminate.
  destruct (PyDict.get body "result") as [[| | | | | |nested]|];
    try (destruct (accept body) eqn:Hbody; [now intros [= <-] | discriminate]).
  destruct (accept nested) eqn:Hnested; [now intros [= <-]|].
  destruct (accept body) eqn:Hbody; [now intros [= <-] | discriminate].
Qed.

(** What a search returns: nothing, or a dictionary with both keys of a
    format. *)
Definition found_or_empty (data : Dict) : Prop :=
  data = PyDict.empty \/ has_graph data = true.

Lemma strategy_payload_shape json_loads data found :
  strategy_payload json_loads data = Some found -> found_or_empty found.
Proof.
  unfold strategy_payload.
  destruct (PyDict.get data "Payload") as [[| | | | | |payload]|]; try discriminate.
  destruct (has payload "statusCode" && has payload "body"); [|discriminate].
  destruct (parse_body json_loads (PyDict.get_default payload "body" PNone)) as [body|].
  - intros Hfound. right. now apply find_in_body_accepts in Hfound.
  - intros [= <-]. now left.
Qed.

Lemma try_parse_shape json_loads data :
  found_or_empty (_try_parse_hypergraph_data json_loads data).
Proof.
  unfold _try_parse_hypergraph_data.
  destruct data as [| | | | |l|data]; try (now left).
  destruct (has_graph data) eqn:Hgraph; [now right|].
  destruct (strategy_payload json_loads data) as [found|] eqn:Hpayload;
    [now apply (strategy_payload_shape json_loads data)|].
  destruct (has data "statusCode" && has data "body").
  - destruct (parse_body json_loads (PyDict.get_default data "body" PNone)) as [body|];
      [|now left].
    destruct (find_in_body has_graph body) as [found|] eqn:Hfound; [|now left].
    right. now apply find_in_body_accepts in Hfound.
  - destruct (has data "body").
    + destruct (parse_body json_loads (PyDict.get_default data "body" PNone)) as [body|];
        [|now left].
      destruct (find_in_body has_hypergraph body) as [found|] eqn:Hfound; [|now left].
      right. apply has_hypergraph_graph. now apply find_in_body_accepts in Hfound.
    + destruct (PyDict.get data "result") as [[| | | | | |nested]|]; try (now left).
      destruct (has_hypergraph nested) eqn:Hnested; [|now left].
      right. now apply has_hypergraph_graph.
Qed.

Lemma extract_shape json_loads event :
  found_or_empty (_extract_hypergraph_data json_loads event).
Proof.
  unfold _extract_hypergraph_data. cbn zeta.
  destruct (truthy (PDict (_try_parse_hypergraph_data json_loads
                             (PyDict.get_default event "result" (PDict []))))).
  - apply try_parse_shape.
  - destruct (PyDict.get_default event "result" (PDict [])) as [| | | |s| |];
      try (destruct (has event "hypernodes" && has event "hyperedges") eqn:Hevent;
           [right; now apply has_hypergraph_graph | now left]).
    destruct (json_loads s) as [result|];
      [destruct (truthy (PDict (_try_parse_hypergraph_data json_loads result)));
       [apply try_parse_shape|]|];
      (destruct (has event "hypernodes" && has event "hyperedges") eqn:Hevent;
       [right; now apply has_hypergraph_graph | now left]).
Qed.

Lemma has_graph_truthy (data : Dict) :
  has_graph data = true -> truthy (PDict data) = true.
Proof. destruct data; [discriminate | reflexivity]. Qed.

Lemma has_graph_some_key (data : Dict) :
  has_graph data = true ->
  negb (has data "hypernodes" || has data "hyperedges")
  && negb (has data "nodes" || has data "edges") = false.
Proof.
  unfold has_graph.
  destruct (has data "hypernodes"), (has data "hyperedges"),
    (has data "nodes"), (has data "edges"); simpl; congruence.
Qed.

End InputFacts.

(** X12. [_extract_hypergraph_data] returns the empty dictionary or a
    dictionary that holds both keys of a format ([hypernodes] and
    [hyperedges], or [nodes] and [edges]).  So on what it returns
    [_validate_inputs] raises only its first two errors, both of which are
    categorised as validation errors and answered with status 400; when
    it raises nothing the customer id is true and not the fallback
    ['unknown_customer'] and the data holds both keys of a format. *)
Theorem validation_of_extracted_inputs (json_loads : string -> option PyVal.t)
    (sanitize_message : string -> string)
    (event : GraphExtractor.Dict) (customer_id : PyVal.t) :
  let data := GraphExtractor._extract_hypergraph_data json_loads event in
  (data = PyDict.empty \/ GraphExtractor.has_graph data = true)
  /\ match GraphExtractor._validate_inputs customer_id data with
     | Some message =>
         (message = "Valid customer_id is required"
          \/ message = "Hypergraph data is required")
         /\ GraphExtractor.categorize_error (GraphExtractor.GraphExtractionError message)
            = "VALIDATION_ERROR"
         /\ GraphExtractor.statusCode
              (GraphExtractor.lambda_handler_error sanitize_message
                 (GraphExtractor.extract_graph_data_error sanitize_message
                    (GraphExtractor.GraphExtractionError message)))
            = 400%Z
     | None =>
         PyVal.truthy customer_id = true
         /\ customer_id <> PyVal.PStr "unknown_customer"
         /\ GraphExtractor.has_graph data = true
     end.
Proof.
  cbn zeta.
  pose proof (InputFacts.extract_shape json_loads event) as Hshape.
  split; [exact Hshape|].
  assert (Hmsg : forall message,
            message = "Valid customer_id is required"
            \/ message = "Hypergraph data is required" ->
            (message = "Valid customer_id is required"
             \/ message = "Hypergraph data is required")
            /\ GraphExtractor.categorize_error (GraphExtractor.GraphExtractionError message)
               = "VALIDATION_ERROR"
            /\ GraphExtractor.statusCode
                 (GraphExtractor.lambda_handler_error sanitize_message
                    (GraphExtractor.extract_graph_data_error sanitize_message
                       (GraphExtractor.GraphExtractionError message)))
               = 400%Z).
  { intros message Hm. split; [exact Hm|].
    pose proof (ErrorFacts.validation_messages_categorised message Hm) as Hcat.
    split; [exact Hcat|].
    unfold GraphExtractor.extract_graph_data_error. rewrite Hcat.
    destruct (ErrorFacts.response_of_own sanitize_message
                ("Failed to extract graph data (" +:+ "VALIDATION_ERROR" +:+ "): "
                 +:+ sanitize_message
                       (GraphExtractor.str (GraphExtractor.GraphExtractionError message))))
      as (_ & _ & ->).
    now rewrite ErrorFacts.wrapped_validation. }
  unfold GraphExtractor._validate_inputs.
  destruct (PyVal.truthy customer_id) eqn:Htruthy; cbn [negb orb];
    [|apply Hmsg; now left].
  destruct (GraphExtractor.is_unknown_customer customer_id) eqn:Hunknown;
    [apply Hmsg; now left|].
  assert (Hne : customer_id <> PyVal.PStr "unknown_customer").
  { intros ->. discriminate Hunknown. }
  destruct Hshape as [Hempty|Hgraph].
  - rewrite Hempty. cbn [PyVal.truthy PyDict.empty negb]. apply Hmsg. now right.
  - rewrite (InputFacts.has_graph_truthy _ Hgraph). cbn [negb].
    rewrite (InputFacts.has_graph_some_key _ Hgraph). auto.
Qed.

Module CustomerFacts.
Import PyVal GraphExtractor.

Lemma validate_unknown customer_id data :
  truthy customer_id = true ->
  (_validate_inputs customer_id data = Some "Valid customer_id is required"
   <-> customer_id = PStr "unknown_customer").
Proof.
  intros Htruthy. unfold _validate_inputs. rewrite Htruthy. cbn [negb orb]. split.
  - destruct (is_unknown_customer customer_id) eqn:Hunknown.
    + intros _. destruct customer_id; try discriminate Hunknown.
      simpl in Hunknown. apply String.eqb_eq in Hunknown. now subst.
    + destruct (negb (truthy (PDict data))); [intros H0; discriminate H0|].
      destruct (_ && _); intros H0; discriminate H0.
  - intros ->. reflexivity.
Qed.

Fixpoint has_slash (s : string) : bool :=
  match s with
  | EmptyString => false
  | String c s' => Ascii.eqb c "/" || has_slash s'
  end.

Lemma remove_slashes_clean s : has_slash (remove_slashes s) = false.
Proof.
  induction s as [|c s IH]; simpl; [reflexivity|].
  destruct (Ascii.eqb c "/") eqn:Hc; simpl; [exact IH | now rewrite Hc].
Qed.

End CustomerFacts.

(** X13. [_extract_customer_id] prefers a true top-level [customer_id],
    which it returns without looking at [agent_spec]; whatever it returns
    is true (never empty), and [_validate_inputs] rejects it as a customer
    id exactly when it is the fallback ['unknown_customer'].  An id that is
    neither the top-level one nor the configured one is the configured
    folder without its slashes, or the fallback. *)
Theorem extract_customer_id_spec (event : GraphExtractor.Dict) :
  (PyVal.truthy (PyDict.get_default event "customer_id" PyVal.PNone) = true ->
   GraphExtractor._extract_customer_id event
   = Some (PyDict.get_default event "customer_id" PyVal.PNone))
  /\ (forall customer_id,
        GraphExtractor._extract_customer_id event = Some customer_id ->
        PyVal.truthy customer_id = true
        /\ (forall data,
              GraphExtractor._validate_inputs customer_id data
              = Some "Valid customer_id is required"
              <-> customer_id = PyVal.PStr "unknown_customer")
        /\ (customer_id = PyDict.get_default event "customer_id" PyVal.PNone
            \/ (exists config,
                  GraphExtractor.processing_config event = Some (PyVal.PDict config)
                  /\ (customer_id = PyDict.get_default config "customer_id" PyVal.PNone
                      \/ exists name,
                           customer_id = PyVal.PStr name
                           /\ CustomerFacts.has_slash name = false)))).
Proof.
  split.
  - intros Htop. unfold GraphExtractor._extract_customer_id. cbn zeta. now rewrite Htop.
  - intros customer_id Hid.
    assert (Hgoal : PyVal.truthy customer_id = true
              /\ (customer_id = PyDict.get_default event "customer_id" PyVal.PNone
                  \/ (exists config,
                        GraphExtractor.processing_config event = Some (PyVal.PDict config)
                        /\ (customer_id = PyDict.get_default config "customer_id" PyVal.PNone
                            \/ exists name,
                                 customer_id = PyVal.PStr name
                                 /\ CustomerFacts.has_slash name = false)))).
    { unfold GraphExtractor._extract_customer_id in Hid. cbn zeta in Hid.
      destruct (PyVal.truthy (PyDict.get_default event "customer_id" PyVal.PNone)) eqn:Htop.
      - injection Hid as <-. split; [exact Htop | now left].
      - destruct (GraphExtractor.processing_config event) as [config|] eqn:Hconfig;
          [|discriminate Hid].
        cbn [mbind option_bind] in Hid.
        destruct config as [| | | | | |config]; try discriminate Hid.
        cbn [mbind option_bind GraphExtractor.get_of] in Hid.
        destruct (PyVal.truthy (PyDict.get_default config "customer_id" PyVal.PNone))
          eqn:Hconfigured.
        + injection Hid as <-. split; [exact Hconfigured|].
          right. exists config. split; [reflexivity | now left].
        + destruct (PyDict.get_default config "customer_folder" (PyVal.PStr ""))
            as [| | | |folder| |]; try discriminate Hid.
          destruct (PyVal.truthy (PyVal.PStr (GraphExtractor.remove_slashes folder)))
            eqn:Hname; injection Hid as <-.
          * split; [exact Hname|]. right. exists config. split; [reflexivity|].
            right. eexists. split; [reflexivity|].
            apply CustomerFacts.remove_slashes_clean.
          * split; [reflexivity|]. right. exists config. split; [reflexivity|].
            right. eexists. split; reflexivity. }
    destruct Hgoal as [Htruthy Horigin].
    split; [exact Htruthy|]. split; [|exact Horigin].
    intros data. now apply CustomerFacts.validate_unknown.
Qed.

(** ** Redaction of sensitive entries *)

Module SanitizerFacts.
Import PyVal GraphExtractor.

(** The entries of a value that are reached through dictionaries alone:
    those of a dictionary and of the dictionaries among its values. *)
Fixpoint entries (v : PyVal.t) : list (string * PyVal.t) :=
  match v with
  | PDict items =>
      flat_map (fun item => match item with
                            | (key, value) => (key, value) :: entries value
                            end) items
  | _ => []
  end.

(** Induction on a value along the dictionaries in it. *)
Lemma dict_ind (P : PyVal.t -> Prop) :
  (forall v, (forall items, v <> PDict items) -> P v) ->
  (forall items, (forall key value, In (key, value) items -> P value) -> P (PDict items)) ->
  forall v, P v.
Proof.
  intros Hother Hdict. fix IH 1. intros v.
  destruct v as [| | | | | |items]; try (apply Hother; intros items' H0; discriminate H0).
  apply Hdict. induction items as [|[k x] items IHitems]; intros key value Hin.
  - destruct Hin.
  - destruct Hin as [Heq|Hin].
    + injection Heq as _ <-. apply IH.
    + exact (IHitems key value Hin).
Qed.

Section Redaction.
Variable sanitize_message : string -> string.

(** What the loop of [sanitize_dict] stores for a value under a key that
    is not sensitive. *)
Definition cleaned (value : PyVal.t) : PyVal.t :=
  match value with
  | PDict _ => sanitize_dict sanitize_message value
  | PStr s => PStr (sanitize_message s)
  | _ => value
  end.

Definition stored (key : string) (value : PyVal.t) : PyVal.t :=
  if is_sensitive key then PStr "[REDACTED]" else cleaned value.

Definition store_all (items sanitized : Dict) : Dict :=
  fold_left (fun sanitized item =>
               match item with
               | (key, value) => PyDict.set sanitized key (stored key value)
               end) items sanitized.

Lemma sanitize_dict_items items :
  sanitize_dict sanitize_message (PDict items) = PDict (store_all items PyDict.empty).
Proof. reflexivity. Qed.

Lemma store_all_nodup items sanitized :
  List.NoDup (PyDict.keys sanitized) -> List.NoDup (PyDict.keys (store_all items sanitized)).
Proof.
  unfold store_all. revert sanitized.
  induction items as [|[key value] items IH]; intros sanitized Hnd; simpl; [exact Hnd|].
  apply IH. now apply PyDictFacts.NoDup_keys_set.
Qed.

Lemma store_all_In items sanitized key value :
  List.NoDup (PyDict.keys sanitized) ->
  In (key, value) (store_all items sanitized) ->
  In (key, value) sanitized
  \/ exists original, In (key, original) items /\ value = stored key original.
Proof.
  unfold store_all. revert sanitized.
  induction items as [|[key0 value0] items IH]; intros sanitized Hnd Hin; simpl in Hin.
  - now left.
  - apply IH in Hin; [|now apply PyDictFacts.NoDup_keys_set].
    destruct Hin as [Hin|(original & Hin & Hv)].
    + apply PyDictFacts.In_set_inv in Hin; [|assumption].
      destruct Hin as [[-> ->]|[_ Hin]]; [|now left].
      right. exists value0. split; [now left | reflexivity].
    + right. exists original. split; [now right | assumption].
Qed.

Lemma store_all_keeps items sanitized key :
  In key (PyDict.keys sanitized) -> In key (PyDict.keys (store_all items sanitized)).
Proof.
  unfold store_all. revert sanitized.
  induction items as [|[key0 value0] items IH]; intros sanitized Hin; simpl; [exact Hin|].
  apply IH. now apply PyDictFacts.keys_set_incl.
Qed.

Lemma store_all_keys items sanitized key :
  List.NoDup (PyDict.keys sanitized) ->
  (In key (PyDict.keys (store_all items sanitized))
   <-> In key (PyDict.keys sanitized) \/ In key (PyDict.keys items)).
Proof.
  intros Hnd. split.
  - intros Hin. unfold PyDict.keys in Hin. apply in_map_iff in Hin.
    destruct Hin as ([k v] & Hk & Hin). simpl in Hk. subst k.
    apply store_all_In in Hin; [|assumption].
    destruct Hin as [Hin|(original & Hin & _)].
    + left. now apply (PyDictFacts.In_keys _ key v).
    + right. now apply (PyDictFacts.In_keys _ key original).
  - intros [Hin|Hin]; [now apply store_all_keeps|].
    clear Hnd. revert sanitized.
    induction items as [|[key0 value0] items IH]; intros sanitized; [destruct Hin|].
    destruct Hin as [Heq|Hin].
    + simpl in Heq. subst key0.
      change (store_all ((key, value0) :: items) sanitized)
        with (store_all items (PyDict.set sanitized key (stored key value0))).
      apply store_all_keeps, PyDictFacts.key_in_set.
    + change (store_all ((key0, value0) :: items) sanitized)
        with (store_all items (PyDict.set sanitized key0 (stored key0 value0))).
      now apply IH.
Qed.

Lemma entries_cleaned_leaf value :
  (forall items, value <> PDict items) -> entries (cleaned value) = [].
Proof.
  intros Hleaf. destruct value as [| | | | | |items]; try reflexivity.
  now destruct (Hleaf items).
Qed.

Lemma redacts_at_depth data key value :
  In (key, value) (entries (sanitize_dict sanitize_message data)) ->
  is_sensitive key = true -> value = PStr "[REDACTED]".
Proof.
  revert key value. induction data as [v Hleaf|items IH] using dict_ind; intros key value.
  - destruct v as [| | | | | |items]; try (intros []). now destruct (Hleaf items).
  - rewrite sanitize_dict_items.
    change (entries (PDict (store_all items PyDict.empty)))
      with (flat_map (fun item : string * PyVal.t =>
                        match item with
                        | (key, value) => (key, value) :: entries value
                        end) (store_all items PyDict.empty)).
    intros Hin Hkey. apply in_flat_map in Hin.
    destruct Hin as ([key0 value0] & Hitem & Hin).
    apply store_all_In in Hitem; [|constructor].
    destruct Hitem as [[]|(original & Horiginal & ->)].
    destruct Hin as [Heq|Hin].
    + injection Heq as <- <-. unfold stored. now rewrite Hkey.
    + unfold stored in Hin. destruct (is_sensitive key0); [destruct Hin|].
      destruct original as [| | | | | |nested]; try (destruct Hin).
      exact (IH key0 (PDict nested) Horiginal key value Hin Hkey).
Qed.

End Redaction.
End SanitizerFacts.

(** X14. [sanitize_dict] redacts every entry with a sensitive key, at
    every depth reached through nested dictionaries: each such entry of
    the result holds ['[REDACTED]'].  The result of a dictionary is a
    dictionary with the same keys; under a key that is not sensitive a
    dictionary is sanitised in turn, a string goes through
    [sanitize_message], and any other value, a list with all it holds
    included, is returned as it is.  A value that is not a dictionary is
    returned unchanged. *)
Theorem sanitize_dict_redacts (sanitize_message : string -> string) (data : PyVal.t) :
  (forall key value,
     In (key, value)
        (SanitizerFacts.entries (GraphExtractor.sanitize_dict sanitize_message data)) ->
     GraphExtractor.is_sensitive key = true -> value = PyVal.PStr "[REDACTED]")
  /\ (forall items,
        data = PyVal.PDict items ->
        exists sanitized,
          GraphExtractor.sanitize_dict sanitize_message data = PyVal.PDict sanitized
          /\ List.NoDup (PyDict.keys sanitized)
          /\ (forall key, In key (PyDict.keys sanitized) <-> In key (PyDict.keys items))
          /\ (forall key value,
                In (key, value) sanitized ->
                GraphExtractor.is_sensitive key = false ->
                exists original,
                  In (key, original) items
                  /\ value
                     = match original with
                       | PyVal.PDict _ =>
                           GraphExtractor.sanitize_dict sanitize_message original
                       | PyVal.PStr s => PyVal.PStr (sanitize_message s)
                       | _ => original
                       end))
  /\ ((forall items, data <> PyVal.PDict items) ->
      GraphExtractor.sanitize_dict sanitize_message data = data).
Proof.
  split; [|split].
  - intros key value. apply SanitizerFacts.redacts_at_depth.
  - intros items ->. exists (SanitizerFacts.store_all sanitize_message items PyDict.empty).
    split; [reflexivity|]. split; [|split].
    + apply SanitizerFacts.store_all_nodup. constructor.
    + intros key. rewrite SanitizerFacts.store_all_keys by constructor.
      simpl. tauto.
    + intros key value Hin Hkey.
      apply SanitizerFacts.store_all_In in Hin; [|constructor].
      destruct Hin as [[]|(original & Horiginal & ->)].
      exists original. split; [assumption|].
      unfold SanitizerFacts.stored. now rewrite Hkey.
  - intros Hleaf. destruct data as [| | | | | |items]; try reflexivity.
    now destruct (Hleaf items).
Qed.

(** ** The statistics of the manifest *)

Module ManifestFacts.
Import PyVal GraphExtraction.

Lemma count_node_types_tally nodes :
  GraphExtractor._count_node_types nodes
  = CountFacts.tally (map ExtractedNode.node_type nodes) PyDict.empty.
Proof.
  rewrite <- CountFacts.fold_bump_map. reflexivity.
Qed.

Lemma count_edge_types_tally edges :
  GraphExtractor._count_edge_types edges
  = CountFacts.tally (map ExtractedEdge.relationship_type edges) PyDict.empty.
Proof.
  rewrite <- CountFacts.fold_bump_map. reflexivity.
Qed.

End ManifestFacts.

(** X15. The statistics of the manifest count exactly, and on what the
    parser extracts they list supported types only.  [_count_node_types]
    and [_count_edge_types] hold one entry per type that occurs, with the
    number of nodes (edges) of that type, and the entries add up to the
    number of nodes (edges); for the nodes and edges that [_extract_nodes]
    and [_extract_edges] return, every type counted is one of the
    supported node (edge) types. *)
Theorem manifest_statistics_count_types
    (sha256_hexdigest : string -> string) (str_of_value : PyVal.t -> string)
    (float_of_string : string -> option PyVal.pyfloat)
    (update_from_iterable : GraphExtraction.Dict -> PyVal.t -> option GraphExtraction.Dict)
    (clock : nat -> string)
    (hypernodes hyperedges : list GraphExtraction.Dict)
    (customer_id source_file : string) :
  let nodes :=
    GraphExtraction._extract_nodes sha256_hexdigest str_of_value float_of_string
      update_from_iterable clock hypernodes customer_id source_file in
  let edges :=
    GraphExtraction._extract_edges sha256_hexdigest str_of_value float_of_string
      clock hyperedges customer_id source_file in
  (forall (all_nodes : list GraphExtraction.ExtractedNode.t),
     let counts := GraphExtractor._count_node_types all_nodes in
     List.NoDup (PyDict.keys counts)
     /\ CountFacts.total counts = Z.of_nat (List.length all_nodes)
     /\ forall node_type count,
          In (node_type, count) counts ->
          (1 <= count)%Z
          /\ count
             = Z.of_nat (List.length
                 (List.filter
                    (fun node =>
                       bool_decide (GraphExtraction.ExtractedNode.node_type node = node_type))
                    all_nodes)))
  /\ (forall (all_edges : list GraphExtraction.ExtractedEdge.t),
     let counts := GraphExtractor._count_edge_types all_edges in
     List.NoDup (PyDict.keys counts)
     /\ CountFacts.total counts = Z.of_nat (List.length all_edges)
     /\ forall edge_type count,
          In (edge_type, count) counts ->
          (1 <= count)%Z
          /\ count
             = Z.of_nat (List.length
                 (List.filter
                    (fun edge =>
                       bool_decide
                         (GraphExtraction.ExtractedEdge.relationship_type edge = edge_type))
                    all_edges)))
  /\ (forall node_type count,
        In (node_type, count) (GraphExtractor._count_node_types nodes) ->
        node_type ∈ GraphExtraction.supported_node_types)
  /\ (forall edge_type count,
        In (edge_type, count) (GraphExtractor._count_edge_types edges) ->
        edge_type ∈ GraphExtraction.supported_edge_types).
Proof.
  cbn zeta. split; [|split; [|split]].
  - intros all_nodes. rewrite ManifestFacts.count_node_types_tally.
    split; [apply CountFacts.tally_nodup; constructor|]. split.
    + rewrite CountFacts.tally_total, List.length_map. reflexivity.
    + intros node_type count Hin. apply CountFacts.tally_entry in Hin.
      destruct Hin as [Hk ->]. split; [now apply CountFacts.occurrences_pos|].
      apply CountFacts.occurrences_map.
  - intros all_edges. rewrite ManifestFacts.count_edge_types_tally.
    split; [apply CountFacts.tally_nodup; constructor|]. split.
    + rewrite CountFacts.tally_total, List.length_map. reflexivity.
    + intros edge_type count Hin. apply CountFacts.tally_entry in Hin.
      destruct Hin as [Hk ->]. split; [now apply CountFacts.occurrences_pos|].
      apply CountFacts.occurrences_map.
  - intros node_type count Hin. rewrite ManifestFacts.count_node_types_tally in Hin.
    apply CountFacts.tally_entry in Hin. destruct Hin as [Hk _].
    apply in_map_iff in Hk. destruct Hk as (node & <- & Hnode).
    unfold GraphExtraction._extract_nodes in Hnode.
    apply (extract_nodes_from_inv sha256_hexdigest str_of_value float_of_string
             update_from_iterable) in Hnode.
    destruct Hnode as (tick & hypernode & _ & Htry).
    apply try_extract_node_inv in Htry.
    destruct Htry as (requested & _ & -> & _).
    apply normalised_supported, concept_supported.
  - intros edge_type count Hin. rewrite ManifestFacts.count_edge_types_tally in Hin.
    apply CountFacts.tally_entry in Hin. destruct Hin as [Hk _].
    apply in_map_iff in Hk. destruct Hk as (edge & <- & Hedge).
    unfold GraphExtraction._extract_edges in Hedge.
    apply (extract_edges_from_inv sha256_hexdigest str_of_value float_of_string
             update_from_iterable) in Hedge.
    destruct Hedge as (tick & hyperedge & _ & Htry).
    apply try_extract_edge_inv in Htry.
    destruct Htry as (requested & _ & Hty & _). rewrite Hty.
    apply normalised_supported, relates_to_supported.
Qed.

(** ** Scores read from the model's answer *)

Module LlmFacts.
Import PyVal NeedsAnalysis NeedsLlm.

Lemma Qle_bool_false (a b : Q) : Qle_bool a b = false -> b < a.
Proof.
  intros H0. apply Qnot_le_lt. intros Hle. apply Qle_bool_iff in Hle. congruence.
Qed.

Lemma clamped_range (x : pyfloat) : 0 <= clamped x /\ clamped x <= 1.
Proof.
  unfold clamped, fmax, fmin, flt. destruct x as [q| | |]; simpl; try lra.
  destruct (Qle_bool q 1) eqn:H1; simpl.
  - apply Qle_bool_iff in H1.
    destruct (Qle_bool q 0) eqn:H0; simpl; [lra|].
    apply Qle_bool_false in H0. lra.
  - lra.
Qed.

(** Every entry is a [Decimal] between 0 and 1. *)
Definition decimals (scores : PyDict.t HumanNeed number) : Prop :=
  forall need v, In (need, v) scores -> exists q, v = Dec q /\ 0 <= q /\ q <= 1.

Lemma In_set_cases {K V} `{EqDecision K} (d : PyDict.t K V) k v k' v' :
  In (k', v') (PyDict.set d k v) -> (k' = k /\ v' = v) \/ In (k', v') d.
Proof.
  induction d as [|[k0 v0] d IH]; simpl.
  - intros [[= <- <-]|[]]. now left.
  - destruct (decide (k0 = k)) as [->|Hne]; simpl.
    + intros [[= <- <-]|Hin]; [now left | right; now right].
    + intros [Heq|Hin]; [right; now left|].
      destruct (IH Hin) as [?|?]; [now left | right; now right].
Qed.

Lemma decimals_set scores need q :
  decimals scores -> 0 <= q -> q <= 1 -> decimals (PyDict.set scores need (Dec q)).
Proof.
  intros Hd H0 H1 need' v Hin. apply In_set_cases in Hin.
  destruct Hin as [[_ ->]|Hin]; [now exists q | now apply (Hd need')].
Qed.

Lemma decimals_empty : decimals PyDict.empty.
Proof. intros need v []. Qed.

Lemma score_loop_decimals json_float parsed_content needs scores :
  decimals scores ->
  match score_loop json_float parsed_content needs scores with
  | LoopDone scores' =>
      decimals scores'
      /\ forall need, In need needs \/ In need (PyDict.keys scores) ->
                      In need (PyDict.keys scores')
  | LoopCaught scores' => decimals scores'
  | LoopEscaped => True
  end.
Proof.
  revert scores. induction needs as [|need rest IH]; intros scores Hd; simpl.
  - split; [exact Hd|]. intros need [[]|Hin]. exact Hin.
  - destruct (value_in (value need) parsed_content) as [[|]| |]; [| |exact Hd|exact I].
    + destruct parsed_content as [| | | | | |d]; try exact I.
      destruct (float_of json_float _) as [x| |]; [|exact Hd|exact I].
      pose proof (clamped_range x) as [H0 H1].
      specialize (IH _ (decimals_set scores need _ Hd H0 H1)).
      destruct (score_loop json_float (PDict d) rest _) as [scores'|scores'|];
        [|exact IH|exact I].
      destruct IH as [Hd' Hkeys]. split; [exact Hd'|].
      intros need' [[<-|Hin]|Hin]; apply Hkeys.
      * right. apply PyDictFacts.key_in_set.
      * now left.
      * right. now apply PyDictFacts.keys_set_incl.
    + assert (H0 : 0 <= 3 # 10) by lra. assert (H1 : 3 # 10 <= 1) by lra.
      specialize (IH _ (decimals_set scores need _ Hd H0 H1)).
      destruct (score_loop json_float parsed_content rest _) as [scores'|scores'|];
        [|exact IH|exact I].
      destruct IH as [Hd' Hkeys]. split; [exact Hd'|].
      intros need' [[<-|Hin]|Hin]; apply Hkeys.
      * right. apply PyDictFacts.key_in_set.
      * now left.
      * right. now apply PyDictFacts.keys_set_incl.
Qed.

Lemma fallback_fold (items : list (HumanNeed * Q)) scores :
  decimals scores ->
  (forall item, In item items -> 0 <= snd item /\ snd item <= 1) ->
  let result :=
    fold_left (fun scores item => PyDict.set scores (fst item) (Dec (snd item)))
              items scores in
  decimals result
  /\ forall need, In need (map fst items) \/ In need (PyDict.keys scores) ->
                  In need (PyDict.keys result).
Proof.
  cbn zeta. revert scores. induction items as [|item items IH]; intros scores Hd Hitems.
  - split; [exact Hd|]. intros need [[]|Hin]. exact Hin.
  - simpl. destruct (Hitems item (or_introl eq_refl)) as [H0 H1].
    destruct (IH _ (decimals_set scores (fst item) _ Hd H0 H1)
                 (fun i Hi => Hitems i (or_intror Hi))) as [Hd' Hkeys].
    split; [exact Hd'|].
    intros need [[<-|Hin]|Hin]; apply Hkeys.
    + right. apply PyDictFacts.key_in_set.
    + now left.
    + right. now apply PyDictFacts.keys_set_incl.
Qed.

Lemma fallback_decimals scores :
  decimals scores ->
  decimals (fallback scores)
  /\ forall need, In need (PyDict.keys (fallback scores)).
Proof.
  intros Hd. unfold fallback.
  destruct (fallback_fold (combine all_HumanNeed fallback_scores) scores Hd) as [Hd' Hkeys].
  - intros item Hin. simpl in Hin.
    repeat (destruct Hin as [<-|Hin]; [simpl; lra|]). destruct Hin.
  - split; [exact Hd'|]. intros need. apply Hkeys. left.
    destruct need; simpl; tauto.
Qed.

Lemma analyze_decimals json_loads float_of_string generation llm_scores :
  analyze_needs_with_llm json_loads float_of_string generation = Some llm_scores ->
  decimals llm_scores /\ forall need, In need (PyDict.keys llm_scores).
Proof.
  unfold analyze_needs_with_llm.
  destruct generation as [| | | |content_response| |]; try discriminate.
  destruct (json_loads content_response) as [parsed_content|].
  - pose proof (score_loop_decimals float_of_string parsed_content all_HumanNeed
                  PyDict.empty decimals_empty) as Hloop.
    destruct (score_loop float_of_string parsed_content all_HumanNeed PyDict.empty)
      as [scores|scores|]; [| |discriminate].
    + intros [= <-]. destruct Hloop as [Hd Hkeys]. split; [exact Hd|].
      intros need. apply Hkeys. left. apply NeedsFacts.in_all_HumanNeed.
    + intros [= <-]. now apply fallback_decimals.
  - intros [= <-]. apply fallback_decimals, decimals_empty.
Qed.

Lemma decimal_entry llm_scores need :
  decimals llm_scores -> In need (PyDict.keys llm_scores) ->
  exists q, PyDict.get llm_scores need = Some (Dec q) /\ 0 <= q /\ q <= 1.
Proof.
  intros Hd Hin.
  destruct (PyDict.get llm_scores need) as [v|] eqn:Hget.
  - apply PyDictFacts.get_Some_In in Hget. destruct (Hd _ _ Hget) as (q & -> & Hq).
    now exists q.
  - apply PyDictFacts.get_None_keys in Hget. now destruct Hget.
Qed.

Lemma combine_decimals keyword_scores llm_scores :
  decimals llm_scores -> (forall need, In need (PyDict.keys llm_scores)) ->
  combine_needs_scores keyword_scores llm_scores = None.
Proof.
  intros Hd Hkeys. unfold combine_needs_scores.
  destruct (decimal_entry llm_scores CERTAINTY Hd (Hkeys CERTAINTY)) as (q & Hget & _).
  apply (NeedsFacts.combine_loop_decimal _ _ _ _ CERTAINTY q).
  - now left.
  - unfold PyDict.get_default. now rewrite Hget.
Qed.

End LlmFacts.

(** X16. Whatever the model answers, the scores [analyze_needs_with_llm]
    returns are [Decimal]s: one for each of the six needs, between 0 and
    1.  [combine_needs_scores] multiplies each by a [float], so it raises
    a [TypeError] on them whatever the keyword scores are, and steps 1 to
    3 of [analyze_needs_from_interview] never produce final scores. *)
Theorem llm_scores_are_decimals (json_loads : string -> option PyVal.t)
    (float_of_string : string -> option PyVal.pyfloat)
    (generation : PyVal.t) (llm_scores : PyDict.t NeedsAnalysis.HumanNeed NeedsAnalysis.number) :
  NeedsLlm.analyze_needs_with_llm json_loads float_of_string generation = Some llm_scores ->
  (forall need,
     exists q, PyDict.get llm_scores need = Some (NeedsAnalysis.Dec q)
               /\ 0 <= q /\ q <= 1)
  /\ (forall keyword_scores,
        NeedsAnalysis.combine_needs_scores keyword_scores llm_scores = None)
  /\ (forall content,
        NeedsLlm.final_scores json_loads float_of_string content generation = None).
Proof.
  intros Hscores.
  destruct (LlmFacts.analyze_decimals _ _ _ _ Hscores) as [Hd Hkeys].
  split; [|split].
  - intros need. now apply LlmFacts.decimal_entry.
  - intros keyword_scores. now apply LlmFacts.combine_decimals.
  - intros content. unfold NeedsLlm.final_scores. rewrite Hscores. simpl.
    now apply LlmFacts.combine_decimals.
Qed.

(** X16 at an answer that scores certainty alone: the other needs get the
    default 0.3, and the scores cannot be combined with keyword scores. *)
Lemma llm_scores_are_decimals_witness :
  NeedsAnalysis.combine_needs_scores sample_keyword_scores
    [(NeedsAnalysis.CERTAINTY, NeedsAnalysis.Dec (9 # 10));
     (NeedsAnalysis.VARIETY, NeedsAnalysis.Dec (3 # 10));
     (NeedsAnalysis.SIGNIFICANCE, NeedsAnalysis.Dec (3 # 10));
     (NeedsAnalysis.CONNECTION, NeedsAnalysis.Dec (3 # 10));
     (NeedsAnalysis.GROWTH, NeedsAnalysis.Dec (3 # 10));
     (NeedsAnalysis.CONTRIBUTION, NeedsAnalysis.Dec (3 # 10))]
  = None.
Proof.
  refine (proj1 (proj2 (llm_scores_are_decimals
            (fun _ => Some (PyVal.PDict [("certainty", PyVal.PFloat (PyVal.Finite (9 # 10)))]))
            sample_float_of_string (PyVal.PStr "{}") _ _)) sample_keyword_scores).
  vm_compute. reflexivity.
Defined.

(** ** Content-aware scores *)

Module FallbackFacts.
Import NeedsAnalysis.

Lemma max_nonneg (x : Q) : 0 <= Py.max x 0.
Proof.
  unfold Py.max. destruct (Qle_bool 0 x) eqn:H0; [now apply Qle_bool_iff | lra].
Qed.

Lemma bounded (x : Q) : 0 <= Py.min (Py.max x 0) 1 /\ Py.min (Py.max x 0) 1 <= 1.
Proof.
  split; [apply PyFacts.min_glb; [apply max_nonneg | lra] | apply PyFacts.min_le_r].
Qed.

Lemma keys_add_to d k x : In k (PyDict.keys d) -> PyDict.keys (add_to d k x) = PyDict.keys d.
Proof. intros Hin. unfold add_to. now apply PyDictFacts.keys_set_present. Qed.

Lemma keys_update d pairs :
  (forall k, In k (PyDict.keys pairs) -> In k (PyDict.keys d)) ->
  PyDict.keys (update d pairs) = PyDict.keys d.
Proof.
  unfold update. revert d. induction pairs as [|[k v] pairs IH]; intros d Hin; simpl.
  - reflexivity.
  - rewrite IH.
    + apply PyDictFacts.keys_set_present. apply Hin. now left.
    + intros k' Hk'. rewrite PyDictFacts.keys_set_present by (apply Hin; now left).
      apply Hin. now right.
Qed.

Lemma keys_themes themes scores :
  PyDict.keys scores = all_needs ->
  PyDict.keys
    (fold_left (fun scores theme =>
      let theme_lower := PyStr.lower theme in
      if PyStr.contains "leadership" theme_lower then
        add_to (add_to scores "significance" (2 # 10)) "connection" (1 # 10)
      else if PyStr.contains "innovation" theme_lower
              || PyStr.contains "technology" theme_lower then
        add_to (add_to scores "growth" (2 # 10)) "variety" (1 # 10)
      else if PyStr.contains "risk" theme_lower
              || PyStr.contains "security" theme_lower then
        add_to scores "certainty" (2 # 10)
      else scores) themes scores)
  = all_needs.
Proof.
  revert scores. induction themes as [|theme themes IH]; intros scores Hkeys; simpl.
  - exact Hkeys.
  - apply IH.
    assert (Hin : forall k, In k all_needs -> In k (PyDict.keys scores))
      by (intros k Hk; now rewrite Hkeys).
    destruct (PyStr.contains "leadership" (PyStr.lower theme)).
    { rewrite !keys_add_to; [exact Hkeys | apply Hin; simpl; tauto |].
      rewrite keys_add_to; apply Hin; simpl; tauto. }
    destruct (PyStr.contains "innovation" (PyStr.lower theme)
              || PyStr.contains "technology" (PyStr.lower theme)).
    { rewrite !keys_add_to; [exact Hkeys | apply Hin; simpl; tauto |].
      rewrite keys_add_to; apply Hin; simpl; tauto. }
    destruct (PyStr.contains "risk" (PyStr.lower theme)
              || PyStr.contains "security" (PyStr.lower theme)).
    { rewrite keys_add_to; [exact Hkeys | apply Hin; simpl; tauto]. }
    exact Hkeys.
Qed.

End FallbackFacts.

(** X17. The scores [get_content_aware_scores] falls back on always cover
    exactly the six needs, in the order certainty, variety, significance,
    connection, growth, contribution, and each score lies between 0 and 1
    however many themes raise it; these are the scores of
    [analyze_human_needs] when the model call or the parsing of its answer
    fails. *)
Theorem content_aware_scores_cover_needs (text content_type : string)
    (themes : list string) :
  PyDict.keys (NeedsAnalysis.get_content_aware_scores content_type themes)
  = NeedsAnalysis.all_needs
  /\ (forall need score,
        In (need, score) (NeedsAnalysis.get_content_aware_scores content_type themes) ->
        0 <= score /\ score <= 1)
  /\ NeedsAnalysis.analyze_human_needs text content_type themes NeedsAnalysis.LlmFailed
     = NeedsAnalysis.get_content_aware_scores content_type themes.
Proof.
  split; [|split; [|reflexivity]].
  - unfold NeedsAnalysis.get_content_aware_scores. cbv zeta.
    unfold PyDict.keys at 1. rewrite map_map. cbn [fst].
    apply FallbackFacts.keys_themes.
    destruct (String.eqb content_type "financial_advice"); [reflexivity|].
    destruct (String.eqb content_type "interview_transcript"); reflexivity.
  - intros need score Hin. unfold NeedsAnalysis.get_content_aware_scores in Hin.
    cbv zeta in Hin. apply in_map_iff in Hin. destruct Hin as ([k v] & [= _ <-] & _).
    apply FallbackFacts.bounded.
Qed.

(** ** Metadata, agents and requirements of a file *)

Module FileFacts.
Import PyVal FileAnalyzer FileAnalysis.

(** The defaults of [extract_metadata_from_content]. *)
Definition defaults : Dict :=
  [("content_type", PStr "interview_transcript");
   ("language", PStr "english");
   ("domain", PStr "general")].

Lemma get_setdefault_keep (d : Dict) k v k' v' :
  PyDict.get d k' = Some v' -> PyDict.get (setdefault d k v) k' = Some v'.
Proof.
  intros Hget. unfold setdefault, PyDict.contains.
  destruct (PyDict.get d k) as [v0|] eqn:Hk; [exact Hget|].
  rewrite PyDictFacts.get_set_ne; [exact Hget|].
  intros ->. congruence.
Qed.

Lemma get_setdefault (d : Dict) k v :
  PyDict.get (setdefault d k v) k = Some (PyDict.get_default d k v).
Proof.
  unfold setdefault, PyDict.contains, PyDict.get_default.
  destruct (PyDict.get d k) as [v0|] eqn:Hk; [exact Hk|].
  apply PyDictFacts.get_set_eq.
Qed.

Lemma get_setdefault_ne (d : Dict) k v k' :
  k <> k' -> PyDict.get (setdefault d k v) k' = PyDict.get d k'.
Proof.
  intros Hne. unfold setdefault, PyDict.contains.
  destruct (PyDict.get d k); [reflexivity|].
  now apply PyDictFacts.get_set_ne.
Qed.

(** The dictionary after the three calls of [setdefault]. *)
Definition with_defaults (header : Dict) : Dict :=
  setdefault
    (setdefault (setdefault header "content_type" (PStr "interview_transcript"))
                "language" (PStr "english"))
    "domain" (PStr "general").

Lemma with_defaults_keep header k v :
  PyDict.get header k = Some v -> PyDict.get (with_defaults header) k = Some v.
Proof. intros Hget. unfold with_defaults. now repeat apply get_setdefault_keep. Qed.

Lemma with_defaults_get header k v :
  In (k, v) defaults ->
  PyDict.get (with_defaults header) k = Some (PyDict.get_default header k v).
Proof.
  unfold with_defaults. intros [[= <- <-]|[[= <- <-]|[[= <- <-]|[]]]].
  - apply get_setdefault_keep, get_setdefault_keep, get_setdefault.
  - apply get_setdefault_keep. rewrite get_setdefault. f_equal.
    unfold PyDict.get_default. now rewrite get_setdefault_ne.
  - rewrite get_setdefault. f_equal.
    unfold PyDict.get_default. now rewrite !get_setdefault_ne.
Qed.

Lemma with_defaults_only header k v :
  PyDict.get (with_defaults header) k = Some v ->
  PyDict.get header k = Some v \/ (PyDict.get header k = None /\ In (k, v) defaults).
Proof.
  intros Hget. destruct (PyDict.get header k) as [v0|] eqn:Hk.
  - left. rewrite (with_defaults_keep _ _ _ Hk) in Hget. exact Hget.
  - right. split; [reflexivity|].
    destruct (decide (k = "content_type")) as [->|H1].
    { rewrite (with_defaults_get header "content_type" (PStr "interview_transcript"))
        in Hget by (simpl; tauto).
      unfold PyDict.get_default in Hget. rewrite Hk in Hget. injection Hget as <-.
      simpl. tauto. }
    destruct (decide (k = "language")) as [->|H2].
    { rewrite (with_defaults_get header "language" (PStr "english"))
        in Hget by (simpl; tauto).
      unfold PyDict.get_default in Hget. rewrite Hk in Hget. injection Hget as <-.
      simpl. tauto. }
    destruct (decide (k = "domain")) as [->|H3].
    { rewrite (with_defaults_get header "domain" (PStr "general"))
        in Hget by (simpl; tauto).
      unfold PyDict.get_default in Hget. rewrite Hk in Hget. injection Hget as <-.
      simpl. tauto. }
    unfold with_defaults in Hget.
    rewrite !get_setdefault_ne in Hget by congruence. congruence.
Qed.

Lemma header_without_marker json_loads content :
  String.prefix "---" content = false -> header_metadata json_loads content = PDict [].
Proof. intros Hno. unfold header_metadata. now rewrite Hno. Qed.

Lemma header_cases json_loads content :
  header_metadata json_loads content = PDict []
  \/ (String.prefix "---" content = true
      /\ exists end_marker parsed,
           find_from "---" 3 content = Some end_marker
           /\ json_loads (PyStr.strip (substring 3 (end_marker - 3) content)) = Some parsed
           /\ header_metadata json_loads content = parsed).
Proof.
  unfold header_metadata.
  destruct (String.prefix "---" content); [|now left].
  destruct (find_from "---" 3 content) as [end_marker|]; [|now left].
  destruct (0 <? end_marker)%nat; [|now left]. cbv zeta.
  destruct (json_loads (PyStr.strip (substring 3 (end_marker - 3) content)))
    as [parsed|] eqn:Hparsed; [|now left].
  right. split; [reflexivity|]. exists end_marker, parsed. auto.
Qed.

Lemma complexity_range content :
  0 <= analyze_content_complexity content /\ analyze_content_complexity content <= 1.
Proof.
  unfold analyze_content_complexity. cbv zeta. split.
  - apply PyFacts.min_glb; [|lra].
    pose proof (ComplexityFacts.capped_nonneg (of_nat (FileAnalyzer.word_count content)) 2000
                  (ComplexityFacts.of_nat_nonneg _) eq_refl).
    pose proof (ComplexityFacts.capped_nonneg (of_nat (speaker_count content)) 5
                  (ComplexityFacts.of_nat_nonneg _) eq_refl).
    pose proof (ComplexityFacts.capped_nonneg (of_nat (paragraph_count content)) 20
                  (ComplexityFacts.of_nat_nonneg _) eq_refl).
    pose proof (ComplexityFacts.div_nonneg (of_nat (technical_hits content))
                  (of_nat (List.length technical_keywords))
                  (ComplexityFacts.of_nat_nonneg _) eq_refl).
    lra.
  - apply ComplexityFacts.capped_le_one.
Qed.

(** [metadata.get('content_type') == 'interview_transcript'] *)
Definition is_interview (v : PyVal.t) : bool :=
  match v with
  | PStr s => String.eqb s "interview_transcript"
  | _ => false
  end.

Lemma is_interview_spec v : is_interview v = true <-> v = PStr "interview_transcript".
Proof.
  destruct v as [| | | |s| |]; simpl; try (split; [discriminate | intros H0; discriminate H0]).
  rewrite String.eqb_eq. split; [now intros -> | now intros [= ->]].
Qed.

(** The agents by the two tests of [determine_required_agents]. *)
Definition agents_of (long interview : bool) : list string :=
  ["interview_processing"]
  ++ (if long then ["nlp_processing"] else [])
  ++ (if interview then ["needs_analysis"] else [])
  ++ ["hypergraph_builder"].

Lemma agents_cases content (metadata : Dict) :
  determine_required_agents content metadata
  = agents_of (50 <? PyStr.word_count content)%nat
              (is_interview (PyDict.get_default metadata "content_type" PNone)).
Proof.
  unfold determine_required_agents, agents_of, is_interview.
  destruct (50 <? PyStr.word_count content)%nat;
    destruct (PyDict.get_default metadata "content_type" PNone) as [| | | |s| |];
    try reflexivity;
    destruct (String.eqb s "interview_transcript"); reflexivity.
Qed.

Lemma agents_of_spec (long interview : bool) :
  hd_error (agents_of long interview) = Some "interview_processing"
  /\ List.last (agents_of long interview) "" = "hypergraph_builder"
  /\ List.NoDup (agents_of long interview)
  /\ (forall agent, In agent (agents_of long interview) ->
        In agent ["interview_processing"; "nlp_processing"; "needs_analysis";
                  "hypergraph_builder"])
  /\ (In "nlp_processing" (agents_of long interview) <-> long = true)
  /\ (In "needs_analysis" (agents_of long interview) <-> interview = true).
Proof.
  destruct long, interview; unfold agents_of; cbn [app];
    (split; [reflexivity|]); (split; [reflexivity|]);
    (split; [repeat constructor; cbn [In]; intuition discriminate|]);
    (split; [intros agent Hin; cbn [In] in *; tauto|]);
    split; split; intros H0; first [reflexivity | cbn [In]; tauto
                                   | cbn [In] in H0; intuition discriminate
                                   | discriminate H0].
Qed.

Lemma extracted_content_type json_loads content metadata :
  extract_metadata_from_content json_loads content = Some metadata ->
  (exists v, PyDict.get metadata "content_type" = Some v)
  /\ (String.prefix "---" content = false -> metadata = defaults).
Proof.
  unfold extract_metadata_from_content.
  destruct (header_metadata json_loads content) as [| | | | | |header] eqn:Hheader;
    try discriminate.
  intros [= <-].
  change (setdefault _ "domain" (PStr "general")) with (with_defaults header).
  split.
  - eexists. apply (with_defaults_get header "content_type" (PStr "interview_transcript")).
    simpl. tauto.
  - intros Hno. rewrite (header_without_marker _ _ Hno) in Hheader.
    injection Hheader as <-. reflexivity.
Qed.

End FileFacts.

(** X18. [extract_metadata_from_content] returns the header's entries
    completed by the defaults for [content_type], [language] and [domain]:
    an entry of the header is kept, a default is set only where the
    header has no entry of that key, and nothing else is added.  Content
    that does not start with the marker gets the three defaults alone.
    It raises only when the header between the markers is JSON that is
    not an object. *)
Theorem extract_metadata_defaults (json_loads : string -> option PyVal.t)
    (content : string) :
  match FileAnalysis.extract_metadata_from_content json_loads content with
  | Some metadata =>
      exists header,
        FileAnalysis.header_metadata json_loads content = PyVal.PDict header
        /\ (forall k v, PyDict.get header k = Some v -> PyDict.get metadata k = Some v)
        /\ (forall k v, In (k, v) FileFacts.defaults ->
              PyDict.get metadata k = Some (PyDict.get_default header k v))
        /\ (forall k v, PyDict.get metadata k = Some v ->
              PyDict.get header k = Some v
              \/ (PyDict.get header k = None /\ In (k, v) FileFacts.defaults))
        /\ (String.prefix "---" content = false -> metadata = FileFacts.defaults)
  | None =>
      String.prefix "---" content = true
      /\ exists end_marker parsed,
           FileAnalysis.find_from "---" 3 content = Some end_marker
           /\ json_loads (PyStr.strip (substring 3 (end_marker - 3) content)) = Some parsed
           /\ FileAnalysis.header_metadata json_loads content = parsed
           /\ forall header, parsed <> PyVal.PDict header
  end.
Proof.
  unfold FileAnalysis.extract_metadata_from_content.
  destruct (FileAnalysis.header_metadata json_loads content) as [| | | | | |header] eqn:Hheader.
  7: {
    exists header. split; [reflexivity|].
    change (FileAnalysis.setdefault _ "domain" (PyVal.PStr "general"))
      with (FileFacts.with_defaults header).
    split; [apply FileFacts.with_defaults_keep|].
    split; [apply FileFacts.with_defaults_get|].
    split; [apply FileFacts.with_defaults_only|].
    intros Hno. rewrite (FileFacts.header_without_marker _ _ Hno) in Hheader.
    injection Hheader as <-. reflexivity. }
  all: destruct (FileFacts.header_cases json_loads content)
         as [Hempty|(Hmarker & end_marker & parsed & Hfind & Hparsed & Hvalue)];
    [rewrite Hempty in Hheader; discriminate Hheader|];
    rewrite Hheader in Hvalue;
    split; [exact Hmarker|];
    exists end_marker, parsed;
    (split; [exact Hfind|]); (split; [exact Hparsed|]); (split; [exact Hvalue|]);
    intros header Heq; rewrite Heq in Hvalue; discriminate Hvalue.
Qed.

(** X19. What [analyze_file] derives from the content it has read: the
    required agents begin with [interview_processing] and end with
    [hypergraph_builder], name no agent twice, include [nlp_processing]
    exactly when the content has more than 50 words and [needs_analysis]
    exactly when the reported content type is [interview_transcript],
    which it always is for content without a metadata header; the
    estimated time lies between 0 and 60, and a high priority comes only
    with detailed processing. *)
Theorem analyze_content_spec (json_loads : string -> option PyVal.t)
    (content : string) (analysis : FileAnalysis.Analysis) :
  FileAnalysis.analyze_content json_loads content = Some analysis ->
  let agents := FileAnalysis.required_agents analysis in
  hd_error agents = Some "interview_processing"
  /\ List.last agents "" = "hypergraph_builder"
  /\ List.NoDup agents
  /\ (forall agent, In agent agents ->
        In agent ["interview_processing"; "nlp_processing"; "needs_analysis";
                  "hypergraph_builder"])
  /\ (In "nlp_processing" agents <-> (50 < FileAnalysis.word_count analysis)%nat)
  /\ (In "needs_analysis" agents
      <-> FileAnalysis.content_type analysis = PyVal.PStr "interview_transcript")
  /\ (String.prefix "---" content = false -> In "needs_analysis" agents)
  /\ (0 <= FileAnalysis.estimated_time (FileAnalysis.requirements analysis)
      /\ FileAnalysis.estimated_time (FileAnalysis.requirements analysis) <= 60)
  /\ (FileAnalysis.priority (FileAnalysis.requirements analysis) = "high" ->
      FileAnalysis.processing_depth (FileAnalysis.requirements analysis) = "detailed").
Proof.
  intros Hrun. unfold FileAnalysis.analyze_content in Hrun.
  destruct (FileAnalysis.extract_metadata_from_content json_loads content)
    as [metadata|] eqn:Hextract; [|discriminate Hrun].
  destruct (FileFacts.extracted_content_type _ _ _ Hextract) as ((v & Htype) & Hplain).
  cbn [mbind option_bind] in Hrun. cbv zeta in Hrun. injection Hrun as <-.
  cbn [FileAnalysis.required_agents FileAnalysis.word_count FileAnalysis.content_type
       FileAnalysis.requirements FileAnalysis.estimated_time FileAnalysis.priority
       FileAnalysis.processing_depth].
  cbv zeta. rewrite FileFacts.agents_cases.
  unfold PyDict.get_default. rewrite Htype.
  destruct (FileFacts.agents_of_spec (50 <? PyStr.word_count content)%nat
              (FileFacts.is_interview v))
    as (Hhd & Hlast & Hnodup & Hknown & Hnlp & Hneeds).
  destruct (FileFacts.complexity_range content) as [Hc0 Hc1].
  split; [exact Hhd|]. split; [exact Hlast|]. split; [exact Hnodup|].
  split; [exact Hknown|].
  split; [now rewrite Hnlp, Nat.ltb_lt|].
  split; [now rewrite Hneeds, FileFacts.is_interview_spec|].
  split.
  { intros Hno. apply Hneeds. rewrite (Hplain Hno) in Htype.
    injection Htype as <-. reflexivity. }
  split; [split; lra|].
  destruct (Py.gt (analyze_content_complexity content) (8 # 10)) eqn:Hhigh;
    [|intros H0; discriminate H0].
  apply PyFacts.gt_true in Hhigh.
  destruct (Py.gt (analyze_content_complexity content) (7 # 10)) eqn:Hdeep;
    [reflexivity|].
  apply PyFacts.gt_false in Hdeep. lra.
Qed.

(** X19 at a short transcript without a header: the needs analysis is
    among the required agents. *)
Lemma analyze_content_spec_witness :
  exists analysis,
    FileAnalysis.analyze_content (fun _ => None) "Alice: We plan software." = Some analysis
    /\ In "needs_analysis" (FileAnalysis.required_agents analysis).
Proof.
  destruct (FileAnalysis.analyze_content (fun _ => None) "Alice: We plan software.")
    as [analysis|] eqn:Hrun.
  - exists analysis. split; [reflexivity|].
    destruct (analyze_content_spec _ _ _ Hrun) as (_ & _ & _ & _ & _ & _ & Hplain & _).
    apply Hplain. reflexivity.
  - vm_compute in Hrun. discriminate Hrun.
Defined.

(** ** Interview format and the handlers *)

(** X20. The two extractors of the V2 builder do not always agree on
    whether a file is an interview.  Whenever the relationship
    extractor's [_is_interview_format] says so, the entity extractor's
    does too; the entity extractor alone says so exactly when the file
    path names no interview indicator and the raw text is a string that
    contains a dialog pattern, letter case apart.  The relationship
    extractor's answer does not depend on the file analysis. *)
Theorem interview_format_disagreement (file_analysis : BuilderV2Handler.Dict)
    (file_path : string) :
  (BuilderV2Handler.CleanRelationshipExtractor._is_interview_format file_analysis file_path
   = true ->
   BuilderV2Handler.CleanEntityExtractor._is_interview_format file_analysis file_path
   = Some true)
  /\ (BuilderV2Handler.CleanEntityExtractor._is_interview_format file_analysis file_path
      = Some true
      /\ BuilderV2Handler.CleanRelationshipExtractor._is_interview_format
           file_analysis file_path = false
      <-> BuilderV2Handler.any_in BuilderV2Handler.interview_indicators
            (PyStr.lower file_path) = false
          /\ exists raw_text,
               PyDict.get file_analysis "raw_text" = Some (PyVal.PStr raw_text)
               /\ BuilderV2Handler.any_in BuilderV2Handler.dialog_patterns
                    (PyStr.lower raw_text) = true)
  /\ (forall other_analysis,
        BuilderV2Handler.CleanRelationshipExtractor._is_interview_format
          other_analysis file_path
        = BuilderV2Handler.CleanRelationshipExtractor._is_interview_format
            file_analysis file_path).
Proof.
  unfold BuilderV2Handler.CleanRelationshipExtractor._is_interview_format,
    BuilderV2Handler.CleanEntityExtractor._is_interview_format.
  cbv zeta.
  destruct (BuilderV2Handler.any_in BuilderV2Handler.interview_indicators
              (PyStr.lower file_path)) eqn:Hpath.
  - split; [reflexivity|]. split; [|reflexivity].
    split; [intros [_ H0]; discriminate H0 | intros [H0 _]; discriminate H0].
  - split; [intros H0; discriminate H0|]. split; [|reflexivity].
    unfold PyDict.get_default.
    destruct (PyDict.get file_analysis "raw_text") as [raw|] eqn:Hraw.
    + destruct raw as [|b|z|f|s|l|d];
        try (split; [intros [H0 _]|intros [_ (raw_text & H0 & _)]];
             [cbn in H0; repeat match type of H0 with
                                | context [if ?c then _ else _] => destruct c
                                | context [match ?c with _ => _ end] => destruct c
                                end; discriminate H0
             | discriminate H0]).
      destruct (PyVal.truthy (PyVal.PStr s)) eqn:Htruthy.
      * destruct (BuilderV2Handler.any_in BuilderV2Handler.dialog_patterns (PyStr.lower s))
          eqn:Hdialog.
        -- split; [intros _; split; [reflexivity|]; now exists s | now intros _].
        -- split; [intros [H0 _]; discriminate H0|].
           intros [_ (raw_text & [= <-] & H0)]. congruence.
      * split; [intros [H0 _]; discriminate H0|].
        intros [_ (raw_text & [= <-] & H0)].
        simpl in Htruthy. apply negb_false_iff, String.eqb_eq in Htruthy. subst s.
        vm_compute in H0. discriminate H0.
    + simpl. split; [intros [H0 _]; discriminate H0|].
      intros [_ (raw_text & H0 & _)]. discriminate H0.
Qed.

Module HandlerFacts.
Import PyVal.

Lemma lower_char_dot (c : ascii) :
  Ascii.eqb (PyStr.lower_char c) "." = Ascii.eqb c ".".
Proof.
  destruct c as [[] [] [] [] [] [] [] []]; vm_compute; reflexivity.
Qed.

Lemma contains_dot (c : ascii) (s : string) :
  PyStr.contains "." (String c s) = Ascii.eqb c "." || PyStr.contains "." s.
Proof.
  change (PyStr.contains "." (String c s))
    with (String.prefix "." (String c s) || PyStr.contains "." s).
  f_equal.
  change (String.prefix "." (String c s))
    with (if ascii_dec "." c then String.prefix "" s else false).
  destruct (ascii_dec "." c) as [<-|Hne].
  - now destruct s.
  - symmetry. apply Ascii.eqb_neq. congruence.
Qed.

Lemma contains_dot_lower (s : string) :
  PyStr.contains "." (PyStr.lower s) = PyStr.contains "." s.
Proof.
  induction s as [|c s IH]; [reflexivity|].
  change (PyStr.lower (String c s)) with (String (PyStr.lower_char c) (PyStr.lower s)).
  now rewrite !contains_dot, lower_char_dot, IH.
Qed.

Lemma after_last_dot_clean (s : string) :
  PyStr.contains "." (FileAnalyzerHandler.after_last_dot s) = false.
Proof.
  induction s as [|c s IH]; [reflexivity|].
  simpl FileAnalyzerHandler.after_last_dot.
  destruct (PyStr.contains "." s) eqn:Hrest; [exact IH|].
  destruct (Ascii.eqb c ".") eqn:Hc; [exact Hrest|].
  now rewrite contains_dot, Hc, Hrest.
Qed.

End HandlerFacts.

(** X21. The V2 builder's [lambda_handler] answers with status 200
    exactly when the event holds an [agent_spec] that is a dictionary,
    its [processing_config] (the empty one when absent) is a dictionary,
    the [file_path] of that configuration is a string or absent, and
    [build_enhanced_hypergraph] returns on the analysis data made from
    the configuration; in every other case the status is 500.  In
    particular an event without [agent_spec] is always answered with
    500, whatever else it holds.  [success] is true exactly with status
    200. *)
Theorem builder_handler_status (Result : Type)
    (build_enhanced_hypergraph : BuilderV2Handler.Dict -> option Result)
    (event : BuilderV2Handler.Dict) :
  let response :=
    BuilderV2Handler.lambda_handler Result build_enhanced_hypergraph event in
  (BuilderV2Handler.statusCode Result response = 200%Z
   \/ BuilderV2Handler.statusCode Result response = 500%Z)
  /\ (BuilderV2Handler.success Result response = true
      <-> BuilderV2Handler.statusCode Result response = 200%Z)
  /\ (BuilderV2Handler.statusCode Result response = 200%Z
      <-> exists agent_spec processing_config file_path built,
            PyDict.get event "agent_spec" = Some (PyVal.PDict agent_spec)
            /\ PyDict.get_default agent_spec "processing_config" (PyVal.PDict [])
               = PyVal.PDict processing_config
            /\ PyDict.get_default processing_config "file_path" (PyVal.PStr "")
               = PyVal.PStr file_path
            /\ build_enhanced_hypergraph
                 (BuilderV2Handler.analysis_data_of processing_config) = Some built
            /\ BuilderV2Handler.result Result response = Some built)
  /\ (PyDict.get event "agent_spec" = None ->
      BuilderV2Handler.statusCode Result response = 500%Z
      /\ BuilderV2Handler.result Result response = None).
Proof.
  cbv zeta. unfold BuilderV2Handler.lambda_handler.
  destruct (PyDict.get event "agent_spec") as [spec|] eqn:Hspec.
  2: { cbn. split; [now right|]. split; [split; discriminate|].
       split; [|now intros _].
       split; [discriminate | intros (xa & xc & xf & xb & H0 & _); discriminate H0]. }
  destruct spec as [| | | | | |agent_spec];
    try (cbn; split; [now right|]; split; [split; discriminate|];
         split; [|intros H0; discriminate H0];
         split; [discriminate | intros (xa & xc & xf & xb & H0 & _); discriminate H0]).
  destruct (PyDict.get_default agent_spec "processing_config" (PyVal.PDict []))
    as [| | | | | |processing_config] eqn:Hconfig;
    try (cbn; split; [now right|]; split; [split; discriminate|];
         split; [|intros H0; discriminate H0];
         split; [discriminate|];
         intros (xa & xc & xf & xb & [= <-] & H0 & _); rewrite Hconfig in H0;
         discriminate H0).
  destruct (PyDict.get_default processing_config "file_path" (PyVal.PStr ""))
    as [| | | |file_path| |] eqn:Hpath;
    try (cbn; split; [now right|]; split; [split; discriminate|];
         split; [|intros H0; discriminate H0];
         split; [discriminate|];
         intros (xa & xc & xf & xb & [= <-] & H0 & H1 & _); rewrite Hconfig in H0;
         injection H0 as <-; rewrite Hpath in H1; discriminate H1).
  destruct (build_enhanced_hypergraph
              (BuilderV2Handler.analysis_data_of processing_config)) as [built|] eqn:Hbuild.
  - cbn. split; [now left|]. split; [tauto|]. split; [|intros H0; discriminate H0].
    split; [intros _|reflexivity].
    exists agent_spec, processing_config, file_path, built. auto.
  - cbn. split; [now right|]. split; [split; discriminate|].
    split; [|intros H0; discriminate H0].
    split; [discriminate|].
    intros (xa & xc & xf & xb & [= <-] & H0 & _ & H1 & _). rewrite Hconfig in H0.
    injection H0 as <-. rewrite Hbuild in H1. discriminate H1.
Qed.

(** X22. The file analyzer's [lambda_handler] reports a file it could
    not read as a success: when both keys are there and the path is a
    string but reading fails on the decoded path and on the original
    one, or decoding the body fails, the status is 200 and [success] is
    true, with the error inside the analysis.  The status is 500 exactly
    when [file_path] or [customer_folder] is missing, the path is not a
    string, or the content was read and its metadata header is JSON that
    is not an object.  The original path is asked for only when
    [get_object] fails on the decoded one, and a reported file type
    never contains a dot. *)
Theorem file_handler_status (unquote_plus : string -> string)
    (json_loads : string -> option PyVal.t) (Body : Type)
    (get_object : string -> FileAnalyzerHandler.Outcome Body)
    (read_decode : Body -> FileAnalyzerHandler.Outcome string)
    (event : FileAnalysis.Dict) :
  let handler :=
    FileAnalyzerHandler.lambda_handler unquote_plus json_loads Body get_object read_decode in
  let read :=
    FileAnalyzerHandler.read_content Body get_object read_decode in
  (FileAnalyzerHandler.success (handler event) = true
   <-> FileAnalyzerHandler.statusCode (handler event) = 200%Z)
  /\ (forall file_path customer_folder message,
        PyDict.get event "file_path" = Some (PyVal.PStr file_path) ->
        PyDict.get event "customer_folder" = Some customer_folder ->
        read file_path (unquote_plus file_path) = FileAnalyzerHandler.Raised message ->
        handler event
        = {| FileAnalyzerHandler.statusCode := 200;
             FileAnalyzerHandler.success := true;
             FileAnalyzerHandler.analysis :=
               Some (FileAnalyzerHandler.Unread ("Failed to read file: " +:+ message)
                       file_path (unquote_plus file_path)) |})
  /\ (FileAnalyzerHandler.statusCode (handler event) = 500%Z
      <-> PyDict.get event "file_path" = None
          \/ PyDict.get event "customer_folder" = None
          \/ (exists v, PyDict.get event "file_path" = Some v
                        /\ forall s, v <> PyVal.PStr s)
          \/ (exists file_path content,
                PyDict.get event "file_path" = Some (PyVal.PStr file_path)
                /\ read file_path (unquote_plus file_path)
                   = FileAnalyzerHandler.Returned content
                /\ FileAnalysis.extract_metadata_from_content json_loads content = None))
  /\ (forall file_path decoded_path response,
        get_object decoded_path = FileAnalyzerHandler.Returned response ->
        read file_path decoded_path = read_decode response)
  /\ (forall file_path decoded_path file_type analysis,
        FileAnalyzerHandler.analysis (handler event)
        = Some (FileAnalyzerHandler.Analysed file_path decoded_path file_type analysis) ->
        PyStr.contains "." file_type = false).
Proof.
  cbv zeta. unfold FileAnalyzerHandler.lambda_handler.
  split; [|split; [|split; [|split]]].
  - destruct (PyDict.get event "file_path") as [[| | | |file_path| |]|];
      try (cbn; split; discriminate);
      (destruct (PyDict.get event "customer_folder"); [|cbn; split; discriminate]);
      try (cbn; split; discriminate).
    destruct (FileAnalyzerHandler.analyze_file _ _ _ _ _ file_path);
      cbn; [tauto | split; discriminate].
  - intros file_path customer_folder message Hpath Hfolder Hread.
    rewrite Hpath, Hfolder. unfold FileAnalyzerHandler.analyze_file. cbv zeta.
    now rewrite Hread.
  - destruct (PyDict.get event "file_path") as [v|] eqn:Hpath;
      [|cbn; split; [intros _; now left | reflexivity]].
    destruct (PyDict.get event "customer_folder") as [folder|] eqn:Hfolder.
    2: { destruct v; cbn; (split; [intros _; right; now left | reflexivity]). }
    destruct v as [| | | |file_path| |];
      try (cbn; split; [|reflexivity]; intros _; right; right; left;
           eexists; split; [reflexivity|]; intros s H0; discriminate H0).
    unfold FileAnalyzerHandler.analyze_file. cbv zeta.
    destruct (FileAnalyzerHandler.read_content Body get_object read_decode file_path
                (unquote_plus file_path)) as [content|message] eqn:Hread.
    + unfold FileAnalysis.analyze_content.
      destruct (FileAnalysis.extract_metadata_from_content json_loads content)
        as [metadata|] eqn:Hmeta; cbn.
      * split; [discriminate|].
        intros [H0|[H0|[(v & [= <-] & H0)|(fp & c & [= <-] & H0 & H1)]]];
          try discriminate H0.
        -- now destruct (H0 file_path).
        -- rewrite Hread in H0. injection H0 as <-. congruence.
      * split; [intros _|reflexivity]. right. right. right.
        exists file_path, content. auto.
    + cbn. split; [discriminate|].
      intros [H0|[H0|[(v & [= <-] & H0)|(fp & c & [= <-] & H0 & _)]]];
        try discriminate H0.
      * now destruct (H0 file_path).
      * rewrite Hread in H0. discriminate H0.
  - intros file_path decoded_path response Hget.
    unfold FileAnalyzerHandler.read_content. now rewrite Hget.
  - intros file_path decoded_path file_type analysis.
    destruct (PyDict.get event "file_path") as [[| | | |fp| |]|]; try discriminate;
      (destruct (PyDict.get event "customer_folder"); [|discriminate]);
      try discriminate.
    unfold FileAnalyzerHandler.analyze_file. cbv zeta.
    destruct (FileAnalyzerHandler.read_content Body get_object read_decode fp
                (unquote_plus fp)) as [content|message]; [|discriminate].
    destruct (FileAnalysis.analyze_content json_loads content) as [a|]; [|discriminate].
    cbn. intros [= _ _ <- _].
    destruct (PyStr.contains "." (unquote_plus fp)); [|reflexivity].
    rewrite HandlerFacts.contains_dot_lower.
    apply HandlerFacts.after_last_dot_clean.
Qed.

(** X22 at a file the store does not hold under either path. *)
Lemma file_handler_status_witness :
  FileAnalyzerHandler.lambda_handler (fun s => s) (fun _ => None) string
    (fun _ => FileAnalyzerHandler.Raised "NoSuchKey")
    (fun body => FileAnalyzerHandler.Returned body)
    [("file_path", PyVal.PStr "notes.txt"); ("customer_folder", PyVal.PStr "acme")]
  = {| FileAnalyzerHandler.statusCode := 200;
       FileAnalyzerHandler.success := true;
       FileAnalyzerHandler.analysis :=
         Some (FileAnalyzerHandler.Unread "Failed to read file: NoSuchKey"
                 "notes.txt" "notes.txt") |}.
Proof.
  refine (proj1 (proj2 (file_handler_status (fun s => s) (fun _ => None) string
            (fun _ => FileAnalyzerHandler.Raised "NoSuchKey")
            (fun body => FileAnalyzerHandler.Returned body)
            [("file_path", PyVal.PStr "notes.txt"); ("customer_folder", PyVal.PStr "acme")]))
          "notes.txt" (PyVal.PStr "acme") "NoSuchKey" _ _ _); reflexivity.
Defined.

(** ** Relationships between needs and behaviour *)

Module NeedBehaviorFacts.
Import BuilderV2 BuilderV2Relationships.

(** The relationship [_extract_need_behavior_relationships] builds for a
    need and a behaviour it relates. *)
Definition influence (need behavior : CleanEntity.t) : CleanRelationship.t :=
  CleanRelationship.mk
    (CleanEntity.text need) (CleanEntity.text behavior) INFLUENCES (8 # 10)
    [CleanEntity.text need +:+ " need drives " +:+ CleanEntity.text behavior
     +:+ " behavior"]
    ("Psychological need " +:+ CleanEntity.text need +:+ " manifests as "
     +:+ CleanEntity.text behavior +:+ " pattern")
    "needs_analysis".

(** A keyword of one of the six needs that the need's text names occurs
    in the behaviour's text, letter case apart. *)
Definition keyword_match (need behavior : CleanEntity.t) : Prop :=
  exists need_key keywords keyword,
    In (need_key, keywords) need_behavior_mappings
    /\ PyStr.contains need_key (PyStr.lower (CleanEntity.text need)) = true
    /\ In keyword keywords
    /\ PyStr.contains keyword (PyStr.lower (CleanEntity.text behavior)) = true.

Lemma strength_cases need behavior :
  (_analyze_need_behavior_relationship need behavior = 8 # 10
   /\ keyword_match need behavior)
  \/ (_analyze_need_behavior_relationship need behavior = 3 # 10
      /\ ~ keyword_match need behavior).
Proof.
  unfold _analyze_need_behavior_relationship. cbv zeta.
  destruct (existsb _ need_behavior_mappings) eqn:Hany.
  - left. split; [reflexivity|].
    apply existsb_exists in Hany. destruct Hany as ([need_key keywords] & Hin & Hm).
    apply andb_true_iff in Hm. destruct Hm as [Hneed Hkw].
    apply existsb_exists in Hkw. destruct Hkw as (keyword & Hk & Hc).
    now exists need_key, keywords, keyword.
  - right. split; [reflexivity|].
    intros (need_key & keywords & keyword & Hin & Hneed & Hk & Hc).
    assert (Htrue : existsb
              (fun mapping : string * list string =>
                 PyStr.contains (fst mapping) (PyStr.lower (CleanEntity.text need))
                 && existsb (fun keyword =>
                               PyStr.contains keyword
                                 (PyStr.lower (CleanEntity.text behavior)))
                            (snd mapping))
              need_behavior_mappings = true).
    { apply existsb_exists. exists (need_key, keywords). split; [assumption|].
      apply andb_true_iff. split; [assumption|].
      apply existsb_exists. now exists keyword. }
    congruence.
Qed.

End NeedBehaviorFacts.

(** X23. [_extract_need_behavior_relationships] relates a need to a
    behavioural pattern exactly when the need's text names one of the six
    needs and the behaviour's text holds one of that need's keywords,
    letter case apart: the strength [_analyze_need_behavior_relationship]
    gives is 0.8 then and 0.3 otherwise, and only 0.8 passes the
    threshold.  Every relationship returned runs from a NEED entity to a
    BEHAVIORAL_PATTERN entity of the list, has the type INFLUENCES and the
    confidence 0.8. *)
Theorem need_behavior_relationships_spec (entities : list CleanEntity.t)
    (rel : CleanRelationship.t) :
  In rel (BuilderV2Relationships._extract_need_behavior_relationships entities)
  <-> exists need behavior,
        In need entities /\ In behavior entities
        /\ CleanEntity.entity_type need = NEED
        /\ CleanEntity.entity_type behavior = BEHAVIORAL_PATTERN
        /\ NeedBehaviorFacts.keyword_match need behavior
        /\ rel = NeedBehaviorFacts.influence need behavior.
Proof.
  unfold BuilderV2Relationships._extract_need_behavior_relationships. cbv zeta.
  rewrite in_flat_map. split.
  - intros (need & Hneed & Hin). apply List.filter_In in Hneed.
    destruct Hneed as [Hneed Hnt]. apply bool_decide_eq_true_1 in Hnt.
    apply in_flat_map in Hin. destruct Hin as (behavior & Hbeh & Hin).
    apply List.filter_In in Hbeh. destruct Hbeh as [Hbeh Hbt].
    apply bool_decide_eq_true_1 in Hbt.
    destruct (NeedBehaviorFacts.strength_cases need behavior) as [[Hs Hm]|[Hs _]];
      rewrite Hs in Hin.
    + destruct Hin as [<-|[]]. exists need, behavior. repeat split; assumption.
    + destruct Hin.
  - intros (need & behavior & Hneed & Hbeh & Hnt & Hbt & Hm & ->).
    exists need. split; [apply List.filter_In; split;
                         [assumption | now apply bool_decide_eq_true_2]|].
    apply in_flat_map. exists behavior.
    split; [apply List.filter_In; split;
            [assumption | now apply bool_decide_eq_true_2]|].
    destruct (NeedBehaviorFacts.strength_cases need behavior) as [[Hs _]|[_ Hno]];
      [|now destruct Hno].
    rewrite Hs. now left.
Qed.

(** ** Entity texts *)

Module TextFacts.
Import PyVal BuilderV2Entities.

(** The string has no white space but single blanks between its words;
    [after_space] tells whether a blank, or the start, comes before. *)
Fixpoint spaced (after_space : bool) (s : string) : bool :=
  match s with
  | EmptyString => negb after_space
  | String c s' =>
      if PyStr.is_space c
      then Ascii.eqb c " " && negb after_space && spaced true s'
      else spaced false s'
  end.

Definition starts_lower (s : string) : bool :=
  match s with
  | String c _ => is_lower c
  | EmptyString => false
  end.

(** The last character is not white space; [r] answers for the empty
    string. *)
Fixpoint ends_ok (r : bool) (s : string) : bool :=
  match s with
  | EmptyString => negb r
  | String c s' => ends_ok (PyStr.is_space c) s'
  end.

Definition starts_space (s : string) : bool :=
  match s with
  | String c _ => PyStr.is_space c
  | EmptyString => false
  end.

Lemma ends_ok_flag a b s : s <> "" -> ends_ok a s = ends_ok b s.
Proof. destruct s; [congruence | reflexivity]. Qed.

Lemma rstrip_ends s : ends_ok false (PyStr.rstrip s) = true.
Proof.
  induction s as [|c s IH]; [reflexivity|].
  simpl PyStr.rstrip. destruct (PyStr.rstrip s) as [|c' r] eqn:Hr.
  - destruct (PyStr.is_space c) eqn:Hc; [reflexivity|]. simpl. now rewrite Hc.
  - change (ends_ok false (String c (String c' r)))
      with (ends_ok (PyStr.is_space c) (String c' r)).
    rewrite (ends_ok_flag _ false) by discriminate. exact IH.
Qed.

Lemma lstrip_ends s : ends_ok false s = true -> ends_ok false (PyStr.lstrip s) = true.
Proof.
  induction s as [|c s IH]; [reflexivity|].
  intros Hend. simpl PyStr.lstrip. destruct (PyStr.is_space c) eqn:Hc; [|exact Hend].
  simpl in Hend. rewrite Hc in Hend.
  destruct s as [|c' s']; [discriminate Hend|].
  apply IH. now rewrite (ends_ok_flag _ true) by discriminate.
Qed.

Lemma lstrip_no_space s : starts_space (PyStr.lstrip s) = false.
Proof.
  induction s as [|c s IH]; [reflexivity|].
  simpl. destruct (PyStr.is_space c) eqn:Hc; [exact IH | simpl; exact Hc].
Qed.

Lemma collapse_spaced r s :
  ends_ok r s = true -> spaced r (collapse_spaces r s) = true.
Proof.
  revert r. induction s as [|c s IH]; intros r Hend; [exact Hend|].
  simpl in Hend. simpl collapse_spaces.
  destruct (PyStr.is_space c) eqn:Hc.
  - destruct r.
    + now apply IH.
    + change (spaced false (String " " (collapse_spaces true s)))
        with (spaced true (collapse_spaces true s)).
      now apply IH.
  - simpl. rewrite Hc. now apply IH.
Qed.

Lemma collapse_start r s :
  starts_space s = false -> collapse_spaces r s = collapse_spaces true s.
Proof.
  destruct s as [|c s]; [reflexivity|]. simpl. now intros ->.
Qed.

(** Empty, or single-spaced without a blank at either end. *)
Definition tidy (s : string) : Prop := s = "" \/ spaced true s = true.

Lemma stripped_tidy text : tidy (collapse_spaces false (PyStr.strip text)).
Proof.
  unfold PyStr.strip.
  pose proof (lstrip_ends _ (rstrip_ends text)) as Hend.
  pose proof (lstrip_no_space (PyStr.rstrip text)) as Hstart.
  rewrite (collapse_start false _ Hstart).
  destruct (PyStr.lstrip (PyStr.rstrip text)) as [|c s] eqn:Hs; [now left|].
  right. apply collapse_spaced.
  now rewrite (ends_ok_flag _ false) by discriminate.
Qed.

Lemma prefix_drop (p s : string) :
  String.prefix p s = true -> s = p +:+ FileAnalysis.drop (String.length p) s.
Proof.
  revert s. induction p as [|c p IH]; intros s; [reflexivity|].
  destruct s as [|c' s]; simpl; [discriminate|].
  destruct (ascii_dec c c') as [<-|Hne]; [|discriminate].
  intros Hp.
  change (String c s = String c (p +:+ FileAnalysis.drop (String.length p) s)).
  f_equal. now apply IH.
Qed.

Lemma remove_prefix_tidy cleaned prefix :
  In prefix prefixes_to_remove -> tidy cleaned -> tidy (remove_prefix cleaned prefix).
Proof.
  intros Hin Htidy. unfold remove_prefix.
  destruct (String.prefix prefix cleaned) eqn:Hp; [|exact Htidy].
  apply prefix_drop in Hp.
  set (rest := FileAnalysis.drop (String.length prefix) cleaned) in *.
  destruct Htidy as [Hempty|Hspaced].
  - left. rewrite Hempty in Hp. destruct prefix; [|discriminate Hp].
    simpl in Hin. intuition discriminate.
  - right. rewrite Hp in Hspaced.
    simpl in Hin. destruct Hin as [<-|[<-|[<-|[<-|[]]]]]; exact Hspaced.
Qed.

Lemma remove_prefixes_tidy prefixes cleaned :
  (forall prefix, In prefix prefixes -> In prefix prefixes_to_remove) ->
  tidy cleaned -> tidy (fold_left remove_prefix prefixes cleaned).
Proof.
  revert cleaned. induction prefixes as [|prefix prefixes IH]; intros cleaned Hin Htidy.
  - exact Htidy.
  - simpl. apply IH; [intros p Hp; apply Hin; now right|].
    apply remove_prefix_tidy; [apply Hin; now left | exact Htidy].
Qed.

Lemma upper_char_space (c : ascii) : PyStr.is_space (upper_char c) = PyStr.is_space c.
Proof. destruct c as [[] [] [] [] [] [] [] []]; vm_compute; reflexivity. Qed.

Lemma upper_char_not_lower (c : ascii) : is_lower (upper_char c) = false.
Proof. destruct c as [[] [] [] [] [] [] [] []]; vm_compute; reflexivity. Qed.

Lemma clean_text_shape text :
  _clean_entity_text text = ""
  \/ ((2 < String.length (_clean_entity_text text))%nat
      /\ spaced true (_clean_entity_text text) = true
      /\ starts_lower (_clean_entity_text text) = false).
Proof.
  destruct text as [| | | |text| |]; try (now left).
  unfold _clean_entity_text. cbv zeta.
  pose proof (remove_prefixes_tidy prefixes_to_remove _ (fun p Hp => Hp)
                (stripped_tidy text)) as Htidy.
  destruct (fold_left remove_prefix prefixes_to_remove
              (collapse_spaces false (PyStr.strip text))) as [|c rest]; [now left|].
  destruct (2 <? String.length (String (upper_char c) rest))%nat eqn:Hlen; [|now left].
  right. apply Nat.ltb_lt in Hlen. split; [exact Hlen|].
  destruct Htidy as [Hempty|Hspaced]; [discriminate Hempty|].
  split.
  - simpl in Hspaced |- *. rewrite upper_char_space.
    destruct (PyStr.is_space c); [|exact Hspaced].
    rewrite andb_false_r in Hspaced. discriminate Hspaced.
  - apply upper_char_not_lower.
Qed.

End TextFacts.

(** X24. [_clean_entity_text] returns the empty string or a text of at
    least three characters that is single-spaced (no white space but
    single blanks between words, none at either end) and does not begin
    with a lowercase letter; a value that is not a string gives the empty
    string. *)
Theorem clean_entity_text_shape (text : PyVal.t) :
  (BuilderV2Entities._clean_entity_text text = ""
   \/ ((3 <= String.length (BuilderV2Entities._clean_entity_text text))%nat
       /\ TextFacts.spaced true (BuilderV2Entities._clean_entity_text text) = true
       /\ TextFacts.starts_lower (BuilderV2Entities._clean_entity_text text) = false))
  /\ ((forall s, text <> PyVal.PStr s) -> BuilderV2Entities._clean_entity_text text = "").
Proof.
  split.
  - destruct (TextFacts.clean_text_shape text) as [Hempty|(Hlen & Hspaced & Hlower)];
      [now left|].
    right. split; [lia|]. now split.
  - intros Hother. destruct text as [| | | |s| |]; try reflexivity.
    now destruct (Hother s).
Qed.

Module EntityFacts.
Import PyVal BuilderV2 BuilderV2Entities.

Lemma first_items_length n items l :
  first_items n items = Some l -> (List.length l <= n)%nat.
Proof.
  destruct items as [| | | |s|l'|]; try discriminate; intros [= <-].
  - rewrite List.length_map, List.length_firstn. lia.
  - rewrite List.length_firstn. lia.
Qed.

Lemma cleaned_entities_spec n items entity entities :
  cleaned_entities n items entity = Some entities ->
  (List.length entities <= n)%nat
  /\ forall e, In e entities ->
       exists item, e = entity (_clean_entity_text item)
                    /\ _clean_entity_text item <> "".
Proof.
  unfold cleaned_entities.
  destruct (first_items n items) as [l|] eqn:Hitems; [|discriminate].
  cbn [mbind option_bind]. intros [= <-].
  apply first_items_length in Hitems. split.
  - etransitivity; [|exact Hitems].
    apply SemanticFacts.flat_map_length_le. intros item.
    destruct item as [| | | |s| |]; simpl; try lia.
    destruct (0 <? String.length (PyStr.strip s))%nat; [|simpl; lia].
    cbv zeta. destruct (negb _); simpl; lia.
  - intros e Hin. apply in_flat_map in Hin. destruct Hin as (item & _ & Hin).
    destruct item as [| | | |s| |]; try (destruct Hin).
    destruct (0 <? String.length (PyStr.strip s))%nat; [|destruct Hin].
    cbv zeta in Hin.
    destruct (String.eqb (_clean_entity_text (PStr s)) "") eqn:Hclean;
      [destruct Hin|].
    destruct Hin as [<-|[]]. exists (PStr s). split; [reflexivity|].
    now apply String.eqb_neq.
Qed.

(** A text as [_clean_entity_text] leaves it. *)
Definition clean_text (s : string) : Prop :=
  (3 <= String.length s)%nat
  /\ TextFacts.spaced true s = true
  /\ TextFacts.starts_lower s = false.

Lemma extracted_clean n items entity node_type confidence entities :
  (forall s, CleanEntity.text (entity s) = s
             /\ CleanEntity.entity_type (entity s) = node_type
             /\ CleanEntity.confidence (entity s) = confidence
             /\ CleanEntity.source (entity s) = "needs_analysis") ->
  cleaned_entities n items entity = Some entities ->
  (List.length entities <= n)%nat
  /\ forall e, In e entities ->
       CleanEntity.entity_type e = node_type
       /\ CleanEntity.confidence e = confidence
       /\ CleanEntity.source e = "needs_analysis"
       /\ clean_text (CleanEntity.text e).
Proof.
  intros Hentity Hrun.
  destruct (cleaned_entities_spec _ _ _ _ Hrun) as [Hlen Hall].
  split; [exact Hlen|]. intros e Hin.
  destruct (Hall e Hin) as (item & -> & Hne).
  destruct (Hentity (_clean_entity_text item)) as (-> & -> & -> & ->).
  repeat (split; [reflexivity|]).
  destruct (TextFacts.clean_text_shape item) as [Hempty|(Hlen' & Hspaced & Hlower)];
    [now destruct Hne|].
  split; [lia|]. now split.
Qed.

Lemma cleaned_entities_default n entity :
  cleaned_entities n (PList []) entity = Some [].
Proof. unfold cleaned_entities. simpl. now destruct n. Qed.

End EntityFacts.

(** X25. The entities taken from the needs analysis are few and clean:
    [_extract_behavioral_pattern_entities] and
    [_extract_personality_trait_entities] return at most five entities
    and [_extract_life_theme_entities] at most three, each of the
    function's node type (BEHAVIORAL_PATTERN, PERSONALITY_TRAIT, CONCEPT)
    and confidence (0.8, 0.8, 0.7), from the source ["needs_analysis"],
    with a text of at least three characters that is single-spaced and
    does not begin with a lowercase letter.  A needs analysis without the
    entry gives no entity. *)
Theorem needs_entities_are_clean (needs_analysis : BuilderV2Entities.Dict) :
  (forall entities,
     BuilderV2Entities._extract_behavioral_pattern_entities needs_analysis = Some entities ->
     (List.length entities <= 5)%nat
     /\ forall e, In e entities ->
          CleanEntity.entity_type e = BEHAVIORAL_PATTERN
          /\ CleanEntity.confidence e = 8 # 10
          /\ CleanEntity.source e = "needs_analysis"
          /\ EntityFacts.clean_text (CleanEntity.text e))
  /\ (forall entities,
        BuilderV2Entities._extract_personality_trait_entities needs_analysis
        = Some entities ->
        (List.length entities <= 5)%nat
        /\ forall e, In e entities ->
             CleanEntity.entity_type e = PERSONALITY_TRAIT
             /\ CleanEntity.confidence e = 8 # 10
             /\ CleanEntity.source e = "needs_analysis"
             /\ EntityFacts.clean_text (CleanEntity.text e))
  /\ (forall entities,
        BuilderV2Entities._extract_life_theme_entities needs_analysis = Some entities ->
        (List.length entities <= 3)%nat
        /\ forall e, In e entities ->
             CleanEntity.entity_type e = CONCEPT
             /\ CleanEntity.confidence e = 7 # 10
             /\ CleanEntity.source e = "needs_analysis"
             /\ EntityFacts.clean_text (CleanEntity.text e))
  /\ (PyDict.get needs_analysis "behavioral_patterns" = None ->
      BuilderV2Entities._extract_behavioral_pattern_entities needs_analysis = Some [])
  /\ (PyDict.get needs_analysis "personality_traits" = None ->
      BuilderV2Entities._extract_personality_trait_entities needs_analysis = Some [])
  /\ (PyDict.get needs_analysis "life_themes" = None ->
      BuilderV2Entities._extract_life_theme_entities needs_analysis = Some []).
Proof.
  split; [|split; [|split; [|split; [|split]]]].
  - intros entities. apply EntityFacts.extracted_clean. intros s. now repeat split.
  - intros entities. apply EntityFacts.extracted_clean. intros s. now repeat split.
  - intros entities. apply EntityFacts.extracted_clean. intros s. now repeat split.
  - intros Habsent. unfold BuilderV2Entities._extract_behavioral_pattern_entities,
      PyDict.get_default. rewrite Habsent. apply EntityFacts.cleaned_entities_default.
  - intros Habsent. unfold BuilderV2Entities._extract_personality_trait_entities,
      PyDict.get_default. rewrite Habsent. apply EntityFacts.cleaned_entities_default.
  - intros Habsent. unfold BuilderV2Entities._extract_life_theme_entities,
      PyDict.get_default. rewrite Habsent. apply EntityFacts.cleaned_entities_default.
Qed.

(** ** Node attributes *)

Module AttributeFacts.
Import PyVal GraphExtraction.

Lemma max_item_finite float_of_string best best_score items :
  snd best = PFloat (Finite best_score) ->
  (forall item, In item items -> exists q, snd item = PFloat (Finite q)) ->
  exists k s,
    max_item float_of_string best (Finite best_score) items = Some (k, PFloat (Finite s))
    /\ In (k, PFloat (Finite s)) (best :: items)
    /\ best_score <= s
    /\ forall k' q', In (k', PFloat (Finite q')) items -> q' <= s.
Proof.
  revert best best_score. induction items as [|item rest IH]; intros best best_score Hb Hall.
  - destruct best as [k v]. simpl in Hb. subst v. exists k, best_score.
    split; [reflexivity|]. split; [now left|]. split; [apply Qle_refl|].
    intros k' q' [].
  - destruct (Hall item (or_introl eq_refl)) as [q Hq].
    assert (Hrest : forall i, In i rest -> exists q0, snd i = PFloat (Finite q0))
      by (intros i Hi; apply Hall; now right).
    simpl. rewrite Hq. simpl.
    destruct (Qle_bool q best_score) eqn:Hle; simpl.
    + apply Qle_bool_iff in Hle.
      destruct (IH best best_score Hb Hrest) as (k & s & Hmax & Hin & Hbs & Hothers).
      exists k, s. split; [exact Hmax|]. split.
      { destruct Hin as [Hin|Hin]; [now left | right; now right]. }
      split; [exact Hbs|].
      intros k' q' [Heq|Hin'].
      * rewrite Heq in Hq. simpl in Hq. injection Hq as ->.
        now apply Qle_trans with best_score.
      * now apply (Hothers k').
    + assert (Hlt : best_score < q).
      { apply Qnot_le_lt. intros H0. apply Qle_bool_iff in H0. congruence. }
      destruct (IH item q Hq Hrest) as (k & s & Hmax & Hin & Hqs & Hothers).
      exists k, s. split; [exact Hmax|]. split; [now right|].
      split; [apply Qlt_le_weak; now apply Qlt_le_trans with q|].
      intros k' q' [Heq|Hin'].
      * rewrite Heq in Hq. simpl in Hq. injection Hq as ->. exact Hqs.
      * now apply (Hothers k').
Qed.

Lemma fold_set_keeps (props acc : Dict) k :
  ~ In k (PyDict.keys props) ->
  PyDict.get (fold_left (fun acc kv => PyDict.set acc (fst kv) (snd kv)) props acc) k
  = PyDict.get acc k.
Proof.
  revert acc. induction props as [|[k0 v0] props IH]; intros acc Hnot; simpl.
  - reflexivity.
  - rewrite IH by (intros Hin; apply Hnot; now right).
    apply PyDictFacts.get_set_ne. intros ->. apply Hnot. now left.
Qed.

Lemma fold_set_wins (props acc : Dict) k v :
  List.NoDup (PyDict.keys props) -> In (k, v) props ->
  PyDict.get (fold_left (fun acc kv => PyDict.set acc (fst kv) (snd kv)) props acc) k
  = Some v.
Proof.
  revert acc. induction props as [|[k0 v0] props IH]; intros acc Hnd Hin; [destruct Hin|].
  simpl in Hnd. inversion Hnd as [|? ? Hfresh Hnd']; subst.
  destruct Hin as [[= -> ->]|Hin]; simpl.
  - rewrite fold_set_keeps by assumption. apply PyDictFacts.get_set_eq.
  - now apply IH.
Qed.

End AttributeFacts.

(** X26. [_build_node_attributes] names as dominant need a need of
    greatest score: for a needs classification whose scores are finite
    floats, and no domain-specific properties, the attributes hold the
    classification, a [dominant_need] that is one of its needs and a
    [dominant_need_score] that is this need's score and at least every
    score of the classification.  Domain-specific properties are written
    last: each entry of theirs is found in the attributes under its key,
    whatever the agent had put there. *)
Theorem node_attributes_dominant_need
    (float_of_string : string -> option PyVal.pyfloat)
    (update_from_iterable : GraphExtraction.Dict -> PyVal.t -> option GraphExtraction.Dict)
    (hypernode : GraphExtraction.Dict) :
  (forall first rest,
     PyDict.get hypernode "needs_classification" = Some (PyVal.PDict (first :: rest)) ->
     (forall item, In item (first :: rest) ->
        exists q, snd item = PyVal.PFloat (PyVal.Finite q)) ->
     PyDict.get hypernode "domain_specific_properties" = None ->
     exists attributes k s,
       GraphExtraction._build_node_attributes float_of_string update_from_iterable hypernode
       = Some attributes
       /\ PyDict.get attributes "needs_scores" = Some (PyVal.PDict (first :: rest))
       /\ PyDict.get attributes "dominant_need" = Some (PyVal.PStr k)
       /\ PyDict.get attributes "dominant_need_score"
          = Some (PyVal.PFloat (PyVal.Finite s))
       /\ In (k, PyVal.PFloat (PyVal.Finite s)) (first :: rest)
       /\ forall k' q', In (k', PyVal.PFloat (PyVal.Finite q')) (first :: rest) -> q' <= s)
  /\ (forall props attributes,
        PyDict.get hypernode "domain_specific_properties" = Some (PyVal.PDict props) ->
        GraphExtraction._build_node_attributes float_of_string update_from_iterable hypernode
        = Some attributes ->
        List.NoDup (PyDict.keys props) ->
        forall k v, In (k, v) props -> PyDict.get attributes k = Some v).
Proof.
  split.
  - intros first rest Hneeds Hall Hprops.
    destruct (Hall first (or_introl eq_refl)) as [q0 Hq0].
    destruct (AttributeFacts.max_item_finite float_of_string first q0 rest Hq0
                (fun item Hin => Hall item (or_intror Hin)))
      as (k & s & Hmax & Hin & Hfirst & Hothers).
    unfold GraphExtraction._build_node_attributes, PyDict.get_default.
    rewrite Hneeds, Hprops. cbn [PyVal.truthy].
    rewrite Hq0. cbn [GraphExtraction.to_float mbind option_bind].
    rewrite Hmax. cbn [mbind option_bind snd fst GraphExtraction.to_float PyVal.truthy].
    eexists _, k, s. split; [reflexivity|].
    split; [|split; [|split; [|split]]].
    + rewrite !PyDictFacts.get_set_ne by discriminate. apply PyDictFacts.get_set_eq.
    + rewrite PyDictFacts.get_set_ne by discriminate. apply PyDictFacts.get_set_eq.
    + apply PyDictFacts.get_set_eq.
    + exact Hin.
    + intros k' q' [Heq|Hin'].
      * rewrite Heq in Hq0. simpl in Hq0. injection Hq0 as ->. exact Hfirst.
      * now apply (Hothers k').
  - intros props attributes Hprops Hbuild Hnd k v Hin.
    unfold GraphExtraction._build_node_attributes in Hbuild.
    unfold PyDict.get_default in Hbuild. rewrite Hprops in Hbuild.
    match type of Hbuild with
    | (mbind _ ?before = _) => destruct before as [attributes0|]; [|discriminate Hbuild]
    end.
    cbn [mbind option_bind] in Hbuild.
    destruct props as [|item props]; [destruct Hin|].
    cbn [PyVal.truthy] in Hbuild. injection Hbuild as <-.
    exact (AttributeFacts.fold_set_wins _ _ _ _ Hnd Hin).
Qed.

(** ** Dimension values *)

Module DimensionFacts.
Import GraphExtractor.

(** On ASCII the word class of the dimension values is the class of the
    key components. *)
Lemma dimension_char_ascii (c : ascii) :
  (nat_of_ascii c <? 128)%nat = true -> is_dimension_char c = is_key_char c.
Proof.
  destruct c as [[] [] [] [] [] [] [] []]; vm_compute; intros H;
    try reflexivity; discriminate H.
Qed.

(** Beyond ASCII it holds characters, such as the letter of code point
    233, that the class of the key components does not. *)
Lemma dimension_char_beyond_ascii :
  is_dimension_char (ascii_of_nat 233) = true /\ is_key_char (ascii_of_nat 233) = false.
Proof. split; reflexivity. Qed.

Lemma underscore_dimension_char : is_dimension_char "_" = true.
Proof. reflexivity. Qed.

Lemma all_replace_non_word s :
  KeyFacts.all_chars is_dimension_char (replace_non_word s) = true.
Proof.
  induction s as [|c s IH]; [reflexivity|].
  cbn [replace_non_word KeyFacts.all_chars].
  rewrite IH, andb_true_r.
  destruct (is_dimension_char c) eqn:Hc; [exact Hc | reflexivity].
Qed.

Lemma replace_non_word_id s :
  KeyFacts.all_chars is_dimension_char s = true -> replace_non_word s = s.
Proof.
  induction s as [|c s IH]; [reflexivity|].
  cbn [replace_non_word KeyFacts.all_chars].
  intros Hall. apply andb_true_iff in Hall. destruct Hall as [Hc Hs].
  now rewrite Hc, IH.
Qed.

Lemma replace_non_word_length s :
  String.length (replace_non_word s) = String.length s.
Proof.
  induction s as [|c s IH]; [reflexivity|].
  cbn [replace_non_word String.length]. now rewrite IH.
Qed.

Lemma all_chars_In cls s c :
  KeyFacts.all_chars cls s = true -> In c (list_ascii_of_string s) -> cls c = true.
Proof.
  induction s as [|c' s IH]; cbn [KeyFacts.all_chars list_ascii_of_string In];
    [intros _ []|].
  intros Hall [<-|Hin]; apply andb_true_iff in Hall; destruct Hall as [Hc Hs].
  - exact Hc.
  - now apply IH.
Qed.

Lemma dimension_shape value :
  _sanitize_dimension_value value <> ""
  /\ (String.length (_sanitize_dimension_value value) <= 50)%nat
  /\ KeyFacts.all_chars is_dimension_char (_sanitize_dimension_value value) = true.
Proof.
  unfold _sanitize_dimension_value.
  set (sanitized := replace_non_word (PyStr.slice_to 50 value)).
  destruct (String.eqb sanitized "") eqn:Hempty.
  - repeat split; [discriminate | cbn [String.length]; lia].
  - split; [|split].
    + intros Heq. rewrite Heq in Hempty. discriminate Hempty.
    + unfold sanitized. rewrite replace_non_word_length. apply KeyFacts.slice_length.
    + apply all_replace_non_word.
Qed.

Lemma dimension_fixed value :
  value <> "" -> (String.length value <= 50)%nat ->
  KeyFacts.all_chars is_dimension_char value = true ->
  _sanitize_dimension_value value = value.
Proof.
  intros Hne Hlen Hall. unfold _sanitize_dimension_value.
  rewrite (KeyFacts.slice_id _ _ Hlen), (replace_non_word_id _ Hall).
  destruct (String.eqb value "") eqn:Hempty; [|reflexivity].
  apply String.eqb_eq in Hempty. contradiction.
Qed.

End DimensionFacts.

(** X27. [_sanitize_dimension_value] returns a string that is not empty
    and has at most 50 characters, each a word character of the pattern,
    a hyphen, an underscore or a dot.  The word class is the
    Unicode-aware one, so a letter beyond ASCII is kept, but every ASCII
    character of the result is a letter, a digit, a hyphen, an underscore
    or a dot (no slash, blank or control character).  A value that is
    already of this shape is returned as it is, and sanitising twice
    changes nothing more. *)
Theorem dimension_values_are_safe (value : string) :
  GraphExtractor._sanitize_dimension_value value <> ""
  /\ (String.length (GraphExtractor._sanitize_dimension_value value) <= 50)%nat
  /\ KeyFacts.all_chars GraphExtractor.is_dimension_char
       (GraphExtractor._sanitize_dimension_value value) = true
  /\ (forall c, In c (list_ascii_of_string (GraphExtractor._sanitize_dimension_value value)) ->
        (nat_of_ascii c < 128)%nat -> GraphExtractor.is_key_char c = true)
  /\ (value <> "" -> (String.length value <= 50)%nat ->
      KeyFacts.all_chars GraphExtractor.is_dimension_char value = true ->
      GraphExtractor._sanitize_dimension_value value = value)
  /\ GraphExtractor._sanitize_dimension_value
       (GraphExtractor._sanitize_dimension_value value)
     = GraphExtractor._sanitize_dimension_value value.
Proof.
  destruct (DimensionFacts.dimension_shape value) as (Hne & Hlen & Hall).
  split; [exact Hne|]. split; [exact Hlen|]. split; [exact Hall|].
  split; [|split].
  - intros c Hin Hascii.
    rewrite <- DimensionFacts.dimension_char_ascii by now apply Nat.ltb_lt.
    now apply (DimensionFacts.all_chars_In _ _ _ Hall).
  - apply DimensionFacts.dimension_fixed.
  - now apply DimensionFacts.dimension_fixed.
Qed.
